(** * Employee-Attendance-App: client session and realtime channel

    A shallow embedding of the two services of the mobile client,
    [mobile_app/src/services/ApiService.ts] (token attachment, the 401-driven
    refresh-and-retry response interceptor, logout) and
    [mobile_app/src/services/WebSocketService.ts] (the notification socket:
    connect, event handlers, message dispatch, reconnect backoff, heartbeat).

    JavaScript runs one synchronous segment at a time; other code can only
    interleave where an [async] function awaits.  The embedding keeps exactly
    that structure: a method is a term of the monad [async], whose [Await]
    nodes are the suspension points of the source, and [run_sync] executes
    one segment up to the next suspension.

    What the services lean on is modelled by its documented behaviour:
    - AsyncStorage is a map from keys to strings whose operations answer
      later, with a value or with an error;
    - the axios instance runs the request interceptor, the exchange on the
      network and the response interceptor, for every call made through it,
      the calls the interceptor makes itself included; a status outside 2xx
      rejects with an [AxiosError] that carries the request configuration;
    - [EventEmitter.emit] calls the listeners of the event synchronously, in
      registration order, and lets an exception of a listener escape;
    - the host delivers socket events and timer firings one at a time. *)

From Stdlib Require Import ZArith Lia List String Bool.
From stdpp Require Import base option list gmap strings.

Set Default Proof Using "Type".
Set Warnings "-register-all".
Local Open Scope string_scope.
Local Open Scope list_scope.
Local Open Scope Z_scope.

(** ** JavaScript values, requests, errors *)

(** The values that travel in frames, payloads and response bodies
    ([data: any] in the source). *)
Inductive value : Type :=
| VUndefined
| VNull
| VBool (b : bool)
| VNum (n : Z)
| VStr (s : string)
| VArr (items : list value)
| VObj (fields : list (string * value)).

(** [String.eqb] under a name that survives stdpp's notations. *)
Definition str_eqb (a b : string) : bool := String.eqb a b.

(** [o[k]]: the first binding of [k], [undefined] when there is none. *)
Fixpoint lookup_field (k : string) (fields : list (string * value)) : value :=
  match fields with
  | [] => VUndefined
  | (k', v) :: rest => if str_eqb k k' then v else lookup_field k rest
  end.

(** JavaScript truthiness of a stored string ([!!token]): [null] and the
    empty string are falsy. *)
Definition truthy (item : option string) : bool :=
  match item with
  | None => false
  | Some s => negb (str_eqb s "")
  end.

(** An axios request configuration; [_retry] is the marker the response
    interceptor sets on [originalRequest]. *)
Record request : Type := mkRequest {
  method : string;
  url : string;
  body : value;
  authorization : option string;
  _retry : bool
}.

Definition set_retry (b : bool) (r : request) : request :=
  {| method := method r; url := url r; body := body r;
     authorization := authorization r; _retry := b |}.

Definition set_authorization (a : option string) (r : request) : request :=
  {| method := method r; url := url r; body := body r;
     authorization := a; _retry := _retry r |}.

Record response : Type := mkResponse {
  resp_status : Z;
  resp_data : value
}.

(** What a promise can reject with: an [AxiosError] (its [config] and
    [response?.status]) or any other thrown error. *)
Inductive exn : Type :=
| AxiosError (config : request) (status : option Z)
| Thrown (msg : string).

Inductive outcome (A : Type) : Type :=
| Ok (a : A)
| Err (e : exn).
Arguments Ok {A} a.
Arguments Err {A} e.

(** ** The [async] monad *)

(** The operations an [await] can suspend on.  [Dispatch r] is a call of the
    axios instance, [this.api(r)], which runs the interceptors; [Transport r]
    is the bare network exchange underneath it; [Parked p] is the promise [p]
    whose [resolve]/[reject] pair sits in [failedQueue]. *)
Inductive op : Type :=
| GetItem (key : string)
| SetItem (key item : string)
| MultiRemove (keys : list string)
| Transport (r : request)
| Dispatch (r : request)
| Parked (p : nat).

Inductive reply : Type :=
| RUnit
| RItem (item : option string)
| RResponse (resp : response)
| RReject (e : exn).

Section Async.
Context {S : Type}.

(** [Get]/[Put] read and write the fields of [this] (and whatever else the
    segment touches synchronously); [Await] ends the segment. *)
Inductive async (A : Type) : Type :=
| Pure (a : A)
| Raise (e : exn)
| Get (k : S -> async A)
| Put (s : S) (m : async A)
| Await (o : op) (k : reply -> async A).

Arguments Pure {A} a.
Arguments Raise {A} e.
Arguments Get {A} k.
Arguments Put {A} s m.
Arguments Await {A} o k.

Fixpoint bind {A B : Type} (m : async A) (f : A -> async B) : async B :=
  match m with
  | Pure a => f a
  | Raise e => Raise e
  | Get k => Get (fun s => bind (k s) f)
  | Put s m' => Put s (bind m' f)
  | Await o k => Await o (fun r => bind (k r) f)
  end.

(** [try { m } catch (e) { h e }] *)
Fixpoint try_catch {A : Type} (m : async A) (h : exn -> async A) : async A :=
  match m with
  | Pure a => Pure a
  | Raise e => h e
  | Get k => Get (fun s => try_catch (k s) h)
  | Put s m' => Put s (try_catch m' h)
  | Await o k => Await o (fun r => try_catch (k r) h)
  end.

(** [try { m } finally { f }]: [f] runs on both exits; when [f] itself
    throws, its error replaces the result. *)
Fixpoint try_finally {A : Type} (m : async A) (f : async unit) : async A :=
  match m with
  | Pure a => bind f (fun _ => Pure a)
  | Raise e => bind f (fun _ => Raise e)
  | Get k => Get (fun s => try_finally (k s) f)
  | Put s m' => Put s (try_finally m' f)
  | Await o k => Await o (fun r => try_finally (k r) f)
  end.

Definition modify (f : S -> S) : async unit :=
  Get (fun s => Put (f s) (Pure tt)).

Definition gets {A : Type} (f : S -> A) : async A :=
  Get (fun s => Pure (f s)).

(** Where a segment stops. *)
Inductive paused (A : Type) : Type :=
| Finished (r : outcome A)
| Blocked (o : op) (k : reply -> async A).

Arguments Finished {A} r.
Arguments Blocked {A} o k.

(** One synchronous segment: run up to the next [Await]. *)
Fixpoint run_sync {A : Type} (m : async A) (s : S) : S * paused A :=
  match m with
  | Pure a => (s, Finished (Ok a))
  | Raise e => (s, Finished (Err e))
  | Get k => run_sync (k s) s
  | Put s' m' => run_sync m' s'
  | Await o k => (s, Blocked o k)
  end.

(** Run [m] against a script of answers, one per suspension, and record
    the operations it suspended on. *)
Fixpoint run_with {A : Type} (answers : list reply) (m : async A) (s : S)
  : S * list op * paused A :=
  match run_sync m s with
  | (s', Finished r) => (s', [], Finished r)
  | (s', Blocked o k) =>
      match answers with
      | [] => (s', [o], Blocked o k)
      | r :: rest =>
          let '(s'', ops, p) := run_with rest (k r) s' in
          (s'', o :: ops, p)
      end
  end.

(** The same among other code: while [m] is suspended, other segments run
    and change the state; each answer comes with what they did to it. *)
Fixpoint run_among {A : Type} (answers : list (reply * (S -> S))) (m : async A) (s : S)
  : S * list op * paused A :=
  match run_sync m s with
  | (s', Finished r) => (s', [], Finished r)
  | (s', Blocked o k) =>
      match answers with
      | [] => (s', [o], Blocked o k)
      | (r, others) :: rest =>
          let '(s'', ops, p) := run_among rest (k r) (others s') in
          (s'', o :: ops, p)
      end
  end.
End Async.

Arguments async : clear implicits.
Arguments paused : clear implicits.
Arguments Pure {S A} a.
Arguments Raise {S A} e.
Arguments Get {S A} k.
Arguments Put {S A} s m.
Arguments Await {S A} o k.
Arguments Finished {S A} r.
Arguments Blocked {S A} o k.

Declare Scope async_scope.
Delimit Scope async_scope with async.
Notation "x <- m ;; k" := (bind m (fun x => k))
  (at level 20, m at level 99, k at level 200, only parsing) : async_scope.
Notation "m ;;; k" := (bind m (fun _ => k))
  (at level 100, k at level 200, right associativity, only parsing) : async_scope.

(** ** WebSocketService.ts *)

Module WebSocketService.
Local Open Scope async_scope.

Inductive readyState : Type := CONNECTING | OPEN | CLOSING | CLOSED.

Definition is_OPEN (r : readyState) : bool :=
  match r with OPEN => true | _ => false end.

(** A [WebSocket] object: [sock_wired] records that [setupEventHandlers]
    installed the service's four handlers on it. *)
Record socket : Type := mkSocket {
  sock_url : string;
  sock_state : readyState;
  sock_wired : bool
}.

(** A callback registered on the emitter: its identity, and whether it
    returns ([None]) or throws ([Some e]) on a given argument. *)
Record listener : Type := mkListener {
  lid : nat;
  body : value -> option exn
}.

(** The three closures the service hands to [setTimeout]/[setInterval]:
    the one in [handleReconnect], the one in [startHeartbeat], the one in
    [updateServerUrl]. *)
Inductive callback : Type := ReconnectTimer | HeartbeatTimer | UpdateUrlTimer.

Record timer : Type := mkTimer {
  tm_id : nat;
  tm_repeat : bool;
  tm_delay : Z;
  tm_callback : callback
}.

Inductive level : Type := LOG | WARN | ERROR.

(** What the service does to the outside, in order. *)
Inductive effect : Type :=
| Console (l : level) (msg : string)
| Constructed (sid : nat) (wsUrl : string)
| Sent (sid : nat) (message : value)
| Closed (sid : nat)
| Called (l : nat) (event : string) (arg : value)
| Uncaught (e : exn).

(** The fields of the service, the listener table of its [EventEmitter]
    base class, and the environment it acts on: every socket constructed
    so far ([ws] is a reference into [sockets]), the pending timers and
    the trace of effects. *)
Record world : Type := mkWorld {
  ws : option nat;
  reconnectAttempts : Z;
  maxReconnectAttempts : Z;
  reconnectInterval : Z;
  isConnecting : bool;
  shouldReconnect : bool;
  heartbeatInterval : option nat;
  baseUrl : string;
  listeners : gmap string (list listener);
  sockets : list socket;
  timers : list timer;
  next_timer : nat;
  effects : list effect
}.

Definition set_ws (x : option nat) (w : world) : world :=
  mkWorld x (reconnectAttempts w) (maxReconnectAttempts w) (reconnectInterval w)
    (isConnecting w) (shouldReconnect w) (heartbeatInterval w) (baseUrl w)
    (listeners w) (sockets w) (timers w) (next_timer w) (effects w).
Definition set_reconnectAttempts (x : Z) (w : world) : world :=
  mkWorld (ws w) x (maxReconnectAttempts w) (reconnectInterval w)
    (isConnecting w) (shouldReconnect w) (heartbeatInterval w) (baseUrl w)
    (listeners w) (sockets w) (timers w) (next_timer w) (effects w).
Definition set_isConnecting (x : bool) (w : world) : world :=
  mkWorld (ws w) (reconnectAttempts w) (maxReconnectAttempts w) (reconnectInterval w)
    x (shouldReconnect w) (heartbeatInterval w) (baseUrl w)
    (listeners w) (sockets w) (timers w) (next_timer w) (effects w).
Definition set_shouldReconnect (x : bool) (w : world) : world :=
  mkWorld (ws w) (reconnectAttempts w) (maxReconnectAttempts w) (reconnectInterval w)
    (isConnecting w) x (heartbeatInterval w) (baseUrl w)
    (listeners w) (sockets w) (timers w) (next_timer w) (effects w).
Definition set_heartbeatInterval (x : option nat) (w : world) : world :=
  mkWorld (ws w) (reconnectAttempts w) (maxReconnectAttempts w) (reconnectInterval w)
    (isConnecting w) (shouldReconnect w) x (baseUrl w)
    (listeners w) (sockets w) (timers w) (next_timer w) (effects w).
Definition set_baseUrl (x : string) (w : world) : world :=
  mkWorld (ws w) (reconnectAttempts w) (maxReconnectAttempts w) (reconnectInterval w)
    (isConnecting w) (shouldReconnect w) (heartbeatInterval w) x
    (listeners w) (sockets w) (timers w) (next_timer w) (effects w).
Definition set_listeners (x : gmap string (list listener)) (w : world) : world :=
  mkWorld (ws w) (reconnectAttempts w) (maxReconnectAttempts w) (reconnectInterval w)
    (isConnecting w) (shouldReconnect w) (heartbeatInterval w) (baseUrl w)
    x (sockets w) (timers w) (next_timer w) (effects w).
Definition set_sockets (x : list socket) (w : world) : world :=
  mkWorld (ws w) (reconnectAttempts w) (maxReconnectAttempts w) (reconnectInterval w)
    (isConnecting w) (shouldReconnect w) (heartbeatInterval w) (baseUrl w)
    (listeners w) x (timers w) (next_timer w) (effects w).
Definition set_timers (x : list timer) (n : nat) (w : world) : world :=
  mkWorld (ws w) (reconnectAttempts w) (maxReconnectAttempts w) (reconnectInterval w)
    (isConnecting w) (shouldReconnect w) (heartbeatInterval w) (baseUrl w)
    (listeners w) (sockets w) x n (effects w).
Definition set_effects (x : list effect) (w : world) : world :=
  mkWorld (ws w) (reconnectAttempts w) (maxReconnectAttempts w) (reconnectInterval w)
    (isConnecting w) (shouldReconnect w) (heartbeatInterval w) (baseUrl w)
    (listeners w) (sockets w) (timers w) (next_timer w) x.

(** The service as its constructor leaves it. *)
Definition initial : world :=
  mkWorld None 0 5 1000 false true None "ws://192.168.1.100:8000" ∅ [] [] 1%nat [].

Definition tell (e : effect) : async world unit :=
  modify (fun w => set_effects (effects w ++ [e]) w).

Definition console (l : level) (msg : string) : async world unit :=
  tell (Console l msg).

(** [this.ws && this.ws.readyState === WebSocket.OPEN] *)
Definition ws_is_open (w : world) : bool :=
  match ws w with
  | None => false
  | Some sid =>
      match sockets w !! sid with
      | Some s => is_OPEN (sock_state s)
      | None => false
      end
  end.

(** *** EventEmitter *)

(** [emitter.on(event, cb)]: append to the event's listener array. *)
Definition on (event : string) (cb : listener) : async world unit :=
  modify (fun w =>
    set_listeners (<[event := default [] (listeners w !! event) ++ [cb]]> (listeners w)) w).

(** Drop the last occurrence of the callback, as [removeListener] does. *)
Fixpoint remove_last (l : nat) (ls : list listener) : list listener * bool :=
  match ls with
  | [] => ([], false)
  | x :: rest =>
      let (rest', found) := remove_last l rest in
      if found then (x :: rest', true)
      else if Nat.eqb (lid x) l then (rest, true)
      else (x :: rest, false)
  end.

Definition off (event : string) (cb : listener) : async world unit :=
  modify (fun w =>
    match listeners w !! event with
    | None => w
    | Some ls => set_listeners (<[event := fst (remove_last (lid cb) ls)]> (listeners w)) w
    end).

(** The loop of [emit]: the listeners are called synchronously, in
    registration order, with nothing around each call; a listener that
    throws ends the loop and the exception leaves [emit]. *)
Fixpoint call_listeners (event : string) (arg : value) (ls : list listener)
  : async world unit :=
  match ls with
  | [] => Pure tt
  | cb :: rest =>
      tell (Called (lid cb) event arg) ;;;
      match body cb arg with
      | Some e => Raise e
      | None => call_listeners event arg rest
      end
  end.

(** [emitter.emit(event, arg)]: [false] when nobody listens, except that an
    unheard ['error'] event is thrown. *)
Definition emit (event : string) (arg : value) : async world bool :=
  w <- gets listeners ;;
  match default [] (w !! event) with
  | [] =>
      if str_eqb event "error" then Raise (Thrown "Unhandled error.")
      else Pure false
  | ls => call_listeners event arg ls ;;; Pure true
  end.

(** *** Timers of the host *)

Definition schedule (rep : bool) (cb : callback) (delay : Z) : async world nat :=
  w <- Get Pure ;;
  let id := next_timer w in
  Put (set_timers (timers w ++ [mkTimer id rep delay cb]) (S id) w) (Pure id).

Definition setTimeout (cb : callback) (delay : Z) : async world nat :=
  schedule false cb delay.
Definition setInterval (cb : callback) (delay : Z) : async world nat :=
  schedule true cb delay.

Definition clearInterval (id : nat) : async world unit :=
  modify (fun w =>
    set_timers (filter (fun t => tm_id t ≠ id) (timers w)) (next_timer w) w).

(** *** The methods of the service *)

Definition get : async world world := Get Pure.

Definition ping : value := VObj [("type", VStr "ping")].

Definition sendMessage (message : value) : async world unit :=
  w <- get ;;
  if ws_is_open w then
    match ws w with
    | Some sid => tell (Sent sid message)   (* this.ws.send(JSON.stringify(message)) *)
    | None => Pure tt
    end
  else console WARN "WebSocket is not connected, cannot send message".

Definition stopHeartbeat : async world unit :=
  w <- get ;;
  match heartbeatInterval w with
  | Some id => clearInterval id ;;; modify (set_heartbeatInterval None)
  | None => Pure tt
  end.

Definition startHeartbeat : async world unit :=
  stopHeartbeat ;;;
  id <- setInterval HeartbeatTimer 30000 ;;
  modify (set_heartbeatInterval (Some id)).

(** [Math.pow(2, this.reconnectAttempts - 1)]; the counter has just been
    incremented from a value that is never negative, so the exponent is a
    natural number and the power an exact integer. *)
Definition handleReconnect : async world unit :=
  w <- get ;;
  if reconnectAttempts w >=? maxReconnectAttempts w then
    console ERROR "Max reconnection attempts reached" ;;;
    _ <- emit "max_reconnect_attempts_reached" VUndefined ;;
    Pure tt
  else
    modify (set_reconnectAttempts (reconnectAttempts w + 1)) ;;;
    w <- get ;;
    let delay := reconnectInterval w * 2 ^ (reconnectAttempts w - 1) in
    console LOG "Attempting to reconnect" ;;;
    _ <- setTimeout ReconnectTimer delay ;;
    Pure tt.

(** [new WebSocket(wsUrl)] assigned to [this.ws]. *)
Definition new_WebSocket (wsUrl : string) : async world unit :=
  w <- get ;;
  let sid := length (sockets w) in
  Put (set_ws (Some sid) (set_sockets (sockets w ++ [mkSocket wsUrl CONNECTING false]) w))
      (tell (Constructed sid wsUrl)).

Definition setupEventHandlers : async world unit :=
  w <- get ;;
  match ws w with
  | None => Pure tt
  | Some sid =>
      match sockets w !! sid with
      | Some s =>
          Put (set_sockets
                 (<[sid := mkSocket (sock_url s) (sock_state s) true]> (sockets w)) w)
              (Pure tt)
      | None => Pure tt
      end
  end.

Definition connect : async world unit :=
  w <- get ;;
  if isConnecting w || ws_is_open w then Pure tt
  else
    modify (set_isConnecting true) ;;;
    try_catch
      (Await (GetItem "auth_token") (fun r =>
         match r with
         | RItem token =>
             if negb (truthy token) then
               console WARN "No auth token found, cannot connect to WebSocket" ;;;
               modify (set_isConnecting false)
             else
               w <- get ;;
               let wsUrl :=
                 (baseUrl w ++ "/ws/notifications/?token=" ++ default "" token)%string in
               console LOG "Connecting to WebSocket:" ;;;
               new_WebSocket wsUrl ;;;
               setupEventHandlers
         | RReject e => Raise e
         | _ => Raise (Thrown "AsyncStorage.getItem: unexpected result")
         end))
      (fun error =>
         console ERROR "WebSocket connection error:" ;;;
         modify (set_isConnecting false) ;;;
         handleReconnect).

Definition handleNotification (notification : value) : async world unit :=
  console LOG "New notification:" ;;;
  _ <- emit "notification" notification ;; Pure tt.

Definition handleAttendanceUpdate (data : value) : async world unit :=
  console LOG "Attendance update:" ;;;
  _ <- emit "attendance_update" data ;; Pure tt.

Definition handleLeaveUpdate (data : value) : async world unit :=
  console LOG "Leave update:" ;;;
  _ <- emit "leave_update" data ;; Pure tt.

Definition handleShiftUpdate (data : value) : async world unit :=
  console LOG "Shift update:" ;;;
  _ <- emit "shift_update" data ;; Pure tt.

Definition handlePayrollUpdate (data : value) : async world unit :=
  console LOG "Payroll update:" ;;;
  _ <- emit "payroll_update" data ;; Pure tt.

Definition handleSystemMessage (data : value) : async world unit :=
  console LOG "System message:" ;;;
  _ <- emit "system_message" data ;; Pure tt.

(** [message.k]: a [TypeError] on [null]/[undefined], [undefined] on the
    other values that are not objects. *)
Definition property (k : string) (message : value) : async world value :=
  match message with
  | VUndefined | VNull => Raise (Thrown "TypeError: Cannot read properties")
  | VObj fields => Pure (lookup_field k fields)
  | _ => Pure VUndefined
  end.

(** The [switch (message.type)] compares with [===] against string
    literals, so only a string can select a case. *)
Definition handleMessage (message : value) : async world unit :=
  console LOG "Received WebSocket message:" ;;;
  ty <- property "type" message ;;
  data <- property "data" message ;;
  match ty with
  | VStr t =>
      if str_eqb t "notification" then handleNotification data
      else if str_eqb t "attendance_update" then handleAttendanceUpdate data
      else if str_eqb t "leave_update" then handleLeaveUpdate data
      else if str_eqb t "shift_update" then handleShiftUpdate data
      else if str_eqb t "payroll_update" then handlePayrollUpdate data
      else if str_eqb t "system_message" then handleSystemMessage data
      else if str_eqb t "pong" then Pure tt
      else
        console WARN "Unknown message type:" ;;;
        _ <- emit "message" message ;; Pure tt
  | _ =>
      console WARN "Unknown message type:" ;;;
      _ <- emit "message" message ;; Pure tt
  end.

(** What [JSON.parse(event.data)] made of a frame. *)
Inductive parsed : Type :=
| SyntaxError
| Json (message : value).

Definition onopen : async world unit :=
  console LOG "WebSocket connected" ;;;
  modify (set_isConnecting false) ;;;
  modify (set_reconnectAttempts 0) ;;;
  startHeartbeat ;;;
  _ <- emit "connected" VUndefined ;; Pure tt.

Definition onmessage (data : parsed) : async world unit :=
  try_catch
    (match data with
     | SyntaxError => Raise (Thrown "SyntaxError: Unexpected token")
     | Json message => handleMessage message
     end)
    (fun error => console ERROR "Error parsing WebSocket message:").

Definition onclose (code : Z) (reason : string) : async world unit :=
  console LOG "WebSocket disconnected:" ;;;
  modify (set_isConnecting false) ;;;
  stopHeartbeat ;;;
  _ <- emit "disconnected" (VObj [("code", VNum code); ("reason", VStr reason)]) ;;
  w <- get ;;
  if shouldReconnect w then handleReconnect else Pure tt.

Definition onerror (error : value) : async world unit :=
  console ERROR "WebSocket error:" ;;;
  modify (set_isConnecting false) ;;;
  _ <- emit "error" error ;; Pure tt.

(** [ws.close()]: an open or connecting socket starts closing. *)
Definition close_socket (s : socket) : socket :=
  match sock_state s with
  | CLOSED => s
  | _ => mkSocket (sock_url s) CLOSING (sock_wired s)
  end.

Definition disconnect : async world unit :=
  modify (set_shouldReconnect false) ;;;
  stopHeartbeat ;;;
  w <- get ;;
  match ws w with
  | Some sid =>
      Put (set_ws None (set_sockets (alter close_socket sid (sockets w)) w))
          (tell (Closed sid))
  | None => Pure tt
  end.

Definition isConnected (w : world) : bool := ws_is_open w.

Definition getConnectionState (w : world) : string :=
  match ws w with
  | None => "CLOSED"
  | Some sid =>
      match sock_state <$> sockets w !! sid with
      | Some CONNECTING => "CONNECTING"
      | Some OPEN => "OPEN"
      | Some CLOSING => "CLOSING"
      | Some CLOSED => "CLOSED"
      | None => "UNKNOWN"
      end
  end.

Definition updateServerUrl (newUrl : string) : async world unit :=
  modify (set_baseUrl newUrl) ;;;
  w <- get ;;
  if isConnected w then
    disconnect ;;;
    _ <- setTimeout UpdateUrlTimer 1000 ;; Pure tt
  else Pure tt.

(** The subscription helpers; each returns the closure that undoes it. *)
Definition onNotification (cb : listener) : async world (async world unit) :=
  on "notification" cb ;;; Pure (off "notification" cb).
Definition onAttendanceUpdate (cb : listener) : async world (async world unit) :=
  on "attendance_update" cb ;;; Pure (off "attendance_update" cb).
Definition onLeaveUpdate (cb : listener) : async world (async world unit) :=
  on "leave_update" cb ;;; Pure (off "leave_update" cb).
Definition onShiftUpdate (cb : listener) : async world (async world unit) :=
  on "shift_update" cb ;;; Pure (off "shift_update" cb).
Definition onPayrollUpdate (cb : listener) : async world (async world unit) :=
  on "payroll_update" cb ;;; Pure (off "payroll_update" cb).

(** The bodies of the timer closures. *)
Definition fire (cb : callback) : async world unit :=
  match cb with
  | ReconnectTimer =>
      w <- get ;;
      if shouldReconnect w then connect else Pure tt
  | HeartbeatTimer =>
      w <- get ;;
      if ws_is_open w then sendMessage ping else Pure tt
  | UpdateUrlTimer => connect
  end.

(** *** The host: sockets, timers and the event loop *)

(** A running service: its world and the [async] calls that are waiting
    for an answer, oldest first. *)
Record system : Type := mkSystem {
  sys_world : world;
  suspended : list (op * (reply -> async world unit))
}.

(** Run one segment to its end.  An exception nobody caught is reported by
    the host and goes no further; a segment that awaits is parked. *)
Definition settle (m : async world unit) (sy : system) : system :=
  match run_sync m (sys_world sy) with
  | (w, Finished (Ok _)) => mkSystem w (suspended sy)
  | (w, Finished (Err e)) =>
      mkSystem (set_effects (effects w ++ [Uncaught e]) w) (suspended sy)
  | (w, Blocked o k) => mkSystem w (suspended sy ++ [(o, k)])
  end.

Inductive event : Type :=
| SocketOpen (sid : nat)
| SocketMessage (sid : nat) (data : parsed)
| SocketClose (sid : nat) (code : Z) (reason : string)
| SocketError (sid : nat) (error : value)
| TimerFired (id : nat)
| Answered (r : reply)
| Called_by_app (m : async world unit).

Definition set_state (sid : nat) (st : readyState) (w : world) : world :=
  set_sockets
    (alter (fun s => mkSocket (sock_url s) st (sock_wired s)) sid (sockets w)) w.

Definition wired (sid : nat) (w : world) : bool :=
  match sockets w !! sid with
  | Some s => sock_wired s
  | None => false
  end.

Definition on_world (f : world -> world) (sy : system) : system :=
  mkSystem (f (sys_world sy)) (suspended sy).

(** One turn of the event loop. *)
Definition deliver (ev : event) (sy : system) : system :=
  match ev with
  | SocketOpen sid =>
      let sy := on_world (set_state sid OPEN) sy in
      if wired sid (sys_world sy) then settle onopen sy else sy
  | SocketMessage sid data =>
      if wired sid (sys_world sy) then settle (onmessage data) sy else sy
  | SocketClose sid code reason =>
      let sy := on_world (set_state sid CLOSED) sy in
      if wired sid (sys_world sy) then settle (onclose code reason) sy else sy
  | SocketError sid error =>
      if wired sid (sys_world sy) then settle (onerror error) sy else sy
  | TimerFired id =>
      let w := sys_world sy in
      match filter (fun t => tm_id t = id) (timers w) with
      | t :: _ =>
          let sy :=
            if tm_repeat t then sy
            else on_world (set_timers (filter (fun t => tm_id t ≠ id) (timers w))
                                      (next_timer w)) sy in
          settle (fire (tm_callback t)) sy
      | [] => sy
      end
  | Answered r =>
      match suspended sy with
      | (_, k) :: rest => settle (k r) (mkSystem (sys_world sy) rest)
      | [] => sy
      end
  | Called_by_app m => settle m sy
  end.

Definition deliver_all (evs : list event) (sy : system) : system :=
  fold_left (fun sy ev => deliver ev sy) evs sy.

Definition boot : system := mkSystem initial [].

(** *** Vocabulary of the statements *)

(** The calls [emit] makes on a listener array: every listener up to and
    including the first one that throws. *)
Fixpoint delivered (event : string) (arg : value) (ls : list listener) : list effect :=
  match ls with
  | [] => []
  | cb :: rest =>
      Called (lid cb) event arg ::
      match body cb arg with
      | Some _ => []
      | None => delivered event arg rest
      end
  end.

(** The exception that ends the loop, if any. *)
Fixpoint first_throw (arg : value) (ls : list listener) : option exn :=
  match ls with
  | [] => None
  | cb :: rest =>
      match body cb arg with
      | Some e => Some e
      | None => first_throw arg rest
      end
  end.

Definition subscribers (event : string) (w : world) : list listener :=
  default [] (listeners w !! event).

(** The six categories that have subscribers, and the inbound types the
    protocol recognizes (the categories and [pong]). *)
Definition categories : list string :=
  ["notification"; "attendance_update"; "leave_update"; "shift_update";
   "payroll_update"; "system_message"].

Definition recognized_types : list string := categories ++ ["pong"].

Definition recognized (ty : value) : bool :=
  match ty with
  | VStr t => existsb (str_eqb t) recognized_types
  | _ => false
  end.

(** [message.type] of a frame that has properties at all. *)
Definition frame_type (message : value) : option value :=
  match message with
  | VUndefined | VNull => None
  | VObj fields => Some (lookup_field "type" fields)
  | _ => Some VUndefined
  end.

Definition frame_data (message : value) : value :=
  match message with
  | VObj fields => lookup_field "data" fields
  | _ => VUndefined
  end.

(** The effects a segment added to the trace. *)
Definition added (w w' : world) : list effect :=
  drop (length (effects w)) (effects w').

Definition is_call (e : effect) : bool :=
  match e with Called _ _ _ => true | _ => false end.

(** A segment that calls no subscriber at all. *)
Definition calls_nobody (w w' : world) : Prop :=
  forallb (fun e => negb (is_call e)) (added w w') = true.

(** The channel is open: the service holds a socket whose state is OPEN. *)
Definition channel_open (sy : system) : bool := ws_is_open (sys_world sy).
(** The value [emit] returns, or the exception that leaves it. *)
Definition emit_result (event : string) (arg : value) (ls : list listener) : outcome bool :=
  match ls with
  | [] => if str_eqb event "error" then Err (Thrown "Unhandled error.") else Ok false
  | _ => match first_throw arg ls with Some e => Err e | None => Ok true end
  end.

(** The log line of the handler of a category. *)
Definition handler_label (c : string) : string :=
  if str_eqb c "notification" then "New notification:"
  else if str_eqb c "attendance_update" then "Attendance update:"
  else if str_eqb c "leave_update" then "Leave update:"
  else if str_eqb c "shift_update" then "Shift update:"
  else if str_eqb c "payroll_update" then "Payroll update:"
  else "System message:".

(** A service in the middle of its first connection attempt. *)
Definition connecting : system :=
  deliver (Called_by_app connect) boot.

(** The line [onmessage] prints when its [catch] runs. *)
Definition caught (thrown : option exn) : list effect :=
  match thrown with
  | Some _ => [Console ERROR "Error parsing WebSocket message:"]
  | None => []
  end.

(** A frame reaches every subscriber registered for its category. *)
Definition reaches_every_subscriber
    (c : string) (data : value) (w w' : world) : Prop :=
  forall cb, In cb (subscribers c w) -> In (Called (lid cb) c data) (added w w').

(** A service whose socket has opened. *)
Definition opened : system :=
  deliver_all [Called_by_app connect; Answered (RItem (Some "token")); SocketOpen 0%nat]
              boot.

(** A logout and a login in quick succession: the service connects and
    opens socket 0, [disconnect()] starts closing it, [connect()] builds
    socket 1; the close event of socket 0 arrives while socket 1 is still
    connecting. *)
Definition stale_close : system :=
  deliver_all
    [Called_by_app connect; Answered (RItem (Some "token")); SocketOpen 0%nat;
     Called_by_app disconnect;
     Called_by_app connect; Answered (RItem (Some "token"));
     SocketClose 0%nat 1000 ""]
    boot.

(** One more [connect()] while socket 1 is still connecting. *)
Definition second_attempt : system :=
  deliver_all [Called_by_app connect; Answered (RItem (Some "token"))] stale_close.

(** Both attempts succeed. *)
Definition both_open : system :=
  deliver_all [SocketOpen 1%nat; SocketOpen 2%nat] second_attempt.

(** The sockets the service has constructed. *)
Definition constructed (w : world) : list nat :=
  flat_map (fun e => match e with Constructed sid _ => [sid] | _ => [] end) (effects w).

(** A service whose socket has been constructed and has not opened yet. *)
Definition awaiting_open : world :=
  sys_world (deliver_all [Called_by_app connect; Answered (RItem (Some "token"))] boot).

(** Two subscribers of [notification]: the first throws on every payload,
    the second never does. *)
Definition faulty : listener := mkListener 1 (fun _ => Some (Thrown "boom")).
Definition sound : listener := mkListener 2 (fun _ => None).

Definition two_subscribers : world :=
  fst (run_sync (_ <- onNotification faulty ;; _ <- onNotification sound ;; Pure tt)
                initial).

Definition notification_frame : value :=
  VObj [("type", VStr "notification"); ("data", VObj [("id", VNum 1)])].

(** A listener of the emitter's generic ['message'] event, and a frame of
    a type the protocol does not know. *)
Definition message_listener : world :=
  fst (run_sync (on "message" sound) initial).

Definition typing_frame : value :=
  VObj [("type", VStr "typing"); ("data", VNull)].

(** [n] firings of the heartbeat interval, nothing else in between. *)
Definition heartbeats (n : nat) (w : world) : world :=
  Nat.iter n (fun w => fst (run_sync (fire HeartbeatTimer) w)) w.

Definition pong : value := VObj [("type", VStr "pong")].

(** A session that opens and then hears nothing from the server while the
    heartbeat interval (timer 1) fires three times, 90 seconds in all. *)
Definition silent_session : system :=
  deliver_all
    [Called_by_app connect; Answered (RItem (Some "token")); SocketOpen 0%nat;
     TimerFired 1%nat; TimerFired 1%nat; TimerFired 1%nat]
    boot.

Definition reconnect_scheduled (w : world) : bool :=
  existsb (fun t => match tm_callback t with ReconnectTimer => true | _ => false end)
          (timers w).
End WebSocketService.

(** ** ApiService.ts *)

Module ApiService.
Local Open Scope async_scope.

Definition TOKEN_KEY : string := "auth_token".
Definition REFRESH_TOKEN_KEY : string := "refresh_token".
Definition USER_DATA_KEY : string := "user_data".

(** The fields of the service.  [failedQueue] holds the promises whose
    [resolve]/[reject] pairs were pushed; [settled] collects, in order, the
    promises a segment has resolved or rejected, for the event loop to wake
    their waiters once the segment is over. *)
Record service : Type := mkService {
  isRefreshing : bool;
  failedQueue : list nat;
  next_promise : nat;
  settled : list (nat * reply);
  warnings : list string
}.

Definition set_isRefreshing (x : bool) (st : service) : service :=
  mkService x (failedQueue st) (next_promise st) (settled st) (warnings st).
Definition set_failedQueue (x : list nat) (st : service) : service :=
  mkService (isRefreshing st) x (next_promise st) (settled st) (warnings st).
Definition set_next_promise (x : nat) (st : service) : service :=
  mkService (isRefreshing st) (failedQueue st) x (settled st) (warnings st).
Definition set_settled (x : list (nat * reply)) (st : service) : service :=
  mkService (isRefreshing st) (failedQueue st) (next_promise st) x (warnings st).
Definition set_warnings (x : list string) (st : service) : service :=
  mkService (isRefreshing st) (failedQueue st) (next_promise st) (settled st) x.

Definition fresh : service := mkService false [] 0%nat [] [].

Definition get : async service service := Get Pure.
Definition await (o : op) : async service reply := Await o Pure.

Definition item_of (r : reply) : async service (option string) :=
  match r with
  | RItem item => Pure item
  | RReject e => Raise e
  | _ => Raise (Thrown "unexpected result")
  end.

Definition unit_of (r : reply) : async service unit :=
  match r with
  | RReject e => Raise e
  | _ => Pure tt
  end.

Definition response_of (r : reply) : async service response :=
  match r with
  | RResponse resp => Pure resp
  | RReject e => Raise e
  | _ => Raise (Thrown "unexpected result")
  end.

(** [await AsyncStorage.getItem(key)] and its siblings. *)
Definition getItem (key : string) : async service (option string) :=
  r <- await (GetItem key) ;; item_of r.
Definition setItem (key item : string) : async service unit :=
  r <- await (SetItem key item) ;; unit_of r.
Definition multiRemove (keys : list string) : async service unit :=
  r <- await (MultiRemove keys) ;; unit_of r.

(** [this.api(config)]: a call of the axios instance. *)
Definition api (config : request) : async service response :=
  r <- await (Dispatch config) ;; response_of r.

Definition post (u : string) (data : value) : request :=
  mkRequest "post" u data None false.

Definition console_warn (msg : string) : async service unit :=
  modify (fun st => set_warnings (warnings st ++ [msg]) st).

(** [new Promise(executor)]: the executor runs at once with the handle of
    the new promise; the caller then waits for it to be settled. *)
Definition new_Promise (executor : nat -> async service unit) : async service reply :=
  st <- get ;;
  let p := next_promise st in
  Put (set_next_promise (S p) st) (executor p ;;; await (Parked p)).

Definition resolve (p : nat) : async service unit :=
  modify (fun st => set_settled (settled st ++ [(p, RUnit)]) st).
Definition reject (p : nat) (e : exn) : async service unit :=
  modify (fun st => set_settled (settled st ++ [(p, RReject e)]) st).

Fixpoint forEach (ps : list nat) (f : nat -> async service unit) : async service unit :=
  match ps with
  | [] => Pure tt
  | p :: rest => f p ;;; forEach rest f
  end.

Definition processQueue (error : option exn) : async service unit :=
  st <- get ;;
  forEach (failedQueue st)
    (fun p => match error with
              | Some e => reject p e
              | None => resolve p
              end) ;;;
  modify (set_failedQueue []).

(** The request interceptor. *)
Definition requestInterceptor (config : request) : async service request :=
  token <- getItem TOKEN_KEY ;;
  if truthy token
  then Pure (set_authorization (Some ("Bearer " ++ default "" token)%string) config)
  else Pure config.

Definition refreshAuthToken (refreshToken : string) : async service response :=
  api (post "/auth/token/refresh/" (VObj [("refresh", VStr refreshToken)])).

Definition logout : async service unit :=
  try_finally
    (try_catch
       (token <- getItem TOKEN_KEY ;;
        if truthy token
        then _ <- api (post "/auth/logout/" VUndefined) ;; Pure tt
        else Pure tt)
       (fun error => console_warn "Logout API call failed:"))
    (multiRemove [TOKEN_KEY; REFRESH_TOKEN_KEY; USER_DATA_KEY]).

(** [isAuthenticated()]: is there an access token in the store. *)
Definition isAuthenticated : async service bool :=
  try_catch
    (token <- getItem TOKEN_KEY ;; Pure (truthy token))
    (fun error => Pure false).


(** [response.data.access], as [setItem] needs it: a string. *)
Definition access_of (resp : response) : async service string :=
  match resp_data resp with
  | VUndefined | VNull => Raise (Thrown "TypeError: Cannot read properties")
  | VObj fields =>
      match lookup_field "access" fields with
      | VStr access => Pure access
      | _ => Raise (Thrown "AsyncStorage: the value is not a string")
      end
  | _ => Raise (Thrown "AsyncStorage: the value is not a string")
  end.

(** How the [try] statement of the interceptor is left: through one of its
    two [return]s (the promise returned is not awaited inside the [try]),
    or by falling out of its end. *)
Inductive completion : Type :=
| Return_api (config : request)
| Return_reject (e : exn)
| Fall_through.

Definition is_401 (status : option Z) : bool :=
  match status with
  | Some code => code =? 401
  | None => false
  end.

(** The rejection handler of the response interceptor. *)
Definition onRejected (error : exn) : async service response :=
  match error with
  | AxiosError originalRequest status =>
      if is_401 status && negb (_retry originalRequest) then
        st <- get ;;
        if isRefreshing st then
          r <- new_Promise (fun p =>
                 modify (fun st => set_failedQueue (failedQueue st ++ [p]) st)) ;;
          match r with
          | RReject err => Raise err
          | _ => api originalRequest
          end
        else
          let originalRequest := set_retry true originalRequest in
          let error := AxiosError originalRequest status in
          modify (set_isRefreshing true) ;;;
          how <- try_finally
                   (try_catch
                      (refreshToken <- getItem REFRESH_TOKEN_KEY ;;
                       if truthy refreshToken then
                         resp <- refreshAuthToken (default "" refreshToken) ;;
                         access <- access_of resp ;;
                         setItem TOKEN_KEY access ;;;
                         processQueue None ;;;
                         Pure (Return_api originalRequest)
                       else Pure Fall_through)
                      (fun refreshError =>
                         processQueue (Some refreshError) ;;;
                         logout ;;;
                         Pure (Return_reject refreshError)))
                   (modify (set_isRefreshing false)) ;;
          match how with
          | Return_api config => api config
          | Return_reject e => Raise e
          | Fall_through => Raise error
          end
      else Raise error
  | Thrown _ => Raise error
  end.

(** What a call of the axios instance consists of: the request
    interceptor, the exchange on the wire, and the response interceptor,
    whose fulfilment handler is the identity. *)
Definition expand (config : request) : async service response :=
  try_catch
    (config <- requestInterceptor config ;;
     r <- await (Transport config) ;;
     response_of r)
    onRejected.
(** *** The event loop *)

(** A caller is a task.  It is either waiting on an operation, with the
    rest of its code, or over, with the value or the rejection the caller
    got. *)
Inductive status : Type :=
| Working (o : op) (k : reply -> async service value)
| Over (r : outcome value).

Record system : Type := mkSystem {
  svc : service;
  storage : gmap string string;
  tasks : list status;
  wire : list request      (* every request put on the network, in order *)
}.

(** Feed the outcome of [m] to the code that awaits it. *)
Fixpoint resume_with {A : Type} (m : async service response)
    (k : reply -> async service A) : async service A :=
  match m with
  | Pure resp => k (RResponse resp)
  | Raise e => k (RReject e)
  | Get f => Get (fun s => resume_with (f s) k)
  | Put s m' => Put s (resume_with m' k)
  | Await o f => Await o (fun r => resume_with (f r) k)
  end.

(** Run task [t] from [m] to its next suspension.  A call of the axios
    instance is entered at once: its first suspension is the storage read
    of the request interceptor. *)
Definition advance (t : nat) (m : async service value) (sy : system) : system :=
  let '(s1, p1) := run_sync m (svc sy) in
  let '(s2, p2) :=
    match p1 with
    | Blocked (Dispatch config) k => run_sync (resume_with (expand config) k) s1
    | _ => (s1, p1)
    end in
  mkSystem s2 (storage sy)
    (<[t := match p2 with
            | Finished r => Over r
            | Blocked o k => Working o k
            end]> (tasks sy))
    (match p2 with
     | Blocked (Transport config) _ => wire sy ++ [config]
     | _ => wire sy
     end).

Definition waits_for (p : nat) (st : status) : bool :=
  match st with
  | Working (Parked q) _ => Nat.eqb p q
  | _ => false
  end.

(** The task waiting for promise [p], from task [t] on. *)
Fixpoint waiter_of (p : nat) (t : nat) (ts : list status)
  : option (nat * (reply -> async service value)) :=
  match ts with
  | [] => None
  | Working (Parked q) k :: rest =>
      if Nat.eqb p q then Some (t, k) else waiter_of p (S t) rest
  | _ :: rest => waiter_of p (S t) rest
  end.

Definition wake (sy : system) (pr : nat * reply) : system :=
  match waiter_of (fst pr) 0 (tasks sy) with
  | Some (t, k) => advance t (k (snd pr)) sy
  | None => sy
  end.

(** After a segment, the waiters of the promises it settled run, in the
    order of settlement. *)
Definition drain (sy : system) : system :=
  fold_left wake (settled (svc sy))
    (mkSystem (set_settled [] (svc sy)) (storage sy) (tasks sy) (wire sy)).

Definition turn (t : nat) (m : async service value) (sy : system) : system :=
  drain (advance t m sy).

(** What the server, or the lack of one, answers. *)
Inductive answer : Type :=
| Status (code : Z) (data : value)
| NoResponse.

(** axios resolves on a 2xx status and rejects with an [AxiosError]
    carrying the request configuration otherwise. *)
Definition settle_response (config : request) (a : answer) : reply :=
  match a with
  | Status code data =>
      if (200 <=? code) && (code <? 300)
      then RResponse (mkResponse code data)
      else RReject (AxiosError config (Some code))
  | NoResponse => RReject (AxiosError config None)
  end.

(** What an operation does to the store once AsyncStorage has carried it
    out. *)
Definition store_after (o : op) (store : gmap string string) : gmap string string :=
  match o with
  | SetItem key item => <[key := item]> store
  | MultiRemove keys => foldr delete store keys
  | _ => store
  end.

Inductive event : Type :=
| Call (m : async service value)
| StorageDone (t : nat) (failure : option exn)
| NetworkDone (t : nat) (a : answer).

Definition deliver (ev : event) (sy : system) : system :=
  match ev with
  | Call m =>
      turn (length (tasks sy)) m
        (mkSystem (svc sy) (storage sy)
           (tasks sy ++ [Over (Err (Thrown "not started"))]) (wire sy))
  | StorageDone t (Some e) =>
      match tasks sy !! t with
      | Some (Working (GetItem _) k)
      | Some (Working (SetItem _ _) k)
      | Some (Working (MultiRemove _) k) => turn t (k (RReject e)) sy
      | _ => sy
      end
  | StorageDone t None =>
      match tasks sy !! t with
      | Some (Working (GetItem key) k) => turn t (k (RItem (storage sy !! key))) sy
      | Some (Working (SetItem _ _ as o) k)
      | Some (Working (MultiRemove _ as o) k) =>
          turn t (k RUnit)
            (mkSystem (svc sy) (store_after o (storage sy)) (tasks sy) (wire sy))
      | _ => sy
      end
  | NetworkDone t a =>
      match tasks sy !! t with
      | Some (Working (Transport config) k) => turn t (k (settle_response config a)) sy
      | _ => sy
      end
  end.

Definition deliver_all (evs : list event) (sy : system) : system :=
  fold_left (fun sy ev => deliver ev sy) evs sy.

Definition boot (store : gmap string string) : system :=
  mkSystem fresh store [] [].

(** A business call, as every method of the service makes it:
    [const response = await this.api(...); return response.data]. *)
Definition request_data (config : request) : async service value :=
  resp <- api config ;; Pure (resp_data resp).

(** [await logout()] as a call of its own. *)
Definition logout_call : async service value :=
  logout ;;; Pure VUndefined.
(** *** Vocabulary of the statements *)

(** The three keys of the credential store. *)
Definition credentials : list string := [TOKEN_KEY; REFRESH_TOKEN_KEY; USER_DATA_KEY].

Definition warned (st : service) : service :=
  set_warnings (warnings st ++ ["Logout API call failed:"]) st.

(** A store that holds a session. *)
Definition signed_in : gmap string string :=
  <[TOKEN_KEY := "old"]> (<[REFRESH_TOKEN_KEY := "rt"]> (<[USER_DATA_KEY := "{}"]> ∅)).

(** What a task is doing, without the rest of its code. *)
Definition doing (st : status) : op + outcome value :=
  match st with
  | Working o _ => inl o
  | Over r => inr r
  end.

Definition is_refresh (config : request) : bool := str_eqb (url config) "/auth/token/refresh/".

(** The calls made to the refresh endpoint so far. *)
Definition refresh_calls (sy : system) : nat :=
  length (List.filter is_refresh (wire sy)).

(** How often a path was put on the wire. *)
Definition sent_to (u : string) (sy : system) : nat :=
  length (List.filter (fun config => str_eqb (url config) u) (wire sy)).
(** Two business requests, and two answers of the server. *)
Definition today : request := mkRequest "get" "/attendance/today/" VUndefined None false.
Definition balance : request := mkRequest "get" "/leave/balance/" VUndefined None false.
Definition granted : answer := Status 200 (VObj [("access", VStr "new")]).
Definition unauthorized : answer := Status 401 VNull.

(** Two callers start, pass the request interceptor, and are both answered
    401: caller 0 first, so that it leads the refresh, caller 1 while the
    refresh is in flight. *)
Definition two_callers_401 : list event :=
  [Call (request_data today); Call (request_data balance);
   StorageDone 0 None; StorageDone 1 None;
   NetworkDone 0 unauthorized; NetworkDone 1 unauthorized].

(** The leader has read the refresh token and its refresh request has
    passed the request interceptor: it is on the wire. *)
Definition refresh_on_the_wire : system :=
  deliver_all (two_callers_401 ++ [StorageDone 0 None; StorageDone 0 None])
              (boot signed_in).

(** The server refuses the refresh token with a 401. *)
Definition refresh_refused : system :=
  deliver (NetworkDone 0 unauthorized) refresh_on_the_wire.

(** The refresh fails with a 500; the leader's [logout()] reads the access
    token, and the server answers its logout request with a 401. *)
Definition refresh_failed : system :=
  deliver (NetworkDone 0 (Status 500 VNull)) refresh_on_the_wire.
Definition logout_refused : system :=
  deliver_all [StorageDone 0 None; StorageDone 0 None; NetworkDone 0 unauthorized]
              refresh_failed.

(** The server grants the refresh and the new access token is stored. *)
Definition refreshed : system :=
  deliver_all [NetworkDone 0 granted; StorageDone 0 None] refresh_on_the_wire.

(** Both requests are sent again; the waiter's is answered 401 again. *)
Definition waiter_401_again : system :=
  deliver_all [StorageDone 0 None; StorageDone 1 None; NetworkDone 1 unauthorized]
              refreshed.

(** The second refresh runs to its end and the waiter's request is sent a
    third time. *)
Definition second_cycle : system :=
  deliver_all [StorageDone 1 None; StorageDone 1 None; NetworkDone 1 granted;
               StorageDone 1 None; StorageDone 1 None]
              waiter_401_again.

(** The leader's request, sent again, is answered 401 again. *)
Definition leader_401_again : system :=
  deliver_all [StorageDone 0 None; StorageDone 1 None; NetworkDone 0 unauthorized]
              refreshed.

(** A task that no answer can move: it is over, or it waits for a promise
    of [failedQueue]. *)
Definition idle (st : status) : bool :=
  match st with
  | Working (Parked _) _ => true
  | Working _ _ => false
  | Over _ => true
  end.

(** The events that are answers of the storage or of the network, as
    opposed to new calls of the application. *)
Inductive completion_event : Type :=
| Stored (t : nat) (failure : option exn)
| Answered (t : nat) (a : answer).

Definition as_event (c : completion_event) : event :=
  match c with
  | Stored t failure => StorageDone t failure
  | Answered t a => NetworkDone t a
  end.

(** A complete logout whose remote call the server answers with a 500. *)
Definition logout_with_failing_server : system :=
  deliver_all [Call logout_call; StorageDone 0 None; StorageDone 0 None;
               NetworkDone 0 (Status 500 VNull); StorageDone 0 None]
              (boot signed_in).
(** A logout when both tokens have expired: the server answers the logout
    request with a 401, the interceptor starts a refresh, and the server
    answers the refresh request with a 401 too. *)
Definition logout_with_expired_tokens : system :=
  deliver_all [Call logout_call; StorageDone 0 None; StorageDone 0 None;
               NetworkDone 0 unauthorized; StorageDone 0 None; StorageDone 0 None;
               NetworkDone 0 unauthorized]
              (boot signed_in).

(** A waiter queues up while the leader is suspended. *)
Definition a_waiter_queues (st : service) : service :=
  set_failedQueue (failedQueue st ++ [next_promise st])
    (set_next_promise (S (next_promise st)) st).

(** A store that holds an access token and no refresh token. *)
Definition access_only : gmap string string := <[TOKEN_KEY := "old"]> ∅.

(** Two callers are answered 401 on such a store, and the leader's read of
    the refresh token comes back empty. *)
Definition no_refresh_token : system :=
  deliver_all (two_callers_401 ++ [StorageDone 0 None]) (boot access_only).

(** Both requests are sent again after the refresh and answered. *)
Definition both_served : system :=
  deliver_all [StorageDone 0 None; StorageDone 1 None;
               NetworkDone 0 (Status 200 (VStr "today"));
               NetworkDone 1 (Status 200 (VStr "balance"))]
              refreshed.

End ApiService.

(** ** Invariants of suspended code *)

Section Hoare.
Context {S : Type} (I : S -> Prop).

(** [wp m Q s]: run from [s], [m] ends in an outcome and a state that [Q]
    accepts; wherever it suspends the state satisfies [I], and it is resumed
    in some state that satisfies [I], not necessarily the one it left. *)
Fixpoint wp {A : Type} (m : async S A) (Q : outcome A -> S -> Prop) (s : S) : Prop :=
  match m with
  | Pure a => Q (Ok a) s
  | Raise e => Q (Err e) s
  | Get k => wp (k s) Q s
  | Put s' m' => wp m' Q s'
  | Await o k => I s /\ forall r s2, I s2 -> wp (k r) Q s2
  end.

(** [m] keeps [I]: started where [I] holds, it leaves [I] true at every
    suspension and at its end. *)
Definition keeps {A : Type} (m : async S A) : Prop :=
  forall s, I s -> wp m (fun _ s' => I s') s.
End Hoare.

(** [m] keeps [P] and never suspends: no state is good enough to suspend
    in. *)
Definition ends_in {S A : Type} (P : S -> Prop) (m : async S A) : Prop :=
  forall s, P s -> wp (fun _ => False) m (fun _ s' => P s') s.

(** ** WebSocketService: the service as its users drive it *)

Module ChannelModel.
Import WebSocketService.
Local Open Scope async_scope.

(** What can happen to a running service: the host reports on a socket or a
    timer or answers a storage read, or the application calls one of the
    public methods. *)
Inductive stimulus : Type :=
| Host_open (sid : nat)
| Host_message (sid : nat) (data : parsed)
| Host_close (sid : nat) (code : Z) (reason : string)
| Host_error (sid : nat) (error : value)
| Host_timer (id : nat)
| Host_answer (r : reply)
| App_connect
| App_disconnect
| App_sendMessage (message : value)
| App_updateServerUrl (newUrl : string)
| App_on (event : string) (cb : listener)
| App_off (event : string) (cb : listener).

Definition event_of (x : stimulus) : event :=
  match x with
  | Host_open sid => SocketOpen sid
  | Host_message sid data => SocketMessage sid data
  | Host_close sid code reason => SocketClose sid code reason
  | Host_error sid error => SocketError sid error
  | Host_timer id => TimerFired id
  | Host_answer r => Answered r
  | App_connect => Called_by_app connect
  | App_disconnect => Called_by_app disconnect
  | App_sendMessage message => Called_by_app (sendMessage message)
  | App_updateServerUrl newUrl => Called_by_app (updateServerUrl newUrl)
  | App_on event cb => Called_by_app (on event cb)
  | App_off event cb => Called_by_app (off event cb)
  end.

Definition drive (xs : list stimulus) (sy : system) : system :=
  deliver_all (map event_of xs) sy.

Definition is_heartbeat (t : timer) : bool :=
  match tm_callback t with HeartbeatTimer => true | _ => false end.

(** The heartbeat intervals that are running. *)
Definition heartbeat_timers (w : world) : list timer :=
  List.filter is_heartbeat (timers w).

(** What every reachable world satisfies.  With [final] set it also says
    that reconnection has been switched off. *)
Definition well_formed (final : bool) (w : world) : Prop :=
  0 <= reconnectAttempts w <= maxReconnectAttempts w /\
  maxReconnectAttempts w = 5 /\
  reconnectInterval w = 1000 /\
  (forall t, In t (timers w) -> (tm_id t < next_timer w)%nat) /\
  NoDup (map tm_id (timers w)) /\
  (forall t, In t (timers w) -> is_heartbeat t = true ->
     heartbeatInterval w = Some (tm_id t) /\ tm_repeat t = true /\ tm_delay t = 30000) /\
  (forall id, heartbeatInterval w = Some id ->
     exists t, In t (timers w) /\ tm_id t = id /\ is_heartbeat t = true) /\
  (final = true -> shouldReconnect w = false).

(** The part of the world the reconnect policy and the timers live in. *)
Definition policy (w : world) : Z * Z * Z * list timer * nat * option nat * bool :=
  (reconnectAttempts w, maxReconnectAttempts w, reconnectInterval w,
   timers w, next_timer w, heartbeatInterval w, shouldReconnect w).

(** The rest of [connect] after its [await]: what the event loop keeps for
    a connection attempt that is waiting for the token. *)
Definition connect_resumption : reply -> async world unit :=
  match snd (run_sync connect initial) with
  | Blocked _ k => k
  | Finished _ => fun _ => Pure tt
  end.

(** The same for a running service: the only code ever suspended is the
    rest of a [connect]. *)
Definition sound_system (final : bool) (sy : system) : Prop :=
  well_formed final (sys_world sy) /\
  Forall (fun ok : op * (reply -> async world unit) => snd ok = connect_resumption)
         (suspended sy).

(** A segment is tame when it ends well formed and, if it suspends, leaves
    behind nothing but the rest of a [connect]. *)
Definition tame (final : bool) (m : async world unit) : Prop :=
  forall w, well_formed final w ->
    match run_sync m w with
    | (w', Finished _) => well_formed final w'
    | (w', Blocked _ k) => well_formed final w' /\ k = connect_resumption
    end.

(** Where [stopHeartbeat] leaves the world. *)
Definition heartbeat_stopped (w : world) : world :=
  match heartbeatInterval w with
  | Some id =>
      set_heartbeatInterval None
        (set_timers (filter (fun t => tm_id t ≠ id) (timers w)) (next_timer w) w)
  | None => w
  end.

(** Where [startHeartbeat] leaves the world. *)
Definition heartbeat_started (w : world) : world :=
  let w1 := heartbeat_stopped w in
  set_heartbeatInterval (Some (next_timer w1))
    (set_timers (timers w1 ++ [mkTimer (next_timer w1) true 30000 HeartbeatTimer])
                (S (next_timer w1)) w1).

(** Callbacks registered on an event one after the other. *)
Definition register (event : string) (cbs : list listener) (w : world) : world :=
  fold_left (fun w cb => fst (run_sync (on event cb) w)) cbs w.

(** What a close event carries to the listeners of ['disconnected']. *)
Definition close_payload (code : Z) (reason : string) : value :=
  VObj [("code", VNum code); ("reason", VStr reason)].


(** The delays of the timeouts that run the reconnect closure. *)
Definition reconnect_delays (w : world) : list Z :=
  map tm_delay
      (List.filter (fun t => match tm_callback t with ReconnectTimer => true | _ => false end)
                   (timers w)).
Definition subscription_helpers : list ((listener -> async world (async world unit)) * string) :=
  [(onNotification, "notification");
   (onAttendanceUpdate, "attendance_update");
   (onLeaveUpdate, "leave_update");
   (onShiftUpdate, "shift_update");
   (onPayrollUpdate, "payroll_update")].

(** Where [disconnect()] leaves the world. *)
Definition disconnected (w : world) : world :=
  let w1 := heartbeat_stopped (set_shouldReconnect false w) in
  match ws w with
  | Some sid =>
      set_effects (effects w1 ++ [Closed sid])
        (set_ws None (set_sockets (alter close_socket sid (sockets w)) w1))
  | None => w1
  end.

(** The URL [connect] builds: the base URL at the time the token arrives. *)
Definition notifications_url (w : world) (token : string) : string :=
  (baseUrl w ++ "/ws/notifications/?token=" ++ token)%string.

(** Where the rest of [connect] leaves the world once it has a token. *)
Definition socket_built (token : string) (w : world) : world :=
  let sid := length (sockets w) in
  let wsUrl := notifications_url w token in
  set_effects
    (effects w ++ [Console LOG "Connecting to WebSocket:"; Constructed sid wsUrl])
    (set_ws (Some sid)
       (set_sockets (sockets w ++ [mkSocket wsUrl CONNECTING true]) w)).

(** [disconnect()] arrives while [connect()] waits for the token. *)
Definition disconnect_during_connect : system :=
  deliver_all [Called_by_app connect; Called_by_app disconnect;
               Answered (RItem (Some "token")); SocketOpen 0%nat] boot.

(** The URL of the server is changed on an open channel, the timer of
    [updateServerUrl] fires, the new connection opens and is then lost. *)
Definition url_changed_then_lost : list stimulus :=
  [Host_timer 2%nat; Host_answer (RItem (Some "token")); Host_open 1%nat;
   Host_close 1%nat 1006 ""].

Definition open_channel : list stimulus :=
  [App_connect; Host_answer (RItem (Some "token")); Host_open 0%nat].
End ChannelModel.

(** ** Facts about [async] *)

Section AsyncFacts.
Context {S : Type}.

Lemma run_sync_bind {A B : Type} (m : async S A) (f : A -> async S B) (s : S) :
  run_sync (bind m f) s =
  match run_sync m s with
  | (s', Finished (Ok a)) => run_sync (f a) s'
  | (s', Finished (Err e)) => (s', Finished (Err e))
  | (s', Blocked o k) => (s', Blocked o (fun r => bind (k r) f))
  end.
Proof.
  revert s. induction m as [a|e|k IH|s' m IH|o k IH]; intros s; simpl; auto.
Qed.

Lemma run_sync_try_catch {A : Type} (m : async S A) (h : exn -> async S A) (s : S) :
  run_sync (try_catch m h) s =
  match run_sync m s with
  | (s', Finished (Ok a)) => (s', Finished (Ok a))
  | (s', Finished (Err e)) => run_sync (h e) s'
  | (s', Blocked o k) => (s', Blocked o (fun r => try_catch (k r) h))
  end.
Proof.
  revert s. induction m as [a|e|k IH|s' m IH|o k IH]; intros s; simpl; auto.
Qed.

Lemma run_sync_try_finally {A : Type} (m : async S A) (f : async S unit) (s : S) :
  run_sync (try_finally m f) s =
  match run_sync m s with
  | (s', Finished (Ok a)) => run_sync (bind f (fun _ => Pure a)) s'
  | (s', Finished (Err e)) => run_sync (bind f (fun _ => Raise e)) s'
  | (s', Blocked o k) => (s', Blocked o (fun r => try_finally (k r) f))
  end.
Proof.
  revert s. induction m as [a|e|k IH|s' m IH|o k IH]; intros s; simpl; auto.
Qed.
End AsyncFacts.

(** ** WebSocketService: the channel *)

Module Channel.
Import WebSocketService.
Local Open Scope async_scope.

Lemma ws_is_open_false (w : world) :
  ws w = None \/
  (exists sid s, ws w = Some sid /\ sockets w !! sid = Some s /\ sock_state s <> OPEN) ->
  ws_is_open w = false.
Proof.
  unfold ws_is_open. intros [-> | (sid & s & -> & -> & Hs)]; [reflexivity|].
  destruct (sock_state s); simpl; congruence.
Qed.

(** C10. [sendMessage(message)] called while [this.ws] is null, or while the
    socket it refers to is in a state other than OPEN, returns normally
    (nothing is thrown, nothing is awaited), sends nothing, and leaves every
    field, socket and timer as it was: all it does is print the warning. *)
Theorem sendMessage_when_not_open_is_noop (w : world) (message : value) :
  ws w = None \/
  (exists sid s, ws w = Some sid /\ sockets w !! sid = Some s /\ sock_state s <> OPEN) ->
  run_sync (sendMessage message) w =
  (set_effects
     (effects w ++ [Console WARN "WebSocket is not connected, cannot send message"]) w,
   Finished (Ok tt)).
Proof.
  intros H. apply ws_is_open_false in H.
  unfold sendMessage. simpl. rewrite H. reflexivity.
Qed.

Lemma sendMessage_when_not_open_is_noop_witness :
  (ws initial = None /\
   run_sync (sendMessage ping) initial =
   (set_effects [Console WARN "WebSocket is not connected, cannot send message"] initial,
    Finished (Ok tt))) /\
  (sock_state <$> sockets awaiting_open !! 0%nat = Some CONNECTING /\
   run_sync (sendMessage ping) awaiting_open =
   (set_effects
      (effects awaiting_open ++
       [Console WARN "WebSocket is not connected, cannot send message"]) awaiting_open,
    Finished (Ok tt))).
Proof.
  split.
  - split; [reflexivity|].
    apply (sendMessage_when_not_open_is_noop initial ping). left. reflexivity.
  - split; [reflexivity|].
    apply (sendMessage_when_not_open_is_noop awaiting_open ping). right.
    exists 0%nat,
      (mkSocket "ws://192.168.1.100:8000/ws/notifications/?token=token" CONNECTING true).
    split; [reflexivity|]. split; [reflexivity|]. discriminate.
Defined.

Lemma ws_is_open_true (w : world) :
  (exists sid s, ws w = Some sid /\ sockets w !! sid = Some s /\ sock_state s = OPEN) ->
  ws_is_open w = true.
Proof.
  unfold ws_is_open. intros (sid & s & -> & -> & ->). reflexivity.
Qed.

(** The guard of [connect].  Called while [isConnecting] is set or while
    the service holds a socket in state OPEN, [connect()] returns at once
    and without effect: no storage read, no new [WebSocket], no timer, no
    log line; the world is the same world, and nothing is left suspended in
    the event loop. *)
Theorem connect_while_connecting_or_open_is_noop (sy : system) :
  isConnecting (sys_world sy) = true \/
  (exists sid s, ws (sys_world sy) = Some sid /\
                 sockets (sys_world sy) !! sid = Some s /\ sock_state s = OPEN) ->
  run_sync connect (sys_world sy) = (sys_world sy, Finished (Ok tt)) /\
  deliver (Called_by_app connect) sy = sy.
Proof.
  intros H.
  assert (Hrun : run_sync connect (sys_world sy) = (sys_world sy, Finished (Ok tt))).
  { unfold connect. simpl.
    destruct H as [-> | H]; [reflexivity|].
    rewrite (ws_is_open_true _ H), orb_true_r. reflexivity. }
  split; [exact Hrun|].
  unfold deliver, settle. rewrite Hrun. destruct sy; reflexivity.
Qed.

Lemma connect_while_connecting_or_open_is_noop_witness :
  (isConnecting (sys_world connecting) = true /\
   run_sync connect (sys_world connecting) = (sys_world connecting, Finished (Ok tt)) /\
   deliver (Called_by_app connect) connecting = connecting) /\
  (ws (sys_world opened) = Some 0%nat /\
   sock_state <$> sockets (sys_world opened) !! 0%nat = Some OPEN /\
   run_sync connect (sys_world opened) = (sys_world opened, Finished (Ok tt)) /\
   deliver (Called_by_app connect) opened = opened).
Proof.
  split.
  - split; [reflexivity|].
    apply (connect_while_connecting_or_open_is_noop connecting).
    left. reflexivity.
  - split; [reflexivity|]. split; [reflexivity|].
    apply (connect_while_connecting_or_open_is_noop opened).
    right. exists 0%nat,
      (mkSocket "ws://192.168.1.100:8000/ws/notifications/?token=token" OPEN true).
    repeat split; reflexivity.
Defined.

(** C8 at its failing input.  The guard of [connect] relies on
    [isConnecting], and every socket's [onclose] clears that flag, whichever
    socket the service holds by then.  After a [disconnect()] and a new
    [connect()], the close event of the old socket arrives while the new
    socket is still connecting: [isConnecting] is cleared although an attempt
    is in progress.  The next [connect()] passes the guard and constructs
    another socket.  The service has then built three sockets, two of them
    connecting at once, and both open: two live connections, each wired to
    the service's handlers. *)
Theorem stale_close_lets_a_second_connection_through :
  (sock_state <$> sockets (sys_world stale_close) = [CLOSED; CONNECTING] /\
   ws (sys_world stale_close) = Some 1%nat /\
   isConnecting (sys_world stale_close) = false) /\
  (constructed (sys_world second_attempt) = [0%nat; 1%nat; 2%nat] /\
   sock_state <$> sockets (sys_world second_attempt) = [CLOSED; CONNECTING; CONNECTING]) /\
  (sock_state <$> sockets (sys_world both_open) = [CLOSED; OPEN; OPEN] /\
   sock_wired <$> sockets (sys_world both_open) = [true; true; true]).
Proof. vm_compute. repeat split; reflexivity. Qed.

(** C9. [connect()] on a store that has no access token ([getItem] answers
    [null], or the empty string, which [!token] treats alike): either the
    guard returns at once, or the call suspends on the read of
    ["auth_token"] and, whatever the world has become when the answer
    arrives, finishes normally (no error), having only cleared
    [isConnecting] and printed the warning: no socket is constructed,
    [this.ws] is not assigned, no timer is scheduled. *)
Theorem connect_without_token_is_silent (w : world) (token : option string) :
  truthy token = false ->
  run_sync connect w = (w, Finished (Ok tt)) \/
  exists k,
    run_sync connect w = (set_isConnecting true w, Blocked (GetItem "auth_token") k) /\
    forall w2,
      run_sync (k (RItem token)) w2 =
      (set_isConnecting false
         (set_effects
            (effects w2 ++
             [Console WARN "No auth token found, cannot connect to WebSocket"]) w2),
       Finished (Ok tt)).
Proof.
  intros Htok. unfold connect. simpl.
  destruct (isConnecting w || ws_is_open w); [left; reflexivity|].
  right. simpl. eexists. split; [reflexivity|].
  intros w2. simpl. rewrite Htok. reflexivity.
Qed.

Lemma connect_without_token_is_silent_witness :
  truthy None = false /\
  (run_sync connect initial = (initial, Finished (Ok tt)) \/
   exists k,
     run_sync connect initial =
     (set_isConnecting true initial, Blocked (GetItem "auth_token") k) /\
     forall w2,
       run_sync (k (RItem None)) w2 =
       (set_isConnecting false
          (set_effects
             (effects w2 ++
              [Console WARN "No auth token found, cannot connect to WebSocket"]) w2),
        Finished (Ok tt))).
Proof.
  split; [reflexivity|].
  apply (connect_without_token_is_silent initial None). reflexivity.
Defined.

(** *** What [emit] does *)

Lemma set_effects_same (w : world) : set_effects (effects w) w = w.
Proof. destruct w; reflexivity. Qed.

Lemma set_effects_twice (x y : list effect) (w : world) :
  set_effects x (set_effects y w) = set_effects x w.
Proof. reflexivity. Qed.

Lemma run_call_listeners (event : string) (arg : value) (ls : list listener) (w : world) :
  run_sync (call_listeners event arg ls) w =
  (set_effects (effects w ++ delivered event arg ls) w,
   Finished (match first_throw arg ls with Some e => Err e | None => Ok tt end)).
Proof.
  revert w. induction ls as [|cb rest IH]; intros w.
  - simpl. rewrite app_nil_r, set_effects_same. reflexivity.
  - simpl. destruct (body cb arg) as [e|]; [reflexivity|].
    rewrite IH. simpl. rewrite <- app_assoc. reflexivity.
Qed.

Lemma run_emit (event : string) (arg : value) (w : world) :
  run_sync (emit event arg) w =
  (set_effects (effects w ++ delivered event arg (subscribers event w)) w,
   Finished (emit_result event arg (subscribers event w))).
Proof.
  unfold emit, subscribers, emit_result, gets. cbn [bind run_sync].
  destruct (default [] (listeners w !! event)) as [|cb rest] eqn:E.
  - rewrite app_nil_r, set_effects_same.
    destruct (str_eqb event "error"); reflexivity.
  - rewrite run_sync_bind, run_call_listeners.
    destruct (first_throw arg (cb :: rest)); reflexivity.
Qed.

(** *** Reconnect backoff *)

(** C4. Reconnect attempt number [n], for [1 <= n <= maxReconnectAttempts]
    (the counter stands at [n - 1] when [handleReconnect] runs): the counter
    becomes [n] and one timeout running the reconnect closure is scheduled
    with delay [reconnectInterval * 2^(n-1)].  Once the counter has reached
    [maxReconnectAttempts], [handleReconnect] schedules nothing and leaves
    the counter alone: it logs the error and emits
    ['max_reconnect_attempts_reached'] to the listeners of that event. *)
Theorem handleReconnect_backoff (w : world) :
  (forall n : Z,
     1 <= n <= maxReconnectAttempts w ->
     reconnectAttempts w = n - 1 ->
     run_sync handleReconnect w =
     (set_timers
        (timers w ++
         [mkTimer (next_timer w) false (reconnectInterval w * 2 ^ (n - 1)) ReconnectTimer])
        (S (next_timer w))
        (set_effects (effects w ++ [Console LOG "Attempting to reconnect"])
           (set_reconnectAttempts n w)),
      Finished (Ok tt))) /\
  (maxReconnectAttempts w <= reconnectAttempts w ->
   exists r,
     run_sync handleReconnect w =
     (set_effects
        (effects w ++
         Console ERROR "Max reconnection attempts reached" ::
         delivered "max_reconnect_attempts_reached" VUndefined
           (subscribers "max_reconnect_attempts_reached" w)) w,
      Finished r) /\
     (first_throw VUndefined (subscribers "max_reconnect_attempts_reached" w) = None ->
      r = Ok tt)).
Proof.
  split.
  - intros n Hn Hc. unfold handleReconnect. simpl.
    destruct (Z.geb_spec (reconnectAttempts w) (maxReconnectAttempts w)) as [Hge|_]; [lia|].
    simpl. replace (reconnectAttempts w + 1) with n by lia. reflexivity.
  - intros Hmax. unfold handleReconnect, get. cbn [bind run_sync].
    destruct (Z.geb_spec (reconnectAttempts w) (maxReconnectAttempts w)) as [_|Hlt]; [|lia].
    unfold console, tell, modify. cbn [bind run_sync].
    rewrite run_sync_bind, run_emit.
    unfold subscribers. cbn [effects listeners set_effects].
    rewrite <- app_assoc. cbn [app].
    destruct (emit_result _ _ _) as [b|e] eqn:R.
    + eexists. split; [reflexivity|]. reflexivity.
    + eexists. split; [reflexivity|].
      intros F. unfold emit_result in R. rewrite F in R.
      destruct (default [] _); discriminate R.
Qed.

(** The third attempt of the default policy waits 4000 ms; at five
    attempts the policy is exhausted. *)
Lemma handleReconnect_backoff_witness :
  (1 <= 3 <= maxReconnectAttempts (set_reconnectAttempts 2 initial) /\
   reconnectAttempts (set_reconnectAttempts 2 initial) = 3 - 1 /\
   run_sync handleReconnect (set_reconnectAttempts 2 initial) =
   (set_timers [mkTimer 1%nat false 4000 ReconnectTimer] 2%nat
      (set_effects [Console LOG "Attempting to reconnect"]
         (set_reconnectAttempts 3 initial)),
    Finished (Ok tt))) /\
  (maxReconnectAttempts (set_reconnectAttempts 5 initial) <=
     reconnectAttempts (set_reconnectAttempts 5 initial) /\
   exists r,
     run_sync handleReconnect (set_reconnectAttempts 5 initial) =
     (set_effects [Console ERROR "Max reconnection attempts reached"]
        (set_reconnectAttempts 5 initial),
      Finished r) /\
     (first_throw VUndefined
        (subscribers "max_reconnect_attempts_reached" (set_reconnectAttempts 5 initial)) =
      None -> r = Ok tt)).
Proof.
  split.
  - split; [simpl; lia|]. split; [reflexivity|].
    apply (proj1 (handleReconnect_backoff (set_reconnectAttempts 2 initial)) 3);
      [simpl; lia | reflexivity].
  - split; [simpl; lia|].
    apply (proj2 (handleReconnect_backoff (set_reconnectAttempts 5 initial))).
    simpl; lia.
Defined.

(** *** Dispatch of inbound frames *)

(** Decide the comparisons of string literals in the goal. *)
Ltac decide_strings :=
  repeat match goal with
         | |- context [str_eqb ?a ?b] =>
             let v := eval vm_compute in (str_eqb a b) in
             change (str_eqb a b) with v
         end;
  lazy beta iota.

(** Every [handle...] method, and the [default] case, is a log line
    followed by one [emit]. *)
Lemma run_log_then_emit (l : level) (label event : string) (arg : value) (w : world) :
  run_sync (console l label ;;; _ <- emit event arg ;; Pure tt) w =
  (set_effects
     (effects w ++ Console l label :: delivered event arg (subscribers event w)) w,
   Finished (match emit_result event arg (subscribers event w) with
             | Ok _ => Ok tt
             | Err e => Err e
             end)).
Proof.
  unfold console, tell, modify. cbn [bind run_sync].
  rewrite run_sync_bind, run_emit.
  unfold subscribers. cbn [effects listeners set_effects].
  rewrite <- app_assoc. cbn [app].
  destruct (emit_result _ _ _); reflexivity.
Qed.

Lemma emit_result_category (c : string) (arg : value) (ls : list listener) :
  In c categories ->
  match emit_result c arg ls with Ok _ => Ok tt | Err e => Err e end =
  match first_throw arg ls with Some e => Err e | None => Ok tt end.
Proof.
  intros Hc. unfold emit_result.
  destruct ls as [|cb rest].
  - simpl in Hc.
    repeat (destruct Hc as [<- | Hc]; [reflexivity|]). destruct Hc.
  - destruct (first_throw arg (cb :: rest)); reflexivity.
Qed.

Lemma run_handleMessage_category (c : string) (fields : list (string * value)) (w : world) :
  In c categories ->
  lookup_field "type" fields = VStr c ->
  run_sync (handleMessage (VObj fields)) w =
  (set_effects
     (effects w ++
      Console LOG "Received WebSocket message:" ::
      Console LOG (handler_label c) ::
      delivered c (lookup_field "data" fields) (subscribers c w)) w,
   Finished (match first_throw (lookup_field "data" fields) (subscribers c w) with
             | Some e => Err e
             | None => Ok tt
             end)).
Proof.
  intros Hc Hty. rewrite <- (emit_result_category c _ _ Hc).
  unfold handleMessage.
  rewrite run_sync_bind. unfold console at 1, tell, modify. cbn [run_sync].
  unfold property. cbn [bind run_sync]. rewrite Hty.
  simpl in Hc.
  repeat (destruct Hc as [<- | Hc];
          [ unfold handler_label; decide_strings;
            cbv beta delta [handleNotification handleAttendanceUpdate handleLeaveUpdate
                       handleShiftUpdate handlePayrollUpdate handleSystemMessage];
            rewrite run_log_then_emit;
            unfold subscribers; cbn [effects listeners set_effects];
            rewrite <- app_assoc; reflexivity |]).
  destruct Hc.
Qed.

Lemma run_onmessage_category (c : string) (fields : list (string * value)) (w : world) :
  In c categories ->
  lookup_field "type" fields = VStr c ->
  run_sync (onmessage (Json (VObj fields))) w =
  (set_effects
     (effects w ++
      Console LOG "Received WebSocket message:" ::
      Console LOG (handler_label c) ::
      delivered c (lookup_field "data" fields) (subscribers c w) ++
      caught (first_throw (lookup_field "data" fields) (subscribers c w))) w,
   Finished (Ok tt)).
Proof.
  intros Hc Hty. unfold onmessage.
  rewrite run_sync_try_catch, (run_handleMessage_category c fields w Hc Hty).
  destruct (first_throw _ _) as [e|].
  - unfold console, tell, modify. cbn [run_sync effects set_effects caught].
    rewrite <- app_assoc. reflexivity.
  - cbn [caught]. rewrite app_nil_r. reflexivity.
Qed.

(** Whatever the frame, [handleMessage] touches nothing but the trace, and
    what it adds does not depend on what the trace already holds. *)
Lemma handleMessage_trace (message : value) (w : world) :
  exists tr r, forall x,
    run_sync (handleMessage message) (set_effects x w) =
    (set_effects (x ++ tr) w, Finished r).
Proof.
  assert (Hemit : forall l label event arg,
    exists tr r, forall x,
      run_sync (console l label ;;; _ <- emit event arg ;; Pure tt)
               (set_effects (x ++ [Console LOG "Received WebSocket message:"]) w) =
      (set_effects (x ++ tr) w, Finished r)).
  { intros l label event arg. do 2 eexists. intros x.
    rewrite run_log_then_emit. unfold subscribers.
    cbn [effects listeners set_effects]. rewrite <- app_assoc. reflexivity. }
  unfold handleMessage.
  assert (Hfirst : forall x (k : async world unit),
    run_sync (console LOG "Received WebSocket message:" ;;; k) (set_effects x w) =
    run_sync k (set_effects (x ++ [Console LOG "Received WebSocket message:"]) w))
    by reflexivity.
  destruct message as [| |b|n|s|items|fields];
    try (do 2 eexists; intros x; rewrite Hfirst; reflexivity);
    try (destruct (Hemit WARN "Unknown message type:" "message" VUndefined) as (tr & r & H);
         exists tr, r; intros x; rewrite Hfirst; apply H).
  - destruct (Hemit WARN "Unknown message type:" "message" (VBool b)) as (tr & r & H).
    exists tr, r. intros x. rewrite Hfirst. apply H.
  - destruct (Hemit WARN "Unknown message type:" "message" (VNum n)) as (tr & r & H).
    exists tr, r. intros x. rewrite Hfirst. apply H.
  - destruct (Hemit WARN "Unknown message type:" "message" (VStr s)) as (tr & r & H).
    exists tr, r. intros x. rewrite Hfirst. apply H.
  - destruct (Hemit WARN "Unknown message type:" "message" (VArr items)) as (tr & r & H).
    exists tr, r. intros x. rewrite Hfirst. apply H.
  - unfold property. cbn [bind].
    pose proof (Hemit WARN "Unknown message type:" "message" (VObj fields)) as Hdefault.
    destruct (lookup_field "type" fields) as [| |b|n|t|items|fs];
      try (destruct Hdefault as (tr & r & H); exists tr, r; intros x;
           rewrite Hfirst; apply H).
    destruct (str_eqb t "notification");
      [destruct (Hemit LOG "New notification:" "notification"
                   (lookup_field "data" fields)) as (tr & r & H);
       exists tr, r; intros x; rewrite Hfirst; apply H|].
    destruct (str_eqb t "attendance_update");
      [destruct (Hemit LOG "Attendance update:" "attendance_update"
                   (lookup_field "data" fields)) as (tr & r & H);
       exists tr, r; intros x; rewrite Hfirst; apply H|].
    destruct (str_eqb t "leave_update");
      [destruct (Hemit LOG "Leave update:" "leave_update"
                   (lookup_field "data" fields)) as (tr & r & H);
       exists tr, r; intros x; rewrite Hfirst; apply H|].
    destruct (str_eqb t "shift_update");
      [destruct (Hemit LOG "Shift update:" "shift_update"
                   (lookup_field "data" fields)) as (tr & r & H);
       exists tr, r; intros x; rewrite Hfirst; apply H|].
    destruct (str_eqb t "payroll_update");
      [destruct (Hemit LOG "Payroll update:" "payroll_update"
                   (lookup_field "data" fields)) as (tr & r & H);
       exists tr, r; intros x; rewrite Hfirst; apply H|].
    destruct (str_eqb t "system_message");
      [destruct (Hemit LOG "System message:" "system_message"
                   (lookup_field "data" fields)) as (tr & r & H);
       exists tr, r; intros x; rewrite Hfirst; apply H|].
    destruct (str_eqb t "pong").
    + do 2 eexists. intros x. rewrite Hfirst. reflexivity.
    + destruct Hdefault as (tr & r & H). exists tr, r. intros x.
      rewrite Hfirst. apply H.
Qed.

(** [onmessage] never lets an exception out and never changes anything but
    the trace; what it adds depends on the frame and the listener table,
    not on earlier frames. *)
Lemma onmessage_trace (data : parsed) (w : world) :
  exists tr, forall x,
    run_sync (onmessage data) (set_effects x w) =
    (set_effects (x ++ tr) w, Finished (Ok tt)).
Proof.
  unfold onmessage. destruct data as [|message].
  - eexists. intros x. reflexivity.
  - destruct (handleMessage_trace message w) as (tr & [[]|e] & H).
    + exists tr. intros x. rewrite run_sync_try_catch, H. reflexivity.
    + exists (tr ++ [Console ERROR "Error parsing WebSocket message:"]).
      intros x. rewrite run_sync_try_catch, H.
      unfold console, tell, modify. cbn [run_sync effects set_effects].
      rewrite app_assoc. reflexivity.
Qed.

Lemma added_set_effects (tr : list effect) (w : world) :
  added w (set_effects (effects w ++ tr) w) = tr.
Proof.
  unfold added. cbn [effects set_effects]. apply drop_app_length.
Qed.

(** C5, as the code has it.  A frame of category [c] is handed to the
    subscribers of [c] in registration order up to and including the first
    one that throws; the subscribers registered after it are not called for
    that frame.  The exception is caught by [onmessage], which logs it and
    returns normally, and nothing but the trace has changed: the next
    frame, whatever it is, is dispatched exactly as it would have been had
    the first frame never arrived. *)
Theorem dispatch_stops_at_first_throwing_subscriber
    (c : string) (fields : list (string * value)) (next : parsed) (w : world) :
  In c categories ->
  lookup_field "type" fields = VStr c ->
  let data := lookup_field "data" fields in
  let w' := fst (run_sync (onmessage (Json (VObj fields))) w) in
  run_sync (onmessage (Json (VObj fields))) w =
    (set_effects
       (effects w ++
        Console LOG "Received WebSocket message:" ::
        Console LOG (handler_label c) ::
        delivered c data (subscribers c w) ++
        caught (first_throw data (subscribers c w))) w,
     Finished (Ok tt)) /\
  exists tr,
    run_sync (onmessage next) w = (set_effects (effects w ++ tr) w, Finished (Ok tt)) /\
    run_sync (onmessage next) w' = (set_effects (effects w' ++ tr) w, Finished (Ok tt)).
Proof.
  intros Hc Hty data w'. subst data w'.
  rewrite (run_onmessage_category c fields w Hc Hty). split; [reflexivity|].
  destruct (onmessage_trace next w) as (tr & H). exists tr. split.
  - rewrite <- (set_effects_same w) at 1. apply H.
  - cbn [fst effects set_effects]. apply H.
Qed.

Lemma dispatch_stops_at_first_throwing_subscriber_witness :
  In "notification" categories /\
  lookup_field "type"
    [("type", VStr "notification"); ("data", VObj [("id", VNum 1)])] =
    VStr "notification" /\
  run_sync (onmessage (Json notification_frame)) two_subscribers =
    (set_effects
       [Console LOG "Received WebSocket message:";
        Console LOG "New notification:";
        Called 1 "notification" (VObj [("id", VNum 1)]);
        Console ERROR "Error parsing WebSocket message:"] two_subscribers,
     Finished (Ok tt)).
Proof.
  split; [left; reflexivity|]. split; [reflexivity|].
  exact (proj1 (dispatch_stops_at_first_throwing_subscriber
                  "notification"
                  [("type", VStr "notification"); ("data", VObj [("id", VNum 1)])]
                  SyntaxError two_subscribers
                  (or_introl eq_refl) eq_refl)).
Defined.

(** C5 as the specification words it fails: with a throwing subscriber registered
    before a sound one, a notification frame never reaches the second. *)
Lemma throwing_subscriber_starves_the_next :
  In sound (subscribers "notification" two_subscribers) /\
  ~ reaches_every_subscriber "notification" (VObj [("id", VNum 1)])
      two_subscribers
      (fst (run_sync (onmessage (Json notification_frame)) two_subscribers)).
Proof.
  split; [right; left; reflexivity|].
  intros H. specialize (H sound (or_intror (or_introl eq_refl))).
  vm_compute in H.
  repeat (destruct H as [H | H]; [discriminate H|]). exact H.
Qed.

(** *** Frames of unknown type *)

Lemma recognized_false (t : string) :
  recognized (VStr t) = false ->
  str_eqb t "notification" = false /\ str_eqb t "attendance_update" = false /\
  str_eqb t "leave_update" = false /\ str_eqb t "shift_update" = false /\
  str_eqb t "payroll_update" = false /\ str_eqb t "system_message" = false /\
  str_eqb t "pong" = false.
Proof.
  unfold recognized, recognized_types, categories. cbn [app existsb].
  intros H. repeat (apply orb_false_iff in H; destruct H as [? H]).
  repeat split; assumption.
Qed.

Lemma run_handleMessage_unknown (message ty : value) (w : world) :
  frame_type message = Some ty ->
  recognized ty = false ->
  run_sync (handleMessage message) w =
  run_sync (console WARN "Unknown message type:" ;;;
            _ <- emit "message" message ;; Pure tt)
           (set_effects (effects w ++ [Console LOG "Received WebSocket message:"]) w).
Proof.
  intros Hty Hrec. unfold handleMessage.
  rewrite run_sync_bind. unfold console at 1, tell, modify. cbn [run_sync].
  destruct message as [| |b|n|s|items|fields]; try discriminate Hty;
    try reflexivity.
  cbn [frame_type] in Hty. injection Hty as <-.
  unfold property. cbn [bind].
  destruct (lookup_field "type" fields) as [| |b|n|t|items|fs]; try reflexivity.
  destruct (recognized_false t Hrec) as (-> & -> & -> & -> & -> & -> & ->).
  reflexivity.
Qed.

Lemma delivered_event (event event' : string) (arg arg' : value)
    (ls : list listener) (l : nat) :
  In (Called l event' arg') (delivered event arg ls) -> event' = event /\ arg' = arg.
Proof.
  induction ls as [|cb rest IH]; simpl; [tauto|].
  intros [H | H]; [injection H; auto|].
  destruct (body cb arg); [destruct H | auto].
Qed.

(** C6, as the code has it.  A frame whose [type] is not one of the seven
    recognized strings (a missing or non-string [type] included) is not
    dropped: [handleMessage] prints the "Unknown message type" warning and
    re-emits the whole frame on the emitter's generic ['message'] event, so
    the listeners of ['message'] are called with it (up to the first that
    throws).  No subscriber of a recognized category is called, the handler
    returns normally, and nothing but the trace changes: the channel stays
    as it was. *)
Theorem unknown_frame_goes_to_message_listeners (message ty : value) (w : world) :
  frame_type message = Some ty ->
  recognized ty = false ->
  let w' := fst (run_sync (onmessage (Json message)) w) in
  run_sync (onmessage (Json message)) w =
    (set_effects
       (effects w ++
        Console LOG "Received WebSocket message:" ::
        Console WARN "Unknown message type:" ::
        delivered "message" message (subscribers "message" w) ++
        caught (first_throw message (subscribers "message" w))) w,
     Finished (Ok tt)) /\
  (forall l event arg,
     In (Called l event arg) (added w w') -> event = "message" /\ arg = message) /\
  ~ In "message" recognized_types.
Proof.
  intros Hty Hrec w'.
  assert (Hrun : run_sync (onmessage (Json message)) w =
    (set_effects
       (effects w ++
        Console LOG "Received WebSocket message:" ::
        Console WARN "Unknown message type:" ::
        delivered "message" message (subscribers "message" w) ++
        caught (first_throw message (subscribers "message" w))) w,
     Finished (Ok tt))).
  { unfold onmessage.
    rewrite run_sync_try_catch, (run_handleMessage_unknown message ty w Hty Hrec).
    rewrite run_log_then_emit. unfold subscribers, emit_result.
    cbn [effects listeners set_effects]. rewrite <- app_assoc. cbn [app].
    destruct (default [] (listeners w !! "message")) as [|cb rest] eqn:E.
    - cbn [delivered first_throw caught]. decide_strings. reflexivity.
    - destruct (first_throw message (cb :: rest)) as [e|].
      + unfold console, tell, modify. cbn [run_sync effects set_effects caught].
        rewrite <- app_assoc. reflexivity.
      + cbn [caught]. rewrite app_nil_r. reflexivity. }
  split; [exact Hrun|]. split.
  - subst w'. rewrite Hrun. cbn [fst]. rewrite added_set_effects.
    intros l event arg [H | [H | H]]; try discriminate H.
    apply in_app_or in H. destruct H as [H | H].
    + eapply delivered_event; exact H.
    + destruct (first_throw _ _); simpl in H; [destruct H as [H | H]|];
        try discriminate H; destruct H.
  - vm_compute. intros H.
    repeat (destruct H as [H | H]; [discriminate H|]). exact H.
Qed.

Lemma unknown_frame_goes_to_message_listeners_witness :
  frame_type typing_frame = Some (VStr "typing") /\
  recognized (VStr "typing") = false /\
  run_sync (onmessage (Json typing_frame)) message_listener =
    (set_effects
       [Console LOG "Received WebSocket message:";
        Console WARN "Unknown message type:";
        Called 2 "message" typing_frame] message_listener,
     Finished (Ok tt)).
Proof.
  split; [reflexivity|]. split; [reflexivity|].
  exact (proj1 (unknown_frame_goes_to_message_listeners
                  typing_frame (VStr "typing") message_listener eq_refl eq_refl)).
Defined.

(** C6 as the specification words it fails: the frame is not dropped, a registered
    callback receives it. *)
Lemma unknown_frame_is_not_dropped :
  recognized (VStr "typing") = false /\
  ~ calls_nobody message_listener
      (fst (run_sync (onmessage (Json typing_frame)) message_listener)).
Proof.
  split; [reflexivity|]. unfold calls_nobody. vm_compute. discriminate.
Qed.

(** *** Heartbeat *)

Lemma ws_is_open_set_effects (x : list effect) (w : world) :
  ws_is_open (set_effects x w) = ws_is_open w.
Proof. reflexivity. Qed.

Lemma run_heartbeat (w : world) (sid : nat) :
  ws w = Some sid ->
  ws_is_open w = true ->
  forall x,
    run_sync (fire HeartbeatTimer) (set_effects x w) =
    (set_effects (x ++ [Sent sid ping]) w, Finished (Ok tt)).
Proof.
  intros Hws Hopen x. unfold fire, sendMessage, get. cbn [bind run_sync].
  rewrite ws_is_open_set_effects, Hopen. cbn [bind run_sync].
  rewrite ws_is_open_set_effects, Hopen. cbn [ws set_effects]. rewrite Hws.
  reflexivity.
Qed.

(** C3, as the code has it.  [startHeartbeat] installs one interval of
    30000 ms whose closure sends a ping when the socket is OPEN.  While the
    service holds an OPEN socket, each firing of that closure sends exactly
    one ping frame and changes nothing else, and a pong frame is logged and
    otherwise ignored.  No pong is ever awaited: after any number of
    firings with no pong in between, the service still holds the same OPEN
    socket, its timers and reconnect counter are untouched, and no
    reconnect has been scheduled. *)
Theorem heartbeat_pings_and_never_times_out (w : world) (sid : nat) (s : socket) :
  ws w = Some sid ->
  sockets w !! sid = Some s ->
  sock_state s = OPEN ->
  (timers (fst (run_sync startHeartbeat w)) =
     match heartbeatInterval w with
     | Some id => filter (fun t => tm_id t ≠ id) (timers w)
     | None => timers w
     end ++ [mkTimer (next_timer w) true 30000 HeartbeatTimer]) /\
  (forall n : nat,
     heartbeats n w = set_effects (effects w ++ repeat (Sent sid ping) n) w) /\
  run_sync (onmessage (Json pong)) w =
    (set_effects (effects w ++ [Console LOG "Received WebSocket message:"]) w,
     Finished (Ok tt)).
Proof.
  intros Hws Hsock Hstate.
  assert (Hopen : ws_is_open w = true).
  { apply ws_is_open_true. exists sid, s. auto. }
  split; [|split].
  - unfold startHeartbeat, stopHeartbeat, get, setInterval, schedule, clearInterval, modify.
    cbn [bind run_sync]. destruct (heartbeatInterval w); reflexivity.
  - induction n as [|n IH].
    + simpl. rewrite app_nil_r, set_effects_same. reflexivity.
    + change (heartbeats (S n) w)
        with (fst (run_sync (fire HeartbeatTimer) (heartbeats n w))).
      rewrite IH.
      rewrite (run_heartbeat w sid Hws Hopen). cbn [fst].
      rewrite <- app_assoc, <- repeat_cons. reflexivity.
  - reflexivity.
Qed.

(** An open channel: the first connection attempt has succeeded. *)
Lemma heartbeat_pings_and_never_times_out_witness :
  let w := sys_world
             (deliver_all [Called_by_app connect; Answered (RItem (Some "token"));
                           SocketOpen 0%nat] boot) in
  ws w = Some 0%nat /\
  sockets w !! 0%nat =
    Some (mkSocket "ws://192.168.1.100:8000/ws/notifications/?token=token" OPEN true) /\
  heartbeats 3 w =
    set_effects (effects w ++ [Sent 0%nat ping; Sent 0%nat ping; Sent 0%nat ping]) w.
Proof.
  intros w. split; [reflexivity|]. split; [reflexivity|].
  exact (proj1 (proj2 (heartbeat_pings_and_never_times_out w 0%nat
                         (mkSocket "ws://192.168.1.100:8000/ws/notifications/?token=token"
                                   OPEN true)
                         eq_refl eq_refl eq_refl)) 3%nat).
Defined.

(** C3 as the specification words it fails: 90 seconds after the last sign of life
    from the server (three pings sent, no pong received, the window being
    60 seconds) the channel is still open and no reconnect is scheduled. *)
Lemma missed_pongs_leave_the_channel_open :
  List.filter (fun e => match e with Sent _ _ => true | _ => false end)
              (effects (sys_world silent_session)) =
    [Sent 0%nat ping; Sent 0%nat ping; Sent 0%nat ping] /\
  channel_open silent_session = true /\
  reconnect_scheduled (sys_world silent_session) = false /\
  reconnectAttempts (sys_world silent_session) = 0.
Proof. vm_compute. repeat split; reflexivity. Qed.
End Channel.

(** ** ApiService: the session *)

Module Session.
Import ApiService.
Local Open Scope async_scope.

(** *** Logout *)

(** As far as its own code goes, [logout()] does what its comment says.  It
    reads the access token, makes the remote call when there is one, and
    then, whatever came back (the token read failed, the remote call was
    fulfilled, the remote call was rejected with any error), issues exactly
    one store operation: a single [multiRemove] of the three credential
    keys, after which it resolves.  That one operation removes the access
    token, the refresh token and the cached user together, and touches no
    other key.  All of this is under the condition that the remote call
    comes back at all. *)
Lemma logout_clears_the_store_once_the_call_settles (st : service) (store : gmap string string) :
  (forall token remote,
     truthy token = true ->
     exists st',
       run_with [RItem token; remote; RUnit] logout st =
       (st',
        [GetItem TOKEN_KEY; Dispatch (post "/auth/logout/" VUndefined);
         MultiRemove credentials],
        Finished (Ok tt)) /\
       (st' = st \/ st' = warned st)) /\
  (forall token,
     truthy token = false ->
     run_with [RItem token; RUnit] logout st =
     (st, [GetItem TOKEN_KEY; MultiRemove credentials], Finished (Ok tt))) /\
  (forall e,
     run_with [RReject e; RUnit] logout st =
     (warned st, [GetItem TOKEN_KEY; MultiRemove credentials], Finished (Ok tt))) /\
  (forall key, In key credentials ->
     store_after (MultiRemove credentials) store !! key = None) /\
  (forall key, ~ In key credentials ->
     store_after (MultiRemove credentials) store !! key = store !! key).
Proof.
  split; [|split; [|split; [|split]]].
  - intros token remote Htok. unfold logout, run_with. simpl. rewrite Htok.
    destruct remote; simpl; eexists; (split; [reflexivity|]); auto.
  - intros token Htok. unfold logout, run_with. simpl. rewrite Htok. reflexivity.
  - intros e. reflexivity.
  - intros key Hkey. unfold credentials in *. simpl in *.
    destruct Hkey as [<- | [<- | [<- | []]]].
    + apply lookup_delete_eq.
    + rewrite lookup_delete_ne by discriminate. apply lookup_delete_eq.
    + rewrite !lookup_delete_ne by discriminate. apply lookup_delete_eq.
  - intros key Hkey. unfold credentials in *. simpl in *.
    rewrite !lookup_delete_ne; [reflexivity| | |]; intros <-; apply Hkey; auto.
Qed.

(** A rejected remote call; and, end to end, a server that answers the
    logout request with a 500. *)
Lemma logout_against_a_failing_server :
  truthy (Some "old") = true /\
  (exists st',
     run_with [RItem (Some "old");
               RReject (AxiosError (post "/auth/logout/" VUndefined) (Some 500)); RUnit]
              logout fresh =
     (st',
      [GetItem TOKEN_KEY; Dispatch (post "/auth/logout/" VUndefined);
       MultiRemove credentials],
      Finished (Ok tt)) /\
     (st' = fresh \/ st' = warned fresh)) /\
  storage logout_with_failing_server = ∅ /\
  map doing (tasks logout_with_failing_server) = [inr (Ok VUndefined)].
Proof.
  split; [reflexivity|]. split; [|split; reflexivity].
  apply (proj1 (logout_clears_the_store_once_the_call_settles fresh signed_in)).
  reflexivity.
Defined.

(** *** The retried marker *)

(** A request that carries the marker is never refreshed for: whatever its
    status, the interceptor rejects with the error it was given and
    leaves the service as it was. *)
Lemma marked_request_is_rejected (config : request) (status : option Z) (st : service) :
  _retry config = true ->
  run_sync (onRejected (AxiosError config status)) st =
  (st, Finished (Err (AxiosError config status))).
Proof.
  intros H. unfold onRejected. rewrite H, andb_false_r. reflexivity.
Qed.

(** C2 at its failing input.  The waiter of the first refresh cycle is sent
    again after the refresh, once, and without the marker.  When that
    retry is answered 401 the interceptor does not fail the request: it
    starts a second refresh cycle ([isRefreshing] is set again and the
    refresh token is being read), calls the refresh endpoint a second time
    and puts the request on the wire a third time. *)
Theorem waiter_is_retried_twice :
  refresh_calls refreshed = 1%nat /\
  map doing (tasks refreshed) = [inl (GetItem TOKEN_KEY); inl (GetItem TOKEN_KEY)] /\
  isRefreshing (svc refreshed) = false /\
  sent_to "/leave/balance/" waiter_401_again = 2%nat /\
  isRefreshing (svc waiter_401_again) = true /\
  doing <$> tasks waiter_401_again !! 1%nat = Some (inl (GetItem REFRESH_TOKEN_KEY)) /\
  refresh_calls second_cycle = 2%nat /\
  sent_to "/leave/balance/" second_cycle = 3%nat.
Proof. vm_compute. repeat split; reflexivity. Qed.

(** The sibling path: the leader of the cycle carries the marker, and its
    second 401 is handed to the caller as it came, with no new cycle. *)
Lemma leader_is_retried_once :
  sent_to "/attendance/today/" leader_401_again = 2%nat /\
  isRefreshing (svc leader_401_again) = false /\
  refresh_calls leader_401_again = 1%nat /\
  doing <$> tasks leader_401_again !! 0%nat =
    Some (inr (Err (AxiosError
                      (mkRequest "get" "/attendance/today/" VUndefined
                                 (Some "Bearer new") true)
                      (Some 401)))).
Proof. vm_compute. repeat split; reflexivity. Qed.

(** *** Single flight *)

(** A 401 that arrives while a refresh is in flight makes no call of its
    own: the interceptor creates a promise, pushes it onto [failedQueue] and
    waits for it.  Resolved, it sends the request again, without the marker;
    rejected, it fails with the error of the refresh. *)
Lemma waiter_parks (config : request) (st : service) :
  _retry config = false ->
  isRefreshing st = true ->
  exists k,
    run_sync (onRejected (AxiosError config (Some 401))) st =
    (set_failedQueue (failedQueue st ++ [next_promise st])
       (set_next_promise (S (next_promise st)) st),
     Blocked (Parked (next_promise st)) k) /\
    (forall st', exists k',
       run_sync (k RUnit) st' = (st', Blocked (Dispatch config) k')) /\
    (forall e st', run_sync (k (RReject e)) st' = (st', Finished (Err e))).
Proof.
  intros Hretry Hrefreshing. unfold onRejected. rewrite Hretry. simpl.
  rewrite Hrefreshing. simpl. eexists. split; [reflexivity|]. split.
  - intros st'. simpl. eexists. reflexivity.
  - intros e st'. reflexivity.
Qed.

(** The first 401 takes the lead: it marks its request, sets
    [isRefreshing] in the same segment, and reads the refresh token. *)
Lemma leader_starts_refresh (config : request) (st : service) :
  _retry config = false ->
  isRefreshing st = false ->
  exists k,
    run_sync (onRejected (AxiosError config (Some 401))) st =
    (set_isRefreshing true st, Blocked (GetItem REFRESH_TOKEN_KEY) k).
Proof.
  intros Hretry Hrefreshing. unfold onRejected. rewrite Hretry. simpl.
  rewrite Hrefreshing. simpl. eexists. reflexivity.
Qed.

Lemma run_forEach_settle (r : reply) (ps : list nat) (st : service) :
  run_sync (forEach ps (fun p =>
              modify (fun st => set_settled (settled st ++ [(p, r)]) st))) st =
  (set_settled (settled st ++ map (fun p => (p, r)) ps) st, Finished (Ok tt)).
Proof.
  revert st. induction ps as [|p ps IH]; intros st.
  - simpl. rewrite app_nil_r. destruct st; reflexivity.
  - cbn [forEach map]. rewrite run_sync_bind. unfold modify at 1. cbn [run_sync].
    rewrite IH. cbn [settled set_settled]. rewrite <- app_assoc. reflexivity.
Qed.

(** [processQueue] gives every queued promise the same outcome, in the order
    of the queue, and empties the queue. *)
Lemma processQueue_settles_all (error : option exn) (st : service) :
  run_sync (processQueue error) st =
  (set_failedQueue []
     (set_settled
        (settled st ++
         map (fun p => (p, match error with Some e => RReject e | None => RUnit end))
             (failedQueue st)) st),
   Finished (Ok tt)).
Proof.
  unfold processQueue, get. cbn [bind run_sync]. rewrite run_sync_bind.
  destruct error as [e|]; unfold reject, resolve; rewrite run_forEach_settle; reflexivity.
Qed.

(** The leader of a refresh that succeeds.  Whatever other code did to the
    service while the leader was suspended (waiters queueing up, among other
    things), the leader calls the refresh endpoint once, stores the new
    token, settles every promise then in [failedQueue] with the same
    [resolve()], in the order of the queue, empties the queue, clears
    [isRefreshing] and sends its own request again, marked. *)
Lemma leader_refresh_succeeds
    (config : request) (st : service) (rt access : string)
    (code : Z) (fields : list (string * value)) (f1 f2 f3 : service -> service) :
  _retry config = false ->
  isRefreshing st = false ->
  truthy (Some rt) = true ->
  lookup_field "access" fields = VStr access ->
  let st3 := f3 (f2 (f1 (set_isRefreshing true st))) in
  exists k,
    run_among [(RItem (Some rt), f1);
               (RResponse (mkResponse code (VObj fields)), f2);
               (RUnit, f3)]
              (onRejected (AxiosError config (Some 401))) st =
    (set_isRefreshing false
       (set_failedQueue []
          (set_settled (settled st3 ++ map (fun p => (p, RUnit)) (failedQueue st3)) st3)),
     [GetItem REFRESH_TOKEN_KEY;
      Dispatch (post "/auth/token/refresh/" (VObj [("refresh", VStr rt)]));
      SetItem TOKEN_KEY access;
      Dispatch (set_retry true config)],
     Blocked (Dispatch (set_retry true config)) k).
Proof.
  intros Hretry Hrefreshing Hrt Haccess st3.
  unfold onRejected. rewrite Hretry. cbn [is_401 Z.eqb Pos.eqb negb andb].
  unfold run_among, get. cbn [bind run_sync]. rewrite Hrefreshing.
  unfold modify at 1. cbn [bind run_sync try_finally try_catch getItem await item_of].
  rewrite Hrt. unfold refreshAuthToken, api, await.
  cbn [bind run_sync try_finally try_catch response_of access_of resp_data].
  rewrite Haccess. unfold setItem, await.
  cbn [bind run_sync try_finally try_catch unit_of].
  rewrite run_sync_bind, run_sync_try_finally, run_sync_try_catch, run_sync_bind.
  rewrite processQueue_settles_all.
  cbn [bind run_sync modify]. eexists. reflexivity.
Qed.


Lemma answers_change_nothing (sy : system) :
  (forall t failure, deliver (StorageDone t failure) sy = sy) ->
  (forall t a, deliver (NetworkDone t a) sy = sy) ->
  forall cs : list completion_event, deliver_all (map as_event cs) sy = sy.
Proof.
  intros Hs Hn cs. unfold deliver_all.
  induction cs as [|c cs IH]; [reflexivity|].
  cbn [map fold_left]. destruct c as [t f|t a]; cbn [as_event].
  - rewrite Hs. apply IH.
  - rewrite Hn. apply IH.
Qed.

Lemma idle_system_ignores_answers (sy : system) :
  forallb idle (tasks sy) = true ->
  (forall t failure, deliver (StorageDone t failure) sy = sy) /\
  (forall t a, deliver (NetworkDone t a) sy = sy).
Proof.
  intros Hidle.
  assert (H : forall t st, tasks sy !! t = Some st -> idle st = true).
  { intros t st Hst. rewrite forallb_forall in Hidle. apply Hidle.
    apply list_elem_of_In. eapply list_elem_of_lookup_2. exact Hst. }
  split.
  - intros t failure. unfold deliver.
    destruct (tasks sy !! t) as [[o k|r]|] eqn:E.
    + specialize (H t _ E). destruct o; try discriminate H; destruct failure; reflexivity.
    + destruct failure; reflexivity.
    + destruct failure; reflexivity.
  - intros t a. unfold deliver.
    destruct (tasks sy !! t) as [[o k|r]|] eqn:E; try reflexivity.
    specialize (H t _ E). destruct o; try discriminate H; reflexivity.
Qed.

(** C1 at its failing input.  Two callers are answered 401, the refresh is
    called once, and the server refuses the refresh token with a 401.  The
    refresh request went through the same interceptor: finding
    [isRefreshing] set, it queued itself behind the refresh it is part of.
    Neither caller is retried, neither is rejected: both tasks wait on
    promises of [failedQueue], [isRefreshing] stays set, and no answer of
    the storage or of the network changes anything any more. *)
Theorem refused_refresh_settles_nobody :
  refresh_calls refresh_refused = 1%nat /\
  map doing (tasks refresh_refused) = [inl (Parked 1); inl (Parked 0)] /\
  isRefreshing (svc refresh_refused) = true /\
  failedQueue (svc refresh_refused) = [0%nat; 1%nat] /\
  forall cs : list completion_event,
    deliver_all (map as_event cs) refresh_refused = refresh_refused.
Proof.
  assert (Hidle : forallb idle (tasks refresh_refused) = true)
    by (vm_compute; reflexivity).
  destruct (idle_system_ignores_answers _ Hidle) as [Hs Hn].
  split; [vm_compute; reflexivity|]. split; [vm_compute; reflexivity|].
  split; [vm_compute; reflexivity|]. split; [vm_compute; reflexivity|].
  apply answers_change_nothing; assumption.
Qed.

(** The same defect on the other failure path: the refresh fails with a
    500, the waiter is rejected with that error, and the leader's
    [logout()], whose request is answered 401 while [isRefreshing] is still
    set, queues behind a queue that has already been processed.  The
    leader is never rejected and the store is never cleared. *)
Lemma failed_refresh_strands_the_leader :
  map doing (tasks logout_refused) =
    [inl (Parked 1);
     inr (Err (AxiosError
                 (mkRequest "post" "/auth/token/refresh/"
                            (VObj [("refresh", VStr "rt")]) (Some "Bearer old") false)
                 (Some 500)))] /\
  isRefreshing (svc logout_refused) = true /\
  storage logout_refused = signed_in /\
  forall cs : list completion_event,
    deliver_all (map as_event cs) logout_refused = logout_refused.
Proof.
  assert (Hidle : forallb idle (tasks logout_refused) = true)
    by (vm_compute; reflexivity).
  destruct (idle_system_ignores_answers _ Hidle) as [Hs Hn].
  split; [vm_compute; reflexivity|]. split; [vm_compute; reflexivity|].
  split; [vm_compute; reflexivity|].
  apply answers_change_nothing; assumption.
Qed.

(** C7 at its failing input.  [logout()] makes its remote call through the
    intercepted axios instance.  With both tokens expired the logout request
    is answered 401, the interceptor takes the lead of a refresh, and the
    refresh request, answered 401 as well, queues itself behind that very
    refresh.  The remote call never comes back, the [finally] of [logout]
    never runs: the store still holds the access token, the refresh token
    and the cached user, and no answer of the storage or of the network
    changes that. *)
Theorem logout_with_expired_tokens_never_clears :
  map url (wire logout_with_expired_tokens) = ["/auth/logout/"; "/auth/token/refresh/"] /\
  map doing (tasks logout_with_expired_tokens) = [inl (Parked 0)] /\
  isRefreshing (svc logout_with_expired_tokens) = true /\
  storage logout_with_expired_tokens = signed_in /\
  (forall key, In key credentials ->
     is_Some (storage logout_with_expired_tokens !! key)) /\
  forall cs : list completion_event,
    storage (deliver_all (map as_event cs) logout_with_expired_tokens) = signed_in.
Proof.
  assert (Hidle : forallb idle (tasks logout_with_expired_tokens) = true)
    by (vm_compute; reflexivity).
  destruct (idle_system_ignores_answers _ Hidle) as [Hs Hn].
  assert (Hstore : storage logout_with_expired_tokens = signed_in)
    by (vm_compute; reflexivity).
  split; [vm_compute; reflexivity|]. split; [vm_compute; reflexivity|].
  split; [vm_compute; reflexivity|]. split; [exact Hstore|]. split.
  - intros key [<- | [<- | [<- | []]]]; rewrite Hstore; vm_compute; eauto.
  - intros cs. rewrite (answers_change_nothing _ Hs Hn cs). exact Hstore.
Qed.

(** *** Further paths of the interceptor *)

(** Errors that are not a first 401 pass through.  An error without a
    response, an error with any status other than 401, and an exception
    that is no HTTP error at all are handed to the caller as they came:
    no refresh, no queueing, and the service is untouched. *)
Theorem other_errors_pass_through (error : exn) (st : service) :
  match error with
  | AxiosError config status => is_401 status = false
  | Thrown _ => True
  end ->
  run_sync (onRejected error) st = (st, Finished (Err error)).
Proof.
  destruct error as [config status|msg]; [|reflexivity].
  intros H. unfold onRejected. rewrite H. reflexivity.
Qed.

Lemma other_errors_pass_through_witness :
  is_401 (Some 500) = false /\
  is_401 None = false /\
  run_sync (onRejected (AxiosError today (Some 500))) fresh =
    (fresh, Finished (Err (AxiosError today (Some 500)))) /\
  run_sync (onRejected (AxiosError today None)) fresh =
    (fresh, Finished (Err (AxiosError today None))).
Proof.
  split; [reflexivity|]. split; [reflexivity|]. split.
  - apply (other_errors_pass_through (AxiosError today (Some 500)) fresh). reflexivity.
  - apply (other_errors_pass_through (AxiosError today None) fresh). reflexivity.
Defined.

(** The leader without a refresh token.  When the store has no refresh
    token (or an empty one), the leader makes no call at all: it leaves the
    [try] by its end, clears [isRefreshing] and rejects with the 401 it was
    given.  Neither [processQueue] nor [logout] runs on this path: the
    promises queued in the meantime are still in [failedQueue], unsettled,
    and the store is not touched. *)
Theorem leader_without_refresh_token
    (config : request) (st : service) (item : option string) (f1 : service -> service) :
  _retry config = false ->
  isRefreshing st = false ->
  truthy item = false ->
  let st1 := f1 (set_isRefreshing true st) in
  run_among [(RItem item, f1)] (onRejected (AxiosError config (Some 401))) st =
  (set_isRefreshing false st1,
   [GetItem REFRESH_TOKEN_KEY],
   Finished (Err (AxiosError (set_retry true config) (Some 401)))) /\
  failedQueue (set_isRefreshing false st1) = failedQueue st1 /\
  settled (set_isRefreshing false st1) = settled st1.
Proof.
  intros Hretry Hrefreshing Hitem st1.
  split; [|split; reflexivity].
  unfold onRejected. rewrite Hretry. cbn [is_401 Z.eqb Pos.eqb negb andb].
  unfold run_among, get. cbn [bind run_sync]. rewrite Hrefreshing.
  unfold modify at 1. cbn [bind run_sync try_finally try_catch getItem await item_of].
  rewrite Hitem. reflexivity.
Qed.

Lemma leader_without_refresh_token_witness :
  _retry today = false /\
  isRefreshing fresh = false /\
  truthy None = false /\
  run_among [(RItem None, a_waiter_queues)] (onRejected (AxiosError today (Some 401))) fresh =
  (mkService false [0%nat] 1%nat [] [],
   [GetItem REFRESH_TOKEN_KEY],
   Finished (Err (AxiosError (set_retry true today) (Some 401)))).
Proof.
  split; [reflexivity|]. split; [reflexivity|]. split; [reflexivity|].
  exact (proj1 (leader_without_refresh_token today fresh None a_waiter_queues
                  eq_refl eq_refl eq_refl)).
Defined.

(** The same end to end: the waiter that queued behind a leader without a
    refresh token is never settled.  The leader is rejected with its 401,
    [isRefreshing] is cleared, no refresh call was made; the waiter's
    promise is still in the queue and no answer of storage or network can
    reach it. *)
Theorem missing_refresh_token_strands_the_waiter :
  map doing (tasks no_refresh_token) =
    [inr (Err (AxiosError (set_retry true (set_authorization (Some "Bearer old") today))
                          (Some 401)));
     inl (Parked 0%nat)] /\
  isRefreshing (svc no_refresh_token) = false /\
  failedQueue (svc no_refresh_token) = [0%nat] /\
  refresh_calls no_refresh_token = 0%nat /\
  storage no_refresh_token = access_only /\
  forall cs : list completion_event,
    deliver_all (map as_event cs) no_refresh_token = no_refresh_token.
Proof.
  assert (Hidle : forallb idle (tasks no_refresh_token) = true)
    by (vm_compute; reflexivity).
  destruct (idle_system_ignores_answers _ Hidle) as [Hs Hn].
  split; [vm_compute; reflexivity|]. split; [vm_compute; reflexivity|].
  split; [vm_compute; reflexivity|]. split; [vm_compute; reflexivity|].
  split; [vm_compute; reflexivity|].
  apply answers_change_nothing; assumption.
Qed.

(** Single flight, when the refresh succeeds.  Two callers answered 401
    cause one call of the refresh endpoint; both requests are then sent
    once more, with the new token, and both callers get their data. *)
Theorem one_refresh_serves_both_callers :
  refresh_calls both_served = 1%nat /\
  map doing (tasks both_served) = [inr (Ok (VStr "today")); inr (Ok (VStr "balance"))] /\
  map authorization
      (List.filter (fun c => negb (is_refresh c)) (wire both_served)) =
    [Some "Bearer old"; Some "Bearer old"; Some "Bearer new"; Some "Bearer new"] /\
  sent_to "/attendance/today/" both_served = 2%nat /\
  sent_to "/leave/balance/" both_served = 2%nat /\
  storage both_served !! TOKEN_KEY = Some "new" /\
  isRefreshing (svc both_served) = false /\
  failedQueue (svc both_served) = [].
Proof. vm_compute. repeat split; reflexivity. Qed.

(** [isAuthenticated()] never rejects: it makes one read of the access
    token and answers whether a non-empty token came back; a failing store
    counts as signed out. *)
Theorem isAuthenticated_never_rejects (r : reply) (st : service) :
  run_with [r] isAuthenticated st =
  (st, [GetItem TOKEN_KEY],
   Finished (Ok match r with RItem token => truthy token | _ => false end)).
Proof. destruct r; reflexivity. Qed.


Lemma marked_request_is_rejected_witness :
  _retry (set_retry true today) = true /\
  run_sync (onRejected (AxiosError (set_retry true today) (Some 401))) fresh =
  (fresh, Finished (Err (AxiosError (set_retry true today) (Some 401)))).
Proof.
  split; [reflexivity|].
  apply (marked_request_is_rejected (set_retry true today) (Some 401) fresh). reflexivity.
Defined.

Lemma waiter_parks_witness :
  let st := set_isRefreshing true fresh in
  _retry balance = false /\
  isRefreshing st = true /\
  exists k,
    run_sync (onRejected (AxiosError balance (Some 401))) st =
    (set_failedQueue (failedQueue st ++ [next_promise st])
       (set_next_promise (S (next_promise st)) st),
     Blocked (Parked (next_promise st)) k) /\
    (forall st', exists k',
       run_sync (k RUnit) st' = (st', Blocked (Dispatch balance) k')) /\
    (forall e st', run_sync (k (RReject e)) st' = (st', Finished (Err e))).
Proof.
  intros st. split; [reflexivity|]. split; [reflexivity|].
  apply (waiter_parks balance st); reflexivity.
Defined.

Lemma leader_starts_refresh_witness :
  _retry today = false /\
  isRefreshing fresh = false /\
  exists k,
    run_sync (onRejected (AxiosError today (Some 401))) fresh =
    (set_isRefreshing true fresh, Blocked (GetItem REFRESH_TOKEN_KEY) k).
Proof.
  split; [reflexivity|]. split; [reflexivity|].
  apply (leader_starts_refresh today fresh); reflexivity.
Defined.

(** Two waiters queue up while the leader reads the refresh token. *)
Lemma leader_refresh_succeeds_witness :
  _retry today = false /\
  isRefreshing fresh = false /\
  truthy (Some "rt") = true /\
  lookup_field "access" [("access", VStr "new")] = VStr "new" /\
  exists k,
    run_among [(RItem (Some "rt"), fun st => a_waiter_queues (a_waiter_queues st));
               (RResponse (mkResponse 200 (VObj [("access", VStr "new")])), fun st => st);
               (RUnit, fun st => st)]
              (onRejected (AxiosError today (Some 401))) fresh =
    (mkService false [] 2%nat [(0%nat, RUnit); (1%nat, RUnit)] [],
     [GetItem REFRESH_TOKEN_KEY;
      Dispatch (post "/auth/token/refresh/" (VObj [("refresh", VStr "rt")]));
      SetItem TOKEN_KEY "new";
      Dispatch (set_retry true today)],
     Blocked (Dispatch (set_retry true today)) k).
Proof.
  split; [reflexivity|]. split; [reflexivity|]. split; [reflexivity|].
  split; [reflexivity|].
  exact (leader_refresh_succeeds today fresh "rt" "new" 200 [("access", VStr "new")]
           (fun st => a_waiter_queues (a_waiter_queues st)) (fun st => st) (fun st => st)
           eq_refl eq_refl eq_refl eq_refl).
Defined.

End Session.

(** ** Facts about invariants *)

Section HoareFacts.
Context {S : Type} (I : S -> Prop).

Lemma wp_mono {A : Type} (m : async S A) (Q Q' : outcome A -> S -> Prop) (s : S) :
  (forall r s', Q r s' -> Q' r s') -> wp I m Q s -> wp I m Q' s.
Proof.
  intros HQ. revert s.
  induction m as [a|e|k IH|s' m IH|o k IH]; intros s; simpl; auto.
  intros [Hs Hk]. split; [exact Hs|]. intros r s2 Hs2. apply IH, Hk, Hs2.
Qed.

Lemma wp_bind {A B : Type} (m : async S A) (f : A -> async S B)
    (Q : outcome B -> S -> Prop) (s : S) :
  wp I m (fun r s' => match r with
                      | Ok a => wp I (f a) Q s'
                      | Err e => Q (Err e) s'
                      end) s ->
  wp I (bind m f) Q s.
Proof.
  revert s. induction m as [a|e|k IH|s' m IH|o k IH]; intros s; simpl; auto.
  intros [Hs Hk]. split; [exact Hs|]. intros r s2 Hs2. apply IH, Hk, Hs2.
Qed.

Lemma wp_try_catch {A : Type} (m : async S A) (h : exn -> async S A)
    (Q : outcome A -> S -> Prop) (s : S) :
  wp I m (fun r s' => match r with
                      | Ok a => Q (Ok a) s'
                      | Err e => wp I (h e) Q s'
                      end) s ->
  wp I (try_catch m h) Q s.
Proof.
  revert s. induction m as [a|e|k IH|s' m IH|o k IH]; intros s; simpl; auto.
  intros [Hs Hk]. split; [exact Hs|]. intros r s2 Hs2. apply IH, Hk, Hs2.
Qed.

(** A segment that does not suspend is judged by where it ends. *)
Lemma wp_sync {A : Type} (m : async S A) (Q : outcome A -> S -> Prop) (s s' : S)
    (r : outcome A) :
  run_sync m s = (s', Finished r) -> Q r s' -> wp I m Q s.
Proof.
  revert s. induction m as [a|e|k IH|s0 m IH|o k IH]; intros s; simpl.
  - intros [= <- <-]. auto.
  - intros [= <- <-]. auto.
  - apply IH.
  - apply IH.
  - discriminate.
Qed.

Lemma wp_run_sync {A : Type} (m : async S A) (Q : outcome A -> S -> Prop) (s : S) :
  wp I m Q s ->
  match run_sync m s with
  | (s', Finished r) => Q r s'
  | (s', Blocked o k) => I s' /\ forall r s2, I s2 -> wp I (k r) Q s2
  end.
Proof.
  revert s. induction m as [a|e|k IH|s0 m IH|o k IH]; intros s; simpl; auto.
  - apply IH.
  - apply IH.
Qed.

Lemma keeps_bind {A B : Type} (m : async S A) (f : A -> async S B) :
  keeps I m -> (forall a, keeps I (f a)) -> keeps I (bind m f).
Proof.
  intros Hm Hf s Hs. apply wp_bind. eapply wp_mono; [|apply Hm, Hs].
  intros [a|e] s' Hs'; [apply Hf, Hs' | exact Hs'].
Qed.

Lemma keeps_try_catch {A : Type} (m : async S A) (h : exn -> async S A) :
  keeps I m -> (forall e, keeps I (h e)) -> keeps I (try_catch m h).
Proof.
  intros Hm Hh s Hs. apply wp_try_catch. eapply wp_mono; [|apply Hm, Hs].
  intros [a|e] s' Hs'; [exact Hs' | apply Hh, Hs'].
Qed.

Lemma keeps_Get {A : Type} (k : S -> async S A) :
  (forall a, I a -> keeps I (k a)) -> keeps I (Get k).
Proof. intros Hk s Hs. simpl. apply Hk; exact Hs. Qed.

Lemma keeps_Await {A : Type} (o : op) (k : reply -> async S A) :
  (forall r, keeps I (k r)) -> keeps I (Await o k).
Proof. intros Hk s Hs. simpl. split; [exact Hs|]. intros r s2 Hs2. apply Hk, Hs2. Qed.

Lemma keeps_Pure {A : Type} (a : A) : keeps I (Pure a).
Proof. intros s Hs. exact Hs. Qed.

Lemma keeps_Raise {A : Type} (e : exn) : keeps I (@Raise S A e).
Proof. intros s Hs. exact Hs. Qed.

Lemma keeps_modify (f : S -> S) :
  (forall s, I s -> I (f s)) -> keeps I (modify f).
Proof. intros Hf s Hs. simpl. apply Hf, Hs. Qed.

Lemma keeps_sync {A : Type} (m : async S A) :
  (forall s, I s -> exists s' r, run_sync m s = (s', Finished r) /\ I s') ->
  keeps I m.
Proof.
  intros H s Hs. destruct (H s Hs) as (s' & r & Hrun & Hs').
  eapply wp_sync; [exact Hrun | exact Hs'].
Qed.
End HoareFacts.

Section EndsIn.
Context {S : Type} (P : S -> Prop).

(** Code that cannot suspend under the empty invariant satisfies every
    invariant. *)
Lemma wp_never_suspends {A : Type} (I : S -> Prop) (m : async S A)
    (Q : outcome A -> S -> Prop) (s : S) :
  wp (fun _ => False) m Q s -> wp I m Q s.
Proof.
  revert s. induction m as [a|e|k IH|s' m IH|o k IH]; intros s; simpl; auto.
  intros [[] _].
Qed.

Lemma ends_in_keeps {A : Type} (m : async S A) : ends_in P m -> keeps P m.
Proof. intros H s Hs. apply wp_never_suspends, H, Hs. Qed.

Lemma ends_in_run {A : Type} (m : async S A) (s : S) :
  ends_in P m -> P s -> exists s' r, run_sync m s = (s', Finished r) /\ P s'.
Proof.
  intros H Hs. pose proof (wp_run_sync _ m _ s (H s Hs)) as Hrun.
  destruct (run_sync m s) as [s' [r|o k]].
  - exists s', r. auto.
  - destruct Hrun as [[] _].
Qed.

Lemma ends_in_bind {A B : Type} (m : async S A) (f : A -> async S B) :
  ends_in P m -> (forall a, ends_in P (f a)) -> ends_in P (bind m f).
Proof.
  intros Hm Hf s Hs. apply wp_bind. eapply wp_mono; [|apply Hm, Hs].
  intros [a|e] s' Hs'; [apply Hf, Hs' | exact Hs'].
Qed.

Lemma ends_in_try_catch {A : Type} (m : async S A) (h : exn -> async S A) :
  ends_in P m -> (forall e, ends_in P (h e)) -> ends_in P (try_catch m h).
Proof.
  intros Hm Hh s Hs. apply wp_try_catch. eapply wp_mono; [|apply Hm, Hs].
  intros [a|e] s' Hs'; [exact Hs' | apply Hh, Hs'].
Qed.

Lemma ends_in_Get {A : Type} (k : S -> async S A) :
  (forall a, P a -> ends_in P (k a)) -> ends_in P (Get k).
Proof. intros Hk s Hs. simpl. apply Hk; exact Hs. Qed.

Lemma ends_in_Pure {A : Type} (a : A) : ends_in P (@Pure S A a).
Proof. intros s Hs. exact Hs. Qed.

Lemma ends_in_modify (f : S -> S) :
  (forall s, P s -> P (f s)) -> ends_in P (modify f).
Proof. intros Hf s Hs. simpl. apply Hf, Hs. Qed.

Lemma ends_in_sync {A : Type} (m : async S A) :
  (forall s, P s -> exists s' r, run_sync m s = (s', Finished r) /\ P s') ->
  ends_in P m.
Proof.
  intros H s Hs. destruct (H s Hs) as (s' & r & Hrun & Hs').
  eapply wp_sync; [exact Hrun | exact Hs'].
Qed.
End EndsIn.

(** ** WebSocketService: what every run of the service keeps *)

Module ChannelLaws.
Import WebSocketService ChannelModel.
Local Open Scope async_scope.

Section Preservation.
Variable final : bool.

Lemma well_formed_policy (w w' : world) :
  policy w' = policy w -> well_formed final w -> well_formed final w'.
Proof.
  unfold policy. intros [= Ha Hm Hi Ht Hn Hh Hs]. unfold well_formed.
  rewrite Ha, Hm, Hi, Ht, Hn, Hh, Hs. auto.
Qed.

Lemma ends_policy {A : Type} (m : async world A) :
  (forall w, exists w' r, run_sync m w = (w', Finished r) /\ policy w' = policy w) ->
  ends_in (well_formed final) m.
Proof.
  intros H. apply ends_in_sync. intros w Hw.
  destruct (H w) as (w' & r & Hrun & Hp). exists w', r. split; [exact Hrun|].
  eapply well_formed_policy; eauto.
Qed.

Lemma ends_tell (e : effect) : ends_in (well_formed final) (tell e).
Proof. apply ends_policy. intros w. do 2 eexists. split; reflexivity. Qed.

Lemma ends_console (l : level) (msg : string) : ends_in (well_formed final) (console l msg).
Proof. apply ends_tell. Qed.

Lemma ends_emit (event : string) (arg : value) : ends_in (well_formed final) (emit event arg).
Proof.
  apply ends_policy. intros w. do 2 eexists. split; [apply Channel.run_emit|reflexivity].
Qed.

Lemma ends_on (event : string) (cb : listener) : ends_in (well_formed final) (on event cb).
Proof. apply ends_policy. intros w. do 2 eexists. split; reflexivity. Qed.

Lemma ends_off (event : string) (cb : listener) : ends_in (well_formed final) (off event cb).
Proof.
  apply ends_policy. intros w. unfold off, modify. cbn [run_sync].
  do 2 eexists. split; [reflexivity|]. destruct (listeners w !! event); reflexivity.
Qed.

Lemma ends_sendMessage (message : value) : ends_in (well_formed final) (sendMessage message).
Proof.
  apply ends_policy. intros w. unfold sendMessage, get. cbn [bind run_sync].
  destruct (ws_is_open w); [destruct (ws w)|]; do 2 eexists; split; reflexivity.
Qed.

Lemma ends_onmessage (data : parsed) : ends_in (well_formed final) (onmessage data).
Proof.
  apply ends_policy. intros w.
  destruct (Channel.onmessage_trace data w) as (tr & H).
  specialize (H (effects w)). rewrite Channel.set_effects_same in H.
  do 2 eexists. split; [exact H|reflexivity].
Qed.

Lemma ends_new_WebSocket (wsUrl : string) : ends_in (well_formed final) (new_WebSocket wsUrl).
Proof. apply ends_policy. intros w. do 2 eexists. split; reflexivity. Qed.

Lemma ends_setupEventHandlers : ends_in (well_formed final) setupEventHandlers.
Proof.
  apply ends_policy. intros w. unfold setupEventHandlers, get. cbn [bind run_sync].
  destruct (ws w) as [sid|]; [destruct (sockets w !! sid)|];
    do 2 eexists; split; reflexivity.
Qed.

(** *** Timers *)

Lemma In_filter (P : timer -> Prop) `{forall t, Decision (P t)} (l : list timer) (t : timer) :
  In t (filter P l) <-> P t /\ In t l.
Proof. rewrite <- !list_elem_of_In. apply list_elem_of_filter. Qed.

Lemma NoDup_ids_filter (P : timer -> Prop) `{forall t, Decision (P t)} (l : list timer) :
  NoDup (map tm_id l) -> NoDup (map tm_id (filter P l)).
Proof.
  induction l as [|x l IH]; [auto|].
  cbn [map]. rewrite NoDup_cons. intros [Hx Hl].
  rewrite filter_cons. destruct (decide (P x)); [|auto].
  cbn [map]. rewrite NoDup_cons. split; [|auto].
  intros Hin. apply Hx. apply list_elem_of_In in Hin. apply list_elem_of_In.
  apply in_map_iff in Hin. destruct Hin as (t & Ht & Hin).
  apply in_map_iff. exists t. split; [exact Ht|]. apply In_filter in Hin. tauto.
Qed.

Lemma same_id_same_timer (l : list timer) (a b : timer) :
  NoDup (map tm_id l) -> In a l -> In b l -> tm_id a = tm_id b -> a = b.
Proof.
  induction l as [|x l IH]; [intros _ []|].
  cbn [map]. rewrite NoDup_cons. intros [Hx Hl] [<- | Ha] [<- | Hb] Hid; auto.
  - exfalso. apply Hx. apply list_elem_of_In, in_map_iff. exists b. auto.
  - exfalso. apply Hx. apply list_elem_of_In, in_map_iff. exists a. auto.
Qed.

(** Scheduling a timer that is not the heartbeat. *)
Lemma well_formed_schedule (rep : bool) (cb : callback) (delay : Z) (w : world) :
  cb <> HeartbeatTimer ->
  well_formed final w ->
  well_formed final
    (set_timers (timers w ++ [mkTimer (next_timer w) rep delay cb]) (S (next_timer w)) w).
Proof.
  intros Hcb (Ha & Hm & Hi & Hlt & Hnd & Hhb & Hreg & Hfin).
  unfold well_formed. cbn [reconnectAttempts maxReconnectAttempts reconnectInterval
    timers next_timer heartbeatInterval shouldReconnect set_timers].
  repeat split; try tauto.
  - intros t Ht. apply in_app_or in Ht. destruct Ht as [Ht | [<- | []]].
    + specialize (Hlt t Ht). lia.
    + cbn. lia.
  - rewrite map_app. apply NoDup_app. split; [exact Hnd|]. split.
    + intros id Hid Hk. apply list_elem_of_In in Hk. cbn in Hk.
      destruct Hk as [<- | []].
      apply list_elem_of_In, in_map_iff in Hid. destruct Hid as (t & Ht & Hin).
      specialize (Hlt t Hin). lia.
    + cbn. apply NoDup_singleton.
  - apply in_app_or in H. destruct H as [Ht | [<- | []]].
    + apply (Hhb t Ht H0).
    + unfold is_heartbeat in H0. cbn in H0. destruct cb; congruence.
  - apply in_app_or in H. destruct H as [Ht | [<- | []]].
    + apply (Hhb t Ht H0).
    + unfold is_heartbeat in H0. cbn in H0. destruct cb; congruence.
  - apply in_app_or in H. destruct H as [Ht | [<- | []]].
    + apply (Hhb t Ht H0).
    + unfold is_heartbeat in H0. cbn in H0. destruct cb; congruence.
  - intros id Hid. destruct (Hreg id Hid) as (t & Ht & Htid & Hthb).
    exists t. split; [apply in_or_app; auto|]. auto.
Qed.

Lemma ends_schedule (rep : bool) (cb : callback) (delay : Z) :
  cb <> HeartbeatTimer -> ends_in (well_formed final) (schedule rep cb delay).
Proof.
  intros Hcb. apply ends_in_sync. intros w Hw. do 2 eexists. split; [reflexivity|].
  apply well_formed_schedule; assumption.
Qed.

Lemma run_stopHeartbeat (w : world) :
  run_sync stopHeartbeat w = (heartbeat_stopped w, Finished (Ok tt)).
Proof.
  unfold stopHeartbeat, heartbeat_stopped, get. cbn [bind run_sync].
  destruct (heartbeatInterval w); reflexivity.
Qed.

Lemma well_formed_stopped (w : world) :
  well_formed final w ->
  well_formed final (heartbeat_stopped w) /\
  heartbeatInterval (heartbeat_stopped w) = None /\
  heartbeat_timers (heartbeat_stopped w) = [].
Proof.
  intros Hw. pose proof Hw as (Ha & Hm & Hi & Hlt & Hnd & Hhb & Hreg & Hfin).
  assert (Hnone : forall w', well_formed final w' -> heartbeatInterval w' = None ->
                             heartbeat_timers w' = []).
  { intros w' (_ & _ & _ & _ & _ & Hhb' & _) Hn. unfold heartbeat_timers.
    destruct (List.filter is_heartbeat (timers w')) as [|t l] eqn:E; [reflexivity|].
    assert (Hin : In t (List.filter is_heartbeat (timers w'))) by (rewrite E; left; auto).
    apply filter_In in Hin. destruct Hin as [Hin Hb].
    destruct (Hhb' t Hin Hb) as [Hsome _]. congruence. }
  unfold heartbeat_stopped. destruct (heartbeatInterval w) as [id|] eqn:Hid.
  - assert (Hwf : well_formed final
        (set_heartbeatInterval None
           (set_timers (filter (fun t => tm_id t ≠ id) (timers w)) (next_timer w) w))).
    { unfold well_formed. cbn [reconnectAttempts maxReconnectAttempts reconnectInterval
        timers next_timer heartbeatInterval shouldReconnect set_timers
        set_heartbeatInterval].
      split; [exact Ha|]. split; [exact Hm|]. split; [exact Hi|]. split; [|split; [|split; [|split]]].
      - intros t Ht. apply In_filter in Ht. apply Hlt. tauto.
      - apply NoDup_ids_filter, Hnd.
      - intros t Ht Hb. apply In_filter in Ht. destruct Ht as [Hne Ht].
        destruct (Hhb t Ht Hb) as [Hsome _]. congruence.
      - discriminate.
      - exact Hfin. }
    split; [exact Hwf|]. split; [reflexivity|]. apply Hnone; [exact Hwf|reflexivity].
  - split; [exact Hw|]. split; [exact Hid|]. apply Hnone; assumption.
Qed.

Lemma ends_stopHeartbeat : ends_in (well_formed final) stopHeartbeat.
Proof.
  apply ends_in_sync. intros w Hw. do 2 eexists. split; [apply run_stopHeartbeat|].
  apply well_formed_stopped, Hw.
Qed.

Lemma run_startHeartbeat (w : world) :
  run_sync startHeartbeat w = (heartbeat_started w, Finished (Ok tt)).
Proof.
  unfold startHeartbeat. rewrite run_sync_bind, run_stopHeartbeat. reflexivity.
Qed.

Lemma well_formed_started (w : world) :
  well_formed final w -> well_formed final (heartbeat_started w).
Proof.
  intros Hw. destruct (well_formed_stopped w Hw) as (Hw1 & Hnone & Hno).
  unfold heartbeat_started. set (w1 := heartbeat_stopped w) in *.
  destruct Hw1 as (Ha & Hm & Hi & Hlt & Hnd & Hhb & Hreg & Hfin).
  assert (Hold : forall t, In t (timers w1) -> is_heartbeat t = false).
  { intros t Ht. destruct (is_heartbeat t) eqn:Hb; [|reflexivity].
    destruct (Hhb t Ht Hb) as [Hsome _]. congruence. }
  unfold well_formed. cbn [reconnectAttempts maxReconnectAttempts reconnectInterval
    timers next_timer heartbeatInterval shouldReconnect set_timers set_heartbeatInterval].
  split; [exact Ha|]. split; [exact Hm|]. split; [exact Hi|].
  split; [|split; [|split; [|split]]].
  - intros t Ht. apply in_app_or in Ht. destruct Ht as [Ht | [<- | []]].
    + specialize (Hlt t Ht). lia.
    + cbn. lia.
  - rewrite map_app. apply NoDup_app. split; [exact Hnd|]. split.
    + intros id Hid Hk. apply list_elem_of_In in Hk. cbn in Hk.
      destruct Hk as [<- | []].
      apply list_elem_of_In, in_map_iff in Hid. destruct Hid as (t & Ht & Hin).
      specialize (Hlt t Hin). lia.
    + cbn. apply NoDup_singleton.
  - intros t Ht Hb. apply in_app_or in Ht. destruct Ht as [Ht | [<- | []]].
    + rewrite (Hold t Ht) in Hb. discriminate.
    + cbn. auto.
  - intros id [= <-]. eexists. split; [apply in_or_app; right; left; reflexivity|].
    split; reflexivity.
  - exact Hfin.
Qed.

Lemma ends_startHeartbeat : ends_in (well_formed final) startHeartbeat.
Proof.
  apply ends_in_sync. intros w Hw. do 2 eexists. split; [apply run_startHeartbeat|].
  apply well_formed_started, Hw.
Qed.

(** *** The methods and the handlers *)

Lemma ends_handleReconnect : ends_in (well_formed final) handleReconnect.
Proof.
  unfold handleReconnect, get. apply ends_in_Get. intros w Hw. cbn [bind].
  destruct (Z.geb_spec (reconnectAttempts w) (maxReconnectAttempts w)) as [Hge|Hlt].
  - apply ends_in_bind; [apply ends_console|]. intros _.
    apply ends_in_bind; [apply ends_emit|]. intros _. apply ends_in_Pure.
  - apply ends_in_bind.
    { apply ends_in_modify. intros s (Ha & Hm & Hi & Hrest).
      destruct Hw as (Ha' & Hm' & _).
      unfold well_formed. cbn [reconnectAttempts maxReconnectAttempts reconnectInterval
        timers next_timer heartbeatInterval shouldReconnect set_reconnectAttempts].
      split; [lia|]. split; [exact Hm|]. split; [exact Hi|]. exact Hrest. }
    intros _. apply ends_in_Get. intros w' Hw'. cbn [bind].
    apply ends_in_bind; [apply ends_console|]. intros _.
    apply ends_in_bind; [apply ends_schedule; discriminate|]. intros _. apply ends_in_Pure.
Qed.

Lemma keeps_connect : keeps (well_formed final) connect.
Proof.
  unfold connect, get. apply keeps_Get. intros w Hw. cbn [bind].
  destruct (isConnecting w || ws_is_open w); [apply keeps_Pure|].
  apply keeps_bind.
  { apply keeps_modify. intros s. apply well_formed_policy. reflexivity. }
  intros _. apply keeps_try_catch.
  - apply keeps_Await. intros [| token | resp | e].
    + apply keeps_Raise.
    + destruct (negb (truthy token)).
      * apply keeps_bind; [apply ends_in_keeps, ends_console|]. intros _.
        apply keeps_modify. intros s. apply well_formed_policy. reflexivity.
      * apply keeps_Get. intros w' Hw'. cbn [bind].
        apply keeps_bind; [apply ends_in_keeps, ends_console|]. intros _.
        apply keeps_bind; [apply ends_in_keeps, ends_new_WebSocket|]. intros _.
        apply ends_in_keeps, ends_setupEventHandlers.
    + apply keeps_Raise.
    + apply keeps_Raise.
  - intros e. apply keeps_bind; [apply ends_in_keeps, ends_console|]. intros _.
    apply keeps_bind.
    { apply keeps_modify. intros s. apply well_formed_policy. reflexivity. }
    intros _. apply ends_in_keeps, ends_handleReconnect.
Qed.

Lemma ends_onopen : ends_in (well_formed final) onopen.
Proof.
  unfold onopen. apply ends_in_bind; [apply ends_console|]. intros _.
  apply ends_in_bind.
  { apply ends_in_modify. intros s. apply well_formed_policy. reflexivity. }
  intros _. apply ends_in_bind.
  { apply ends_in_modify. intros s (Ha & Hm & Hi & Hrest).
    unfold well_formed. cbn [reconnectAttempts maxReconnectAttempts reconnectInterval
      timers next_timer heartbeatInterval shouldReconnect set_reconnectAttempts].
    split; [lia|]. split; [exact Hm|]. split; [exact Hi|]. exact Hrest. }
  intros _. apply ends_in_bind; [apply ends_startHeartbeat|]. intros _.
  apply ends_in_bind; [apply ends_emit|]. intros _. apply ends_in_Pure.
Qed.

Lemma ends_onclose (code : Z) (reason : string) :
  ends_in (well_formed final) (onclose code reason).
Proof.
  unfold onclose. apply ends_in_bind; [apply ends_console|]. intros _.
  apply ends_in_bind.
  { apply ends_in_modify. intros s. apply well_formed_policy. reflexivity. }
  intros _. apply ends_in_bind; [apply ends_stopHeartbeat|]. intros _.
  apply ends_in_bind; [apply ends_emit|]. intros _.
  unfold get. apply ends_in_Get. intros w Hw. cbn [bind].
  destruct (shouldReconnect w); [apply ends_handleReconnect | apply ends_in_Pure].
Qed.

Lemma ends_onerror (error : value) : ends_in (well_formed final) (onerror error).
Proof.
  unfold onerror. apply ends_in_bind; [apply ends_console|]. intros _.
  apply ends_in_bind.
  { apply ends_in_modify. intros s. apply well_formed_policy. reflexivity. }
  intros _. apply ends_in_bind; [apply ends_emit|]. intros _. apply ends_in_Pure.
Qed.

Lemma ends_disconnect : ends_in (well_formed final) disconnect.
Proof.
  unfold disconnect. apply ends_in_bind.
  { apply ends_in_modify. intros s (Ha & Hm & Hi & Hlt & Hnd & Hhb & Hreg & Hfin).
    unfold well_formed. cbn [reconnectAttempts maxReconnectAttempts reconnectInterval
      timers next_timer heartbeatInterval shouldReconnect set_shouldReconnect].
    tauto. }
  intros _. apply ends_in_bind; [apply ends_stopHeartbeat|]. intros _.
  apply ends_policy. intros w. unfold get. cbn [bind run_sync].
  destruct (ws w); do 2 eexists; split; reflexivity.
Qed.

Lemma ends_updateServerUrl (newUrl : string) :
  ends_in (well_formed final) (updateServerUrl newUrl).
Proof.
  unfold updateServerUrl. apply ends_in_bind.
  { apply ends_in_modify. intros s. apply well_formed_policy. reflexivity. }
  intros _. unfold get. apply ends_in_Get. intros w Hw. cbn [bind].
  destruct (isConnected w); [|apply ends_in_Pure].
  apply ends_in_bind; [apply ends_disconnect|]. intros _.
  apply ends_in_bind; [apply ends_schedule; discriminate|]. intros _. apply ends_in_Pure.
Qed.

Lemma keeps_fire (cb : callback) : keeps (well_formed final) (fire cb).
Proof.
  destruct cb; unfold fire, get.
  - apply keeps_Get. intros w Hw. cbn [bind].
    destruct (shouldReconnect w); [apply keeps_connect | apply keeps_Pure].
  - apply keeps_Get. intros w Hw. cbn [bind].
    destruct (ws_is_open w); [apply ends_in_keeps, ends_sendMessage | apply keeps_Pure].
  - apply keeps_connect.
Qed.

(** *** The event loop *)

Lemma run_connect (w : world) :
  run_sync connect w =
  if isConnecting w || ws_is_open w then (w, Finished (Ok tt))
  else (set_isConnecting true w, Blocked (GetItem "auth_token") connect_resumption).
Proof.
  unfold connect, get. cbn [bind run_sync].
  destruct (isConnecting w || ws_is_open w); reflexivity.
Qed.

Lemma ends_connect_resumption (r : reply) :
  ends_in (well_formed final) (connect_resumption r).
Proof.
  change (connect_resumption r) with
    (try_catch
       (match r with
        | RItem token =>
            if negb (truthy token) then
              console WARN "No auth token found, cannot connect to WebSocket" ;;;
              modify (set_isConnecting false)
            else
              w <- get ;;
              let wsUrl :=
                (baseUrl w ++ "/ws/notifications/?token=" ++ default "" token)%string in
              console LOG "Connecting to WebSocket:" ;;;
              new_WebSocket wsUrl ;;;
              setupEventHandlers
        | RReject e => Raise e
        | _ => Raise (Thrown "AsyncStorage.getItem: unexpected result")
        end)
       (fun error =>
          console ERROR "WebSocket connection error:" ;;;
          modify (set_isConnecting false) ;;;
          handleReconnect)).
  apply ends_in_try_catch.
  - destruct r as [| token | resp | e]; try (intros s Hs; exact Hs).
    destruct (negb (truthy token)).
    + apply ends_in_bind; [apply ends_console|]. intros _.
      apply ends_in_modify. intros s. apply well_formed_policy. reflexivity.
    + unfold get. apply ends_in_Get. intros w' Hw'. cbn [bind].
      apply ends_in_bind; [apply ends_console|]. intros _.
      apply ends_in_bind; [apply ends_new_WebSocket|]. intros _.
      apply ends_setupEventHandlers.
  - intros e. apply ends_in_bind; [apply ends_console|]. intros _.
    apply ends_in_bind.
    { apply ends_in_modify. intros s. apply well_formed_policy. reflexivity. }
    intros _. apply ends_handleReconnect.
Qed.

Lemma tame_ends_in (m : async world unit) : ends_in (well_formed final) m -> tame final m.
Proof.
  intros H w Hw. destruct (ends_in_run _ m w H Hw) as (w' & r & -> & Hw'). exact Hw'.
Qed.

Lemma tame_connect : tame final connect.
Proof.
  intros w Hw. rewrite run_connect.
  destruct (isConnecting w || ws_is_open w); [exact Hw|].
  split; [|reflexivity]. eapply well_formed_policy; [|exact Hw]. reflexivity.
Qed.

Lemma tame_fire (cb : callback) : tame final (fire cb).
Proof.
  destruct cb.
  - intros w Hw. unfold fire, get. cbn [bind run_sync].
    destruct (shouldReconnect w); [apply tame_connect, Hw | exact Hw].
  - apply tame_ends_in. unfold fire, get. apply ends_in_Get. intros w Hw. cbn [bind].
    destruct (ws_is_open w); [apply ends_sendMessage | apply ends_in_Pure].
  - apply tame_connect.
Qed.

Lemma settle_sound (m : async world unit) (sy : system) :
  sound_system final sy -> tame final m -> sound_system final (settle m sy).
Proof.
  intros [Hw Hk] Hm. unfold settle. specialize (Hm _ Hw).
  destruct (run_sync m (sys_world sy)) as [w' [[[]|e]|o k]].
  - split; [exact Hm | exact Hk].
  - split; [|exact Hk]. cbn [sys_world].
    eapply well_formed_policy; [|exact Hm]. reflexivity.
  - destruct Hm as [Hw' ->]. split; [exact Hw'|]. cbn [suspended].
    apply Forall_app. split; [exact Hk|]. repeat constructor.
Qed.

Lemma on_world_sound (f : world -> world) (sy : system) :
  (forall w, policy (f w) = policy w) ->
  sound_system final sy -> sound_system final (on_world f sy).
Proof.
  intros Hf [Hw Hk]. split; [|exact Hk]. cbn [sys_world on_world].
  eapply well_formed_policy; [apply Hf | exact Hw].
Qed.

(** A timeout that has fired is taken off the list. *)
Lemma well_formed_fired (w : world) (t : timer) :
  In t (timers w) -> tm_repeat t = false ->
  well_formed final w ->
  well_formed final
    (set_timers (filter (fun t' => tm_id t' ≠ tm_id t) (timers w)) (next_timer w) w).
Proof.
  intros Ht Hrep (Ha & Hm & Hi & Hlt & Hnd & Hhb & Hreg & Hfin).
  unfold well_formed. cbn [reconnectAttempts maxReconnectAttempts reconnectInterval
    timers next_timer heartbeatInterval shouldReconnect set_timers].
  split; [exact Ha|]. split; [exact Hm|]. split; [exact Hi|].
  split; [|split; [|split; [|split]]].
  - intros t' Ht'. apply In_filter in Ht'. apply Hlt. tauto.
  - apply NoDup_ids_filter, Hnd.
  - intros t' Ht' Hb. apply In_filter in Ht'. apply Hhb; tauto.
  - intros id Hid. destruct (Hreg id Hid) as (t' & Ht' & Htid & Hb).
    exists t'. split; [|auto]. apply In_filter. split; [|exact Ht'].
    intros Heq. assert (t' = t) by (eapply same_id_same_timer; eauto). subst t'.
    destruct (Hhb t Ht Hb) as (_ & Hr & _). congruence.
  - exact Hfin.
Qed.

Lemma deliver_sound (x : stimulus) (sy : system) :
  sound_system final sy -> sound_system final (deliver (event_of x) sy).
Proof.
  intros Hsy. destruct x; cbn [event_of deliver].
  - assert (H1 : sound_system final (on_world (set_state sid OPEN) sy))
      by (apply on_world_sound; [reflexivity | exact Hsy]).
    destruct (wired _ _); [|exact H1].
    apply settle_sound; [exact H1 | apply tame_ends_in, ends_onopen].
  - destruct (wired _ _); [|exact Hsy].
    apply settle_sound; [exact Hsy | apply tame_ends_in, ends_onmessage].
  - assert (H1 : sound_system final (on_world (set_state sid CLOSED) sy))
      by (apply on_world_sound; [reflexivity | exact Hsy]).
    destruct (wired _ _); [|exact H1].
    apply settle_sound; [exact H1 | apply tame_ends_in, ends_onclose].
  - destruct (wired _ _); [|exact Hsy].
    apply settle_sound; [exact Hsy | apply tame_ends_in, ends_onerror].
  - destruct (filter (fun t => tm_id t = id) (timers (sys_world sy))) as [|t l] eqn:E;
      [exact Hsy|].
    assert (Hin : In t (filter (fun t => tm_id t = id) (timers (sys_world sy))))
      by (rewrite E; left; reflexivity).
    apply In_filter in Hin. destruct Hin as [Hid Hin].
    apply settle_sound; [|apply tame_fire].
    destruct (tm_repeat t) eqn:Hrep; [exact Hsy|].
    destruct Hsy as [Hw Hk]. split; [|exact Hk]. cbn [sys_world on_world].
    rewrite <- Hid. apply well_formed_fired; assumption.
  - destruct Hsy as [Hw Hk]. destruct (suspended sy) as [|[o k] rest] eqn:E;
      [split; [exact Hw | rewrite E; exact Hk]|].
    apply Forall_cons in Hk. destruct Hk as [Hk Hrest]. cbn [snd] in Hk. subst k.
    apply settle_sound; [split; [exact Hw | exact Hrest]|].
    apply tame_ends_in, ends_connect_resumption.
  - apply settle_sound; [exact Hsy | apply tame_connect].
  - apply settle_sound; [exact Hsy | apply tame_ends_in, ends_disconnect].
  - apply settle_sound; [exact Hsy | apply tame_ends_in, ends_sendMessage].
  - apply settle_sound; [exact Hsy | apply tame_ends_in, ends_updateServerUrl].
  - apply settle_sound; [exact Hsy | apply tame_ends_in, ends_on].
  - apply settle_sound; [exact Hsy | apply tame_ends_in, ends_off].
Qed.

Lemma drive_sound (xs : list stimulus) (sy : system) :
  sound_system final sy -> sound_system final (drive xs sy).
Proof.
  revert sy. unfold drive, deliver_all.
  induction xs as [|x xs IH]; intros sy Hsy; [exact Hsy|].
  cbn [map fold_left]. apply IH, deliver_sound, Hsy.
Qed.
End Preservation.

Lemma boot_sound : sound_system false boot.
Proof.
  split; [|constructor].
  unfold well_formed. cbn.
  split; [lia|]. split; [reflexivity|]. split; [reflexivity|].
  split; [intros t []|]. split; [constructor|]. split; [intros t []|].
  split; discriminate.
Qed.

(** The reconnect counter never leaves its range.  Whatever the host
    reports and whatever public methods the application calls, in whatever
    order, [reconnectAttempts] stays between 0 and [maxReconnectAttempts],
    and the policy constants keep their values, 5 attempts and 1000 ms. *)
Theorem reconnect_counter_stays_in_range (xs : list stimulus) :
  let w := sys_world (drive xs boot) in
  0 <= reconnectAttempts w <= maxReconnectAttempts w /\
  maxReconnectAttempts w = 5 /\
  reconnectInterval w = 1000.
Proof.
  destruct (drive_sound false xs boot boot_sound) as [(Ha & Hm & Hi & _) _].
  cbn zeta. auto.
Qed.

Lemma heartbeat_timers_shape (final : bool) (w : world) :
  well_formed final w ->
  heartbeat_timers w =
  match heartbeatInterval w with
  | Some id => [mkTimer id true 30000 HeartbeatTimer]
  | None => []
  end.
Proof.
  intros (_ & _ & _ & _ & Hnd & Hhb & Hreg & _). unfold heartbeat_timers.
  assert (Hall : forall t, In t (List.filter is_heartbeat (timers w)) ->
            exists id, heartbeatInterval w = Some id /\
                       t = mkTimer id true 30000 HeartbeatTimer).
  { intros t Ht. apply filter_In in Ht. destruct Ht as [Ht Hb].
    destruct (Hhb t Ht Hb) as (Hsome & Hrep & Hdelay).
    exists (tm_id t). split; [exact Hsome|].
    destruct t as [id rep delay cb]. cbn in *. subst rep delay.
    unfold is_heartbeat in Hb. cbn in Hb. destruct cb; try discriminate. reflexivity. }
  assert (Hnd' : NoDup (map tm_id (List.filter is_heartbeat (timers w)))).
  { clear Hall Hhb Hreg. induction (timers w) as [|x l IH]; [constructor|].
    cbn [map] in Hnd. apply NoDup_cons in Hnd. destruct Hnd as [Hx Hl].
    cbn [List.filter]. destruct (is_heartbeat x); [|auto].
    cbn [map]. apply NoDup_cons. split; [|auto].
    intros Hin. apply Hx. apply list_elem_of_In in Hin. apply list_elem_of_In.
    apply in_map_iff in Hin. destruct Hin as (t & Ht & Hin).
    apply in_map_iff. exists t. split; [exact Ht|]. apply filter_In in Hin. tauto. }
  destruct (heartbeatInterval w) as [id|] eqn:Hid.
  - destruct (Hreg id eq_refl) as (t & Ht & Htid & Hb).
    assert (Hin : In t (List.filter is_heartbeat (timers w)))
      by (apply filter_In; auto).
    destruct (List.filter is_heartbeat (timers w)) as [|a [|b l]]; [destruct Hin| |].
    + destruct (Hall a (or_introl eq_refl)) as (id' & [= <-] & ->). reflexivity.
    + exfalso.
      destruct (Hall a (or_introl eq_refl)) as (ia & [= <-] & ->).
      destruct (Hall b (or_intror (or_introl eq_refl))) as (ib & [= <-] & ->).
      cbn [map tm_id] in Hnd'. apply NoDup_cons in Hnd'. destruct Hnd' as [Hx _].
      apply Hx. left.
  - destruct (List.filter is_heartbeat (timers w)) as [|a l]; [reflexivity|].
    destruct (Hall a (or_introl eq_refl)) as (id' & Hsome & _). discriminate.
Qed.

(** There is never more than one heartbeat.  In every reachable state the
    heartbeat intervals that are running are exactly the one recorded in
    [heartbeatInterval], a repeating 30000 ms timer, or none when that field
    is null: reopening, closing and disconnecting never leak an interval. *)
Theorem one_heartbeat_at_most (xs : list stimulus) :
  let w := sys_world (drive xs boot) in
  heartbeat_timers w =
  match heartbeatInterval w with
  | Some id => [mkTimer id true 30000 HeartbeatTimer]
  | None => []
  end.
Proof.
  destruct (drive_sound false xs boot boot_sound) as [Hw _].
  cbn zeta. eapply heartbeat_timers_shape, Hw.
Qed.

Lemma disconnect_sound (sy : system) :
  sound_system false sy -> sound_system true (deliver (Called_by_app disconnect) sy).
Proof.
  intros [Hw Hk]. cbn [deliver]. unfold settle.
  assert (Hoff : well_formed true (set_shouldReconnect false (sys_world sy))).
  { destruct Hw as (Ha & Hm & Hi & Hlt & Hnd & Hhb & Hreg & _).
    unfold well_formed. cbn [reconnectAttempts maxReconnectAttempts reconnectInterval
      timers next_timer heartbeatInterval shouldReconnect set_shouldReconnect].
    tauto. }
  change (run_sync disconnect (sys_world sy))
    with (run_sync disconnect (set_shouldReconnect false (sys_world sy))).
  destruct (ends_in_run _ disconnect _ (ends_disconnect true) Hoff) as (w' & r & -> & Hw').
  destruct r as [[]|e].
  - split; [exact Hw' | exact Hk].
  - split; [|exact Hk]. cbn [sys_world].
    eapply well_formed_policy; [|exact Hw']. reflexivity.
Qed.

Lemma stopping_keeps_reconnect_timers (final : bool) (w : world) :
  well_formed final w ->
  reconnect_delays (heartbeat_stopped w) = reconnect_delays w.
Proof.
  intros (_ & _ & _ & _ & Hnd & Hhb & Hreg & _).
  unfold heartbeat_stopped, reconnect_delays.
  destruct (heartbeatInterval w) as [id|] eqn:Hid; [|reflexivity].
  cbn [timers set_heartbeatInterval set_timers]. f_equal.
  destruct (Hreg id eq_refl) as (hb & Hin & Hhbid & Hb).
  assert (Hsafe : forall t, In t (timers w) -> tm_id t = id ->
            match tm_callback t with ReconnectTimer => true | _ => false end = false).
  { intros t Ht Htid.
    assert (t = hb) by (eapply same_id_same_timer; eauto; congruence). subst t.
    unfold is_heartbeat in Hb. destruct (tm_callback hb); try discriminate. reflexivity. }
  clear Hnd Hhb Hreg Hin. induction (timers w) as [|t l IH]; [reflexivity|].
  rewrite filter_cons. cbn [List.filter].
  assert (IH' : List.filter
                  (fun t => match tm_callback t with ReconnectTimer => true | _ => false end)
                  (filter (fun t => tm_id t ≠ id) l) =
                List.filter
                  (fun t => match tm_callback t with ReconnectTimer => true | _ => false end)
                  l)
    by (apply IH; intros t' Ht'; apply Hsafe; right; exact Ht').
  destruct (decide (tm_id t ≠ id)) as [Hne|Heq].
  - cbn [List.filter]. rewrite IH'. reflexivity.
  - assert (Htid : tm_id t = id) by (destruct (decide (tm_id t = id)); [auto|tauto]).
    rewrite (Hsafe t (or_introl eq_refl) Htid). exact IH'.
Qed.

(** What [onclose] does, step by step: the log line, [isConnecting]
    cleared, the heartbeat stopped, ['disconnected'] emitted and, unless a
    listener threw or reconnection is off, [handleReconnect]. *)
Lemma run_onclose (code : Z) (reason : string) (w : world) :
  let payload := VObj [("code", VNum code); ("reason", VStr reason)] in
  let ls := subscribers "disconnected" w in
  let w1 :=
    heartbeat_stopped
      (set_isConnecting false
         (set_effects (effects w ++ [Console LOG "WebSocket disconnected:"]) w)) in
  let w2 := set_effects (effects w1 ++ delivered "disconnected" payload ls) w1 in
  run_sync (onclose code reason) w =
  match first_throw payload ls with
  | Some e => (w2, Finished (Err e))
  | None =>
      if shouldReconnect w then run_sync handleReconnect w2
      else (w2, Finished (Ok tt))
  end.
Proof.
  cbn zeta. unfold onclose.
  rewrite run_sync_bind. unfold console at 1, tell, modify at 1. cbn [run_sync].
  rewrite run_sync_bind. unfold modify at 1. cbn [run_sync].
  rewrite run_sync_bind, run_stopHeartbeat, run_sync_bind, Channel.run_emit.
  set (w0 := set_isConnecting false
               (set_effects (effects w ++ [Console LOG "WebSocket disconnected:"]) w)).
  assert (Hsubs : subscribers "disconnected" (heartbeat_stopped w0) =
                  subscribers "disconnected" w).
  { unfold heartbeat_stopped. destruct (heartbeatInterval w0); reflexivity. }
  assert (Hsr : shouldReconnect (heartbeat_stopped w0) = shouldReconnect w).
  { unfold heartbeat_stopped. destruct (heartbeatInterval w0); reflexivity. }
  rewrite Hsubs. unfold emit_result.
  destruct (subscribers "disconnected" w) as [|cb rest] eqn:E.
  - Channel.decide_strings. cbn [first_throw delivered]. unfold get. cbn [bind run_sync].
    cbn [shouldReconnect set_effects]. rewrite Hsr.
    destruct (shouldReconnect w); reflexivity.
  - destruct (first_throw _ (cb :: rest)) as [e|]; [reflexivity|].
    unfold get. cbn [bind run_sync]. cbn [shouldReconnect set_effects].
    rewrite Hsr. destruct (shouldReconnect w); reflexivity.
Qed.

(** What [handleReconnect] does to the policy and the timers, whether or
    not a listener of the terminal event throws. *)
Lemma handleReconnect_step (w : world) :
  let w' := fst (run_sync handleReconnect w) in
  maxReconnectAttempts w' = maxReconnectAttempts w /\
  reconnectInterval w' = reconnectInterval w /\
  shouldReconnect w' = shouldReconnect w /\
  heartbeatInterval w' = heartbeatInterval w /\
  if reconnectAttempts w >=? maxReconnectAttempts w then
    reconnectAttempts w' = reconnectAttempts w /\ timers w' = timers w
  else
    reconnectAttempts w' = reconnectAttempts w + 1 /\
    timers w' =
      timers w ++
      [mkTimer (next_timer w) false
               (reconnectInterval w * 2 ^ reconnectAttempts w) ReconnectTimer].
Proof.
  cbn zeta. destruct (run_sync handleReconnect w) as [w' r] eqn:Hrun. cbn [fst].
  unfold handleReconnect, get in Hrun. cbn [bind run_sync] in Hrun.
  destruct (reconnectAttempts w >=? maxReconnectAttempts w).
  - rewrite run_sync_bind in Hrun. unfold console at 1, tell, modify at 1 in Hrun.
    cbn [run_sync] in Hrun. rewrite run_sync_bind, Channel.run_emit in Hrun.
    destruct (emit_result _ _ _); injection Hrun as <- <-; cbn; repeat split.
  - cbn in Hrun. injection Hrun as <- <-. cbn.
    replace (reconnectAttempts w + 1 - 1) with (reconnectAttempts w) by lia.
    repeat split.
Qed.

(** [disconnect()] switches reconnection off for good.  No method sets
    [shouldReconnect] back: after a [disconnect()], whatever happens next,
    a later [connect()] included, the flag is false, so a close schedules
    no reconnect and a reconnect timer that fires does nothing. *)
Theorem disconnect_is_for_good (xs ys : list stimulus) (code : Z) (reason : string) :
  let w := sys_world (drive (xs ++ App_disconnect :: ys) boot) in
  shouldReconnect w = false /\
  run_sync (fire ReconnectTimer) w = (w, Finished (Ok tt)) /\
  reconnect_delays (fst (run_sync (onclose code reason) w)) = reconnect_delays w.
Proof.
  assert (Hs : sound_system true (drive (xs ++ App_disconnect :: ys) boot)).
  { unfold drive, deliver_all. rewrite map_app, fold_left_app. cbn [map fold_left].
    apply (drive_sound true ys), disconnect_sound, (drive_sound false xs), boot_sound. }
  destruct Hs as [Hw _]. cbn zeta.
  set (w := sys_world (drive (xs ++ App_disconnect :: ys) boot)) in *.
  pose proof Hw as (_ & _ & _ & _ & _ & _ & _ & Hfin).
  specialize (Hfin eq_refl).
  split; [exact Hfin|]. split.
  - unfold fire, get. cbn [bind run_sync]. rewrite Hfin. reflexivity.
  - pose proof (run_onclose code reason w) as Hrun. cbn zeta in Hrun.
    rewrite Hrun, Hfin.
    assert (Hd : forall x w0, reconnect_delays (set_effects x w0) = reconnect_delays w0)
      by reflexivity.
    destruct (first_throw _ _); cbn [fst]; rewrite Hd;
      rewrite (stopping_keeps_reconnect_timers true);
      try reflexivity;
      (eapply well_formed_policy; [|exact Hw]); reflexivity.
Qed.

(** *** Backoff *)




(** A listener of ['disconnected'] that throws stops the reconnection.  The
    exception leaves [onclose] before [handleReconnect] is reached: the
    counter is untouched and no timer is added, although reconnection is
    switched on. *)
Theorem throwing_disconnected_listener_prevents_reconnect
    (code : Z) (reason : string) (w : world) (e : exn) :
  first_throw (VObj [("code", VNum code); ("reason", VStr reason)])
              (subscribers "disconnected" w) = Some e ->
  let w' := fst (run_sync (onclose code reason) w) in
  snd (run_sync (onclose code reason) w) = Finished (Err e) /\
  reconnectAttempts w' = reconnectAttempts w /\
  (forall t, In t (timers w') -> In t (timers w)).
Proof.
  intros Hthrow. cbn zeta.
  pose proof (run_onclose code reason w) as Hrun. cbn zeta in Hrun.
  rewrite Hthrow in Hrun. rewrite Hrun. cbn [fst snd].
  split; [reflexivity|].
  cbn [reconnectAttempts timers set_effects].
  unfold heartbeat_stopped.
  destruct (heartbeatInterval _) as [id|]; cbn; (split; [reflexivity|]).
  - intros t Ht. apply In_filter in Ht. tauto.
  - auto.
Qed.

Lemma throwing_disconnected_listener_prevents_reconnect_witness :
  let w := fst (run_sync (on "disconnected" faulty) initial) in
  first_throw (VObj [("code", VNum 1006); ("reason", VStr "")])
              (subscribers "disconnected" w) = Some (Thrown "boom") /\
  shouldReconnect w = true /\
  snd (run_sync (onclose 1006 "" ) w) = Finished (Err (Thrown "boom")) /\
  reconnectAttempts (fst (run_sync (onclose 1006 "") w)) = reconnectAttempts w /\
  (forall t, In t (timers (fst (run_sync (onclose 1006 "") w))) -> In t (timers w)).
Proof.
  intros w. split; [reflexivity|]. split; [reflexivity|].
  exact (throwing_disconnected_listener_prevents_reconnect
           1006 "" w (Thrown "boom") eq_refl).
Defined.

(** *** State queries *)

(** [isConnected()] and [getConnectionState()] agree: the first answers
    true exactly when the second answers ["OPEN"]. *)
Theorem isConnected_iff_state_is_OPEN (w : world) :
  isConnected w = true <-> getConnectionState w = "OPEN".
Proof.
  unfold isConnected, ws_is_open, getConnectionState.
  destruct (ws w) as [sid|]; [|split; discriminate].
  destruct (sockets w !! sid) as [s|]; cbn; [|split; discriminate].
  destruct (sock_state s); cbn; split; (reflexivity || discriminate).
Qed.

(** *** Frames *)

Lemma delivered_to_all (event : string) (arg : value) (ls : list listener) :
  first_throw arg ls = None ->
  delivered event arg ls = map (fun cb => Called (lid cb) event arg) ls.
Proof.
  induction ls as [|cb rest IH]; [reflexivity|].
  cbn [first_throw delivered map]. destruct (body cb arg); [discriminate|].
  intros H. rewrite IH by exact H. reflexivity.
Qed.

(** When no subscriber throws, a frame of category [c] is handed to every
    subscriber of [c] exactly once, in registration order, with the frame's
    [data]; subscribers of other events are not called, and nothing but the
    trace changes. *)
Theorem frame_reaches_every_subscriber_in_order
    (c : string) (fields : list (string * value)) (w : world) :
  In c categories ->
  lookup_field "type" fields = VStr c ->
  first_throw (lookup_field "data" fields) (subscribers c w) = None ->
  run_sync (onmessage (Json (VObj fields))) w =
  (set_effects
     (effects w ++
      Console LOG "Received WebSocket message:" ::
      Console LOG (handler_label c) ::
      map (fun cb => Called (lid cb) c (lookup_field "data" fields)) (subscribers c w)) w,
   Finished (Ok tt)).
Proof.
  intros Hc Hty Hclean.
  rewrite (Channel.run_onmessage_category c fields w Hc Hty), Hclean.
  rewrite (delivered_to_all _ _ _ Hclean). cbn [caught]. rewrite app_nil_r. reflexivity.
Qed.

Lemma frame_reaches_every_subscriber_in_order_witness :
  let w := fst (run_sync (on "leave_update" sound ;;;
                          on "leave_update" (mkListener 3 (fun _ => None))) initial) in
  let fields := [("type", VStr "leave_update"); ("data", VNum 7)] in
  In "leave_update" categories /\
  lookup_field "type" fields = VStr "leave_update" /\
  first_throw (lookup_field "data" fields) (subscribers "leave_update" w) = None /\
  run_sync (onmessage (Json (VObj fields))) w =
  (set_effects
     [Console LOG "Received WebSocket message:"; Console LOG "Leave update:";
      Called 2 "leave_update" (VNum 7); Called 3 "leave_update" (VNum 7)] w,
   Finished (Ok tt)).
Proof.
  intros w fields.
  split; [right; right; left; reflexivity|]. split; [reflexivity|].
  split; [reflexivity|].
  exact (frame_reaches_every_subscriber_in_order "leave_update" fields w
           (or_intror (or_intror (or_introl eq_refl))) eq_refl eq_refl).
Defined.

(** A frame that is not JSON, and the JSON value [null], are survived: the
    handler prints one error line, calls no subscriber, throws nothing and
    leaves every field, socket and timer as it was. *)
Theorem malformed_frames_are_survived (w : world) :
  run_sync (onmessage SyntaxError) w =
    (set_effects (effects w ++ [Console ERROR "Error parsing WebSocket message:"]) w,
     Finished (Ok tt)) /\
  run_sync (onmessage (Json VNull)) w =
    (set_effects
       (effects w ++
        [Console LOG "Received WebSocket message:";
         Console ERROR "Error parsing WebSocket message:"]) w,
     Finished (Ok tt)) /\
  calls_nobody w (fst (run_sync (onmessage SyntaxError) w)) /\
  calls_nobody w (fst (run_sync (onmessage (Json VNull)) w)).
Proof.
  assert (H1 : run_sync (onmessage SyntaxError) w =
    (set_effects (effects w ++ [Console ERROR "Error parsing WebSocket message:"]) w,
     Finished (Ok tt))) by reflexivity.
  assert (H2 : run_sync (onmessage (Json VNull)) w =
    (set_effects
       (effects w ++
        [Console LOG "Received WebSocket message:";
         Console ERROR "Error parsing WebSocket message:"]) w,
     Finished (Ok tt))).
  { cbn. rewrite <- app_assoc. reflexivity. }
  split; [exact H1|]. split; [exact H2|].
  unfold calls_nobody. rewrite H1, H2. cbn [fst].
  rewrite !Channel.added_set_effects. split; reflexivity.
Qed.

(** *** Open, then close *)

Lemma stopped_fields (w : world) :
  reconnectAttempts (heartbeat_stopped w) = reconnectAttempts w /\
  maxReconnectAttempts (heartbeat_stopped w) = maxReconnectAttempts w /\
  reconnectInterval (heartbeat_stopped w) = reconnectInterval w /\
  shouldReconnect (heartbeat_stopped w) = shouldReconnect w /\
  listeners (heartbeat_stopped w) = listeners w /\
  next_timer (heartbeat_stopped w) = next_timer w.
Proof. unfold heartbeat_stopped. destruct (heartbeatInterval w); repeat split. Qed.

Lemma run_onopen (w : world) :
  let w0 :=
    heartbeat_started
      (set_reconnectAttempts 0
         (set_isConnecting false
            (set_effects (effects w ++ [Console LOG "WebSocket connected"]) w))) in
  exists r,
    run_sync onopen w =
    (set_effects
       (effects w0 ++ delivered "connected" VUndefined (subscribers "connected" w)) w0,
     Finished r).
Proof.
  cbn zeta. unfold onopen.
  rewrite run_sync_bind. unfold console at 1, tell, modify at 1. cbn [run_sync].
  rewrite run_sync_bind. unfold modify at 1. cbn [run_sync].
  rewrite run_sync_bind. unfold modify at 1. cbn [run_sync].
  rewrite run_sync_bind, run_startHeartbeat, run_sync_bind, Channel.run_emit.
  match goal with
  | |- context [subscribers "connected" (heartbeat_started ?x)] =>
      replace (subscribers "connected" (heartbeat_started x))
        with (subscribers "connected" w)
  end.
  - destruct (emit_result _ _ _); eexists; reflexivity.
  - unfold subscribers, heartbeat_started, heartbeat_stopped.
    destruct (heartbeatInterval _); reflexivity.
Qed.

Lemma started_keeps_reconnect_timers (final : bool) (w : world) :
  well_formed final w ->
  reconnect_delays (heartbeat_started w) = reconnect_delays w.
Proof.
  intros Hw. rewrite <- (stopping_keeps_reconnect_timers final w Hw).
  unfold heartbeat_started, reconnect_delays. cbn [timers set_heartbeatInterval set_timers].
  rewrite List.filter_app. cbn [List.filter tm_callback]. rewrite app_nil_r. reflexivity.
Qed.

(** Every successful open resets the backoff.  Whatever the counter was,
    [onopen] sets it to zero and starts the one heartbeat; an unexpected
    close right after stops the heartbeat and schedules the next attempt
    after the base interval, as attempt number 1. *)
Theorem open_resets_backoff (code : Z) (reason : string) (w : world) :
  well_formed false w ->
  shouldReconnect w = true ->
  first_throw (close_payload code reason) (subscribers "disconnected" w) = None ->
  let w1 := fst (run_sync onopen w) in
  let w2 := fst (run_sync (onclose code reason) w1) in
  reconnectAttempts w1 = 0 /\
  heartbeat_timers w1 = [mkTimer (next_timer w) true 30000 HeartbeatTimer] /\
  reconnectAttempts w2 = 1 /\
  reconnect_delays w2 = reconnect_delays w ++ [reconnectInterval w] /\
  heartbeat_timers w2 = [].
Proof.
  intros Hw Hsr Hclean. cbn zeta.
  destruct (run_onopen w) as (r & Hopen). cbn zeta in Hopen. rewrite Hopen. cbn [fst].
  set (wa := set_reconnectAttempts 0
               (set_isConnecting false
                  (set_effects (effects w ++ [Console LOG "WebSocket connected"]) w)))
    in *.
  assert (Hwa : well_formed false wa).
  { destruct Hw as (Ha & Hm & Hi & Hrest). unfold well_formed, wa.
    cbn [reconnectAttempts maxReconnectAttempts reconnectInterval timers next_timer
         heartbeatInterval shouldReconnect set_reconnectAttempts set_isConnecting
         set_effects].
    split; [lia|]. split; [exact Hm|]. split; [exact Hi|]. exact Hrest. }
  pose proof (well_formed_started false wa Hwa) as Hws.
  set (ws0 := heartbeat_started wa) in *.
  set (w1 := set_effects
               (effects ws0 ++ delivered "connected" VUndefined (subscribers "connected" w))
               ws0) in *.
  assert (Hw1 : well_formed false w1)
    by (eapply well_formed_policy; [|exact Hws]; reflexivity).
  destruct (stopped_fields wa) as (Sa & Sm & Si & Ss & Sl & Sn).
  assert (Ha1 : reconnectAttempts w1 = 0) by (cbn; exact Sa).
  assert (Hm1 : maxReconnectAttempts w1 = 5).
  { destruct Hw1 as (_ & Hm & _). exact Hm. }
  assert (Hi1 : reconnectInterval w1 = reconnectInterval w) by (cbn; exact Si).
  assert (Hs1 : shouldReconnect w1 = true) by (cbn; rewrite Ss; exact Hsr).
  assert (Hl1 : subscribers "disconnected" w1 = subscribers "disconnected" w).
  { unfold subscribers. cbn. rewrite Sl. reflexivity. }
  assert (Hd1 : reconnect_delays w1 = reconnect_delays w).
  { change (reconnect_delays w1) with (reconnect_delays ws0).
    unfold ws0. rewrite (started_keeps_reconnect_timers false wa Hwa). reflexivity. }
  split; [exact Ha1|]. split.
  { rewrite (heartbeat_timers_shape false w1 Hw1). cbn. rewrite Sn. reflexivity. }
  pose proof (run_onclose code reason w1) as Hclose. cbn zeta in Hclose.
  fold (close_payload code reason) in Hclose.
  rewrite Hl1, Hclean, Hs1 in Hclose. rewrite Hclose. clear Hclose.
  set (wb := set_isConnecting false
               (set_effects (effects w1 ++ [Console LOG "WebSocket disconnected:"]) w1)).
  assert (Hwb : well_formed false wb)
    by (eapply well_formed_policy; [|exact Hw1]; reflexivity).
  destruct (well_formed_stopped false wb Hwb) as (Hwc & Hnone & Hno).
  destruct (stopped_fields wb) as (Ta & Tm & Ti & Ts & Tl & Tn).
  set (wc := set_effects
               (effects (heartbeat_stopped wb) ++
                delivered "disconnected" (close_payload code reason)
                  (subscribers "disconnected" w))
               (heartbeat_stopped wb)).
  pose proof (handleReconnect_step wc) as Hstep. cbn zeta in Hstep.
  destruct Hstep as (_ & _ & _ & _ & Hcase).
  assert (Hac : reconnectAttempts wc = 0)
    by (unfold wc; cbn [reconnectAttempts set_effects]; rewrite Ta; exact Ha1).
  assert (Hmc : maxReconnectAttempts wc = 5)
    by (unfold wc; cbn [maxReconnectAttempts set_effects]; rewrite Tm; exact Hm1).
  rewrite Hac, Hmc in Hcase. cbn [Z.geb Z.compare] in Hcase.
  destruct Hcase as [Ha2 Ht2].
  split; [rewrite Ha2; reflexivity|].
  assert (Hic : reconnectInterval wc = reconnectInterval w)
    by (unfold wc; cbn [reconnectInterval set_effects]; rewrite Ti; exact Hi1).
  split.
  - unfold reconnect_delays at 1. rewrite Ht2, List.filter_app, map_app.
    cbn [List.filter tm_callback map tm_delay]. rewrite Hic, Z.mul_1_r.
    f_equal.
    change (map tm_delay
              (List.filter
                 (fun t => match tm_callback t with ReconnectTimer => true | _ => false end)
                 (timers wc)))
      with (reconnect_delays (heartbeat_stopped wb)).
    rewrite (stopping_keeps_reconnect_timers false wb Hwb). exact Hd1.
  - unfold heartbeat_timers. rewrite Ht2, List.filter_app.
    cbn [List.filter is_heartbeat tm_callback]. rewrite app_nil_r. exact Hno.
Qed.

Lemma open_resets_backoff_witness :
  let w := set_reconnectAttempts 4 initial in
  well_formed false w /\
  shouldReconnect w = true /\
  first_throw (close_payload 1006 "") (subscribers "disconnected" w) = None /\
  reconnectAttempts (fst (run_sync onopen w)) = 0 /\
  reconnectAttempts (fst (run_sync (onclose 1006 "") (fst (run_sync onopen w)))) = 1 /\
  reconnect_delays (fst (run_sync (onclose 1006 "") (fst (run_sync onopen w)))) = [1000].
Proof.
  intros w.
  assert (Hw : well_formed false w).
  { unfold well_formed. cbn.
    split; [lia|]. split; [reflexivity|]. split; [reflexivity|].
    split; [intros t []|]. split; [constructor|]. split; [intros t []|].
    split; discriminate. }
  split; [exact Hw|]. split; [reflexivity|]. split; [reflexivity|].
  pose proof (open_resets_backoff 1006 "" w Hw eq_refl eq_refl) as H. cbn zeta in H.
  destruct H as (H1 & _ & H3 & H4 & _). auto.
Defined.

(** *** Subscriptions *)

Lemma remove_last_snoc (ls : list listener) (cb : listener) :
  remove_last (lid cb) (ls ++ [cb]) = (ls, true).
Proof.
  induction ls as [|x ls IH].
  - cbn. rewrite Nat.eqb_refl. reflexivity.
  - cbn [app remove_last]. rewrite IH. reflexivity.
Qed.

Lemma remove_last_absent (l : nat) (ls : list listener) :
  ~ In l (map lid ls) -> remove_last l ls = (ls, false).
Proof.
  induction ls as [|x ls IH]; [reflexivity|].
  intros H. cbn [remove_last]. rewrite IH by (intros H'; apply H; right; exact H').
  destruct (Nat.eqb_spec (lid x) l) as [E|E]; [|reflexivity].
  exfalso. apply H. left. exact E.
Qed.

Lemma remove_last_latest (l : nat) (l1 l2 : list listener) (x : listener) :
  lid x = l -> ~ In l (map lid l2) ->
  remove_last l (l1 ++ x :: l2) = (l1 ++ l2, true).
Proof.
  intros Hx Hl2. induction l1 as [|y l1 IH].
  - cbn [app remove_last]. rewrite (remove_last_absent _ _ Hl2).
    rewrite Hx, Nat.eqb_refl. reflexivity.
  - cbn [app remove_last]. rewrite IH. reflexivity.
Qed.

Lemma subscribers_on (event e : string) (cb : listener) (w : world) :
  subscribers e (fst (run_sync (on event cb) w)) =
  if decide (e = event) then subscribers event w ++ [cb] else subscribers e w.
Proof.
  unfold on, modify, subscribers. cbn [run_sync fst listeners set_listeners].
  destruct (decide (e = event)) as [->|Hne].
  - rewrite lookup_insert_eq. reflexivity.
  - rewrite lookup_insert_ne by congruence. reflexivity.
Qed.

Lemma subscribers_off (event e : string) (cb : listener) (w : world) :
  subscribers e (fst (run_sync (off event cb) w)) =
  if decide (e = event) then fst (remove_last (lid cb) (subscribers event w))
  else subscribers e w.
Proof.
  unfold off, modify, subscribers. cbn [run_sync fst].
  destruct (listeners w !! event) as [ls|] eqn:E.
  - cbn [listeners set_listeners].
    destruct (decide (e = event)) as [->|Hne].
    + rewrite lookup_insert_eq. reflexivity.
    + rewrite lookup_insert_ne by congruence. reflexivity.
  - destruct (decide (e = event)) as [->|Hne]; [|reflexivity].
    rewrite E. reflexivity.
Qed.

(** Subscribing and unsubscribing.  Each of the five helpers appends the
    callback to the listeners of its own event and returns a closure; that
    closure, called next, leaves every event with exactly the listeners it
    had before, and nothing else in the service has changed. *)
Theorem unsubscribe_undoes_subscribe (cb : listener) (w : world) :
  Forall (fun h : (listener -> async world (async world unit)) * string =>
            let (helper, event) := h in
            let w1 := fst (run_sync (helper cb) w) in
            let w2 := fst (run_sync (off event cb) w1) in
            snd (run_sync (helper cb) w) = Finished (Ok (off event cb)) /\
            subscribers event w1 = subscribers event w ++ [cb] /\
            (forall e, e <> event -> subscribers e w1 = subscribers e w) /\
            (forall e, subscribers e w2 = subscribers e w) /\
            set_listeners (listeners w) w2 = w)
         subscription_helpers.
Proof.
  assert (H : forall event,
    let w1 := fst (run_sync (on event cb) w) in
    let w2 := fst (run_sync (off event cb) w1) in
    subscribers event w1 = subscribers event w ++ [cb] /\
    (forall e, e <> event -> subscribers e w1 = subscribers e w) /\
    (forall e, subscribers e w2 = subscribers e w) /\
    set_listeners (listeners w) w2 = w).
  { intros event w1 w2. split; [|split; [|split]].
    - unfold w1. rewrite subscribers_on. rewrite decide_True by reflexivity. reflexivity.
    - intros e He. unfold w1. rewrite subscribers_on. rewrite decide_False by exact He.
      reflexivity.
    - intros e. unfold w2. rewrite subscribers_off. unfold w1.
      destruct (decide (e = event)) as [->|He].
      + rewrite subscribers_on, decide_True by reflexivity.
        rewrite remove_last_snoc. reflexivity.
      + rewrite subscribers_on, decide_False by exact He. reflexivity.
    - unfold w2, w1, on, off, modify. cbn [run_sync fst listeners set_listeners].
      rewrite lookup_insert_eq. destruct w; reflexivity. }
  unfold subscription_helpers.
  repeat (apply Forall_cons_2; [split; [reflexivity|apply H]|]). apply Forall_nil_2.
Qed.

(** [off] removes one registration, the latest.  A callback that is not
    registered for the event is ignored; of a callback registered more than
    once only the most recent registration goes, the earlier ones and every
    other listener keep their places. *)
Theorem off_removes_the_latest_registration (event : string) (cb : listener) (w : world) :
  let w' := fst (run_sync (off event cb) w) in
  (~ In (lid cb) (map lid (subscribers event w)) ->
   subscribers event w' = subscribers event w) /\
  (forall l1 x l2,
     subscribers event w = l1 ++ x :: l2 ->
     lid x = lid cb ->
     ~ In (lid cb) (map lid l2) ->
     subscribers event w' = l1 ++ l2) /\
  (forall e, e <> event -> subscribers e w' = subscribers e w).
Proof.
  intros w'. unfold w'. split; [|split].
  - intros H. rewrite subscribers_off, decide_True by reflexivity.
    rewrite (remove_last_absent _ _ H). reflexivity.
  - intros l1 x l2 Hls Hx Hl2. rewrite subscribers_off, decide_True by reflexivity.
    rewrite Hls, (remove_last_latest _ l1 l2 x Hx Hl2). reflexivity.
  - intros e He. rewrite subscribers_off, decide_False by exact He. reflexivity.
Qed.

(** The same callback registered twice, around another one. *)
Lemma off_removes_the_latest_registration_witness :
  let w := register "notification" [sound; faulty; sound] initial in
  subscribers "notification" w = [sound; faulty] ++ sound :: [] /\
  ~ In (lid sound) (map lid []) /\
  subscribers "notification" (fst (run_sync (off "notification" sound) w)) =
    [sound; faulty].
Proof.
  intros w.
  assert (Hls : subscribers "notification" w = [sound; faulty] ++ sound :: [])
    by reflexivity.
  assert (Hno : ~ In (lid sound) (map lid [])) by (intros []).
  split; [exact Hls|]. split; [exact Hno|].
  exact (proj1 (proj2 (off_removes_the_latest_registration "notification" sound w))
           [sound; faulty] sound [] Hls eq_refl Hno).
Defined.

(** *** Connecting and disconnecting *)

Lemma run_disconnect (w : world) :
  run_sync disconnect w = (disconnected w, Finished (Ok tt)).
Proof.
  unfold disconnect, disconnected. rewrite run_sync_bind. unfold modify at 1.
  cbn [run_sync]. rewrite run_sync_bind, run_stopHeartbeat. unfold get.
  cbn [bind run_sync].
  assert (Hws : ws (heartbeat_stopped (set_shouldReconnect false w)) = ws w).
  { unfold heartbeat_stopped. destruct (heartbeatInterval _); reflexivity. }
  assert (Hso : sockets (heartbeat_stopped (set_shouldReconnect false w)) = sockets w).
  { unfold heartbeat_stopped. destruct (heartbeatInterval _); reflexivity. }
  rewrite Hws. destruct (ws w) as [sid|]; [|reflexivity].
  cbn [run_sync tell modify]. rewrite Hso. reflexivity.
Qed.

(** [disconnect()] in any state.  It never throws; it lets go of the socket
    ([this.ws] is null, so the service reports CLOSED and not connected),
    asks the socket it held to close, stops the heartbeat and switches
    reconnection off.  It does not touch [isConnecting] or the reconnect
    counter, and every other socket is left alone.  A [sendMessage]
    afterwards only prints its warning. *)
Theorem disconnect_lets_go_of_the_socket (w : world) (message : value) :
  let w' := fst (run_sync disconnect w) in
  snd (run_sync disconnect w) = Finished (Ok tt) /\
  ws w' = None /\
  isConnected w' = false /\
  getConnectionState w' = "CLOSED" /\
  shouldReconnect w' = false /\
  heartbeatInterval w' = None /\
  isConnecting w' = isConnecting w /\
  reconnectAttempts w' = reconnectAttempts w /\
  sockets w' =
    match ws w with
    | Some sid => alter close_socket sid (sockets w)
    | None => sockets w
    end /\
  run_sync (sendMessage message) w' =
    (set_effects
       (effects w' ++ [Console WARN "WebSocket is not connected, cannot send message"]) w',
     Finished (Ok tt)).
Proof.
  cbn zeta. rewrite run_disconnect. cbn [fst snd].
  assert (Hws : ws (disconnected w) = None).
  { unfold disconnected, heartbeat_stopped.
    destruct (ws w) eqn:E; destruct (heartbeatInterval _); cbn; try reflexivity; exact E. }
  split; [reflexivity|]. split; [exact Hws|].
  split; [unfold isConnected, ws_is_open; rewrite Hws; reflexivity|].
  split; [unfold getConnectionState; rewrite Hws; reflexivity|].
  split; [unfold disconnected, heartbeat_stopped;
          destruct (ws w); destruct (heartbeatInterval _) eqn:E; cbn; reflexivity|].
  split; [unfold disconnected, heartbeat_stopped;
          destruct (ws w); cbn [heartbeatInterval set_shouldReconnect];
          destruct (heartbeatInterval w) eqn:E; cbn; try reflexivity; exact E|].
  split; [unfold disconnected, heartbeat_stopped;
          destruct (ws w); destruct (heartbeatInterval _); reflexivity|].
  split; [unfold disconnected, heartbeat_stopped;
          destruct (ws w); destruct (heartbeatInterval _); reflexivity|].
  split; [unfold disconnected, heartbeat_stopped;
          destruct (ws w); destruct (heartbeatInterval _); reflexivity|].
  unfold sendMessage, get. cbn [bind run_sync]. unfold ws_is_open. rewrite Hws.
  reflexivity.
Qed.

Lemma insert_at_end (l : list socket) (x y : socket) :
  <[length l := y]> (l ++ [x]) = l ++ [y].
Proof. induction l as [|a l IH]; [reflexivity|]. cbn. f_equal. exact IH. Qed.

Lemma lookup_at_end (l : list socket) (x : socket) :
  (l ++ [x]) !! length l = Some x.
Proof. induction l as [|a l IH]; [reflexivity|]. exact IH. Qed.

Lemma run_connect_resumption_token (token : string) (w : world) :
  truthy (Some token) = true ->
  run_sync (connect_resumption (RItem (Some token))) w =
  (socket_built token w, Finished (Ok tt)).
Proof.
  intros Htok.
  change (connect_resumption (RItem (Some token))) with
    (try_catch
       (if negb (truthy (Some token)) then
          console WARN "No auth token found, cannot connect to WebSocket" ;;;
          modify (set_isConnecting false)
        else
          w <- get ;;
          let wsUrl :=
            (baseUrl w ++ "/ws/notifications/?token=" ++ default "" (Some token))%string in
          console LOG "Connecting to WebSocket:" ;;;
          new_WebSocket wsUrl ;;;
          setupEventHandlers)
       (fun error =>
          console ERROR "WebSocket connection error:" ;;;
          modify (set_isConnecting false) ;;;
          handleReconnect)).
  rewrite Htok. cbn [negb]. destruct w.
  unfold console, new_WebSocket, setupEventHandlers, tell, modify, get.
  cbn [bind try_catch run_sync ws set_ws set_sockets set_effects sockets effects
       default baseUrl].
  rewrite lookup_at_end. cbn [bind try_catch run_sync sock_url sock_state sockets set_sockets].
  rewrite insert_at_end.
  unfold socket_built, notifications_url.
  cbn [set_ws set_sockets set_effects effects sockets baseUrl].
  rewrite <- app_assoc. reflexivity.
Qed.

Lemma run_connect_resumption_failure (e : exn) (w : world) :
  run_sync (connect_resumption (RReject e)) w =
  run_sync handleReconnect
    (set_isConnecting false
       (set_effects (effects w ++ [Console ERROR "WebSocket connection error:"]) w)).
Proof.
  change (connect_resumption (RReject e)) with
    (try_catch (Raise e)
       (fun error =>
          console ERROR "WebSocket connection error:" ;;;
          modify (set_isConnecting false) ;;;
          handleReconnect)).
  cbn [try_catch]. rewrite run_sync_bind. unfold console at 1, tell, modify at 1.
  cbn [run_sync]. rewrite run_sync_bind. unfold modify at 1. cbn [run_sync]. reflexivity.
Qed.

(** [connect()] from a service that is neither connecting nor open.  The
    call sets [isConnecting] and suspends on the read of ["auth_token"].
    When a token arrives, whatever the world has become by then, the rest
    of the call constructs exactly one socket, for the URL made of the base
    URL of that moment and the token, wires the handlers to it and makes it
    the socket the service holds; [isConnecting] stays as it is until the
    socket reports.  When the read fails instead, the rest of the call logs
    the error, clears [isConnecting] and runs [handleReconnect]. *)
Theorem connect_builds_one_socket_for_the_token
    (w w' : world) (token : string) (e : exn) :
  isConnecting w = false ->
  ws_is_open w = false ->
  truthy (Some token) = true ->
  exists k,
    run_sync connect w = (set_isConnecting true w, Blocked (GetItem "auth_token") k) /\
    run_sync (k (RItem (Some token))) w' = (socket_built token w', Finished (Ok tt)) /\
    ws (socket_built token w') = Some (length (sockets w')) /\
    sockets (socket_built token w') =
      sockets w' ++ [mkSocket (notifications_url w' token) CONNECTING true] /\
    policy (socket_built token w') = policy w' /\
    isConnecting (socket_built token w') = isConnecting w' /\
    run_sync (k (RReject e)) w' =
      run_sync handleReconnect
        (set_isConnecting false
           (set_effects (effects w' ++ [Console ERROR "WebSocket connection error:"]) w')).
Proof.
  intros Hc Ho Htok. exists connect_resumption.
  split; [rewrite run_connect, Hc, Ho; reflexivity|].
  split; [apply run_connect_resumption_token, Htok|].
  split; [reflexivity|]. split; [reflexivity|]. split; [reflexivity|].
  split; [reflexivity|]. apply run_connect_resumption_failure.
Qed.

(** [disconnect()] does not cancel a [connect()] that is waiting for the
    token.  The token read answers after the disconnect, the socket is
    constructed all the same and opens: the service is connected and sends
    its heartbeat although the application has disconnected, and with
    reconnection switched off. *)
Theorem disconnect_does_not_cancel_a_pending_connect :
  constructed (sys_world disconnect_during_connect) = [0%nat] /\
  channel_open disconnect_during_connect = true /\
  shouldReconnect (sys_world disconnect_during_connect) = false /\
  heartbeat_timers (sys_world disconnect_during_connect) =
    [mkTimer 1 true 30000 HeartbeatTimer].
Proof. vm_compute. repeat split; reflexivity. Qed.

(** A socket error nobody listens to.  [onerror] re-emits the error on the
    emitter's ['error'] event, and an ['error'] event without a listener is
    thrown by [emit]: the handler clears [isConnecting] and then throws.
    With a listener of ['error'] registered (and not throwing) it returns
    normally. *)
Theorem socket_error_without_listener_throws (error : value) (w : world) :
  let w' :=
    set_isConnecting false (set_effects (effects w ++ [Console ERROR "WebSocket error:"]) w) in
  (subscribers "error" w = [] ->
   run_sync (onerror error) w = (w', Finished (Err (Thrown "Unhandled error.")))) /\
  (subscribers "error" w <> [] ->
   first_throw error (subscribers "error" w) = None ->
   run_sync (onerror error) w =
     (set_effects (effects w' ++ delivered "error" error (subscribers "error" w)) w',
      Finished (Ok tt))).
Proof.
  cbn zeta.
  assert (Hrun : run_sync (onerror error) w =
    let w' := set_isConnecting false
                (set_effects (effects w ++ [Console ERROR "WebSocket error:"]) w) in
    (set_effects (effects w' ++ delivered "error" error (subscribers "error" w)) w',
     Finished (match emit_result "error" error (subscribers "error" w) with
               | Ok _ => Ok tt | Err e => Err e end))).
  { unfold onerror. rewrite run_sync_bind. unfold console at 1, tell, modify at 1.
    cbn [run_sync]. rewrite run_sync_bind. unfold modify at 1. cbn [run_sync].
    rewrite run_sync_bind, Channel.run_emit.
    change (subscribers "error" (set_isConnecting false _)) with (subscribers "error" w).
    cbn zeta. destruct (emit_result _ _ _); reflexivity. }
  split.
  - intros Hnone. rewrite Hrun, Hnone. cbn [delivered emit_result]. cbn zeta.
    rewrite app_nil_r. reflexivity.
  - intros Hsome Hclean. rewrite Hrun. cbn zeta. unfold emit_result. rewrite Hclean.
    destruct (subscribers "error" w); [contradiction|reflexivity].
Qed.

Lemma run_updateServerUrl (newUrl : string) (w : world) :
  run_sync (updateServerUrl newUrl) w =
  if isConnected w then
    let w1 := disconnected (set_baseUrl newUrl w) in
    (set_timers (timers w1 ++ [mkTimer (next_timer w1) false 1000 UpdateUrlTimer])
                (S (next_timer w1)) w1,
     Finished (Ok tt))
  else (set_baseUrl newUrl w, Finished (Ok tt)).
Proof.
  unfold updateServerUrl. rewrite run_sync_bind. unfold modify at 1. cbn [run_sync].
  unfold get. cbn [bind run_sync].
  change (isConnected (set_baseUrl newUrl w)) with (isConnected w).
  destruct (isConnected w); [|reflexivity].
  rewrite run_sync_bind, run_disconnect. reflexivity.
Qed.

Lemma updateServerUrl_sound (newUrl : string) (sy : system) :
  sound_system false sy ->
  isConnected (sys_world sy) = true ->
  sound_system true (deliver (Called_by_app (updateServerUrl newUrl)) sy).
Proof.
  intros [Hw Hk] Hopen. cbn [deliver]. unfold settle.
  rewrite run_updateServerUrl, Hopen. cbn zeta. split; [|exact Hk]. cbn [sys_world].
  assert (Hoff : well_formed true (set_shouldReconnect false (set_baseUrl newUrl (sys_world sy)))).
  { destruct Hw as (Ha & Hm & Hi & Hlt & Hnd & Hhb & Hreg & _).
    unfold well_formed. cbn [reconnectAttempts maxReconnectAttempts reconnectInterval
      timers next_timer heartbeatInterval shouldReconnect set_shouldReconnect set_baseUrl].
    tauto. }
  set (w0 := set_baseUrl newUrl (sys_world sy)) in *.
  assert (Hd : well_formed true (disconnected w0)).
  { destruct (ends_in_run _ disconnect _ (ends_disconnect true) Hoff) as (w' & r & Hrun & Hw').
    rewrite run_disconnect in Hrun. injection Hrun as <- _.
    eapply well_formed_policy; [|exact Hw'].
    unfold disconnected. cbn [ws set_shouldReconnect].
    assert (E : set_shouldReconnect false (set_shouldReconnect false w0) =
                set_shouldReconnect false w0) by reflexivity.
    rewrite E. reflexivity. }
  apply (well_formed_schedule true false UpdateUrlTimer 1000 (disconnected w0));
    [discriminate | exact Hd].
Qed.

(** Changing the server URL.  On a service that is not connected
    [updateServerUrl] only replaces the base URL.  On an open channel it
    also disconnects and schedules one [connect()] a second later, and that
    [disconnect()] switches reconnection off: from then on, whatever
    happens, the new connection included, [shouldReconnect] is false, a
    reconnect timer that fires does nothing and a lost connection schedules
    no reconnect. *)
Theorem updateServerUrl_switches_reconnection_off
    (xs ys : list stimulus) (newUrl : string) (code : Z) (reason : string) :
  let w0 := sys_world (drive xs boot) in
  let w := sys_world (drive (xs ++ App_updateServerUrl newUrl :: ys) boot) in
  (isConnected w0 = false ->
   run_sync (updateServerUrl newUrl) w0 = (set_baseUrl newUrl w0, Finished (Ok tt))) /\
  (isConnected w0 = true ->
   (let w1 := fst (run_sync (updateServerUrl newUrl) w0) in
    baseUrl w1 = newUrl /\ ws w1 = None /\
    timers w1 =
      timers (heartbeat_stopped w0) ++ [mkTimer (next_timer w0) false 1000 UpdateUrlTimer]) /\
   shouldReconnect w = false /\
   run_sync (fire ReconnectTimer) w = (w, Finished (Ok tt)) /\
   reconnect_delays (fst (run_sync (onclose code reason) w)) = reconnect_delays w).
Proof.
  cbn zeta. split.
  - intros Hclosed. rewrite run_updateServerUrl, Hclosed. reflexivity.
  - intros Hopen. split.
    + rewrite run_updateServerUrl, Hopen. cbn zeta. cbn [fst].
      unfold disconnected. cbn [ws set_baseUrl].
      set (w0 := sys_world (drive xs boot)) in *.
      pose proof Hopen as Ho. unfold isConnected, ws_is_open in Ho.
      unfold heartbeat_stopped. cbn [heartbeatInterval set_shouldReconnect set_baseUrl].
      destruct (ws w0); [|discriminate Ho].
      destruct (heartbeatInterval w0); repeat split; reflexivity.
    + assert (Hs : sound_system true (drive (xs ++ App_updateServerUrl newUrl :: ys) boot)).
      { unfold drive, deliver_all. rewrite map_app, fold_left_app. cbn [map fold_left].
        apply (drive_sound true ys), updateServerUrl_sound.
        - apply (drive_sound false xs), boot_sound.
        - exact Hopen. }
      destruct Hs as [Hw _].
      set (w := sys_world (drive (xs ++ App_updateServerUrl newUrl :: ys) boot)) in *.
      pose proof Hw as (_ & _ & _ & _ & _ & _ & _ & Hfin).
      specialize (Hfin eq_refl).
      split; [exact Hfin|]. split.
      * unfold fire, get. cbn [bind run_sync]. rewrite Hfin. reflexivity.
      * pose proof (run_onclose code reason w) as Hrun. cbn zeta in Hrun.
        rewrite Hrun, Hfin.
        assert (Hd : forall x w0, reconnect_delays (set_effects x w0) = reconnect_delays w0)
          by reflexivity.
        destruct (first_throw _ _); cbn [fst]; rewrite Hd;
          rewrite (stopping_keeps_reconnect_timers true);
          try reflexivity;
          (eapply well_formed_policy; [|exact Hw]); reflexivity.
Qed.

Lemma updateServerUrl_switches_reconnection_off_witness :
  let w0 := sys_world (drive open_channel boot) in
  let w := sys_world (drive (open_channel ++ App_updateServerUrl "ws://10.0.0.2:8000"
                               :: url_changed_then_lost) boot) in
  isConnected w0 = true /\
  sock_url <$> sockets w !! 1%nat = Some "ws://10.0.0.2:8000/ws/notifications/?token=token" /\
  sock_state <$> sockets w = [CLOSING; CLOSED] /\
  shouldReconnect w = false /\
  reconnect_delays w = [].
Proof.
  intros w0 w.
  assert (Hopen : isConnected w0 = true) by reflexivity.
  split; [exact Hopen|]. split; [vm_compute; reflexivity|].
  split; [vm_compute; reflexivity|].
  split; [|vm_compute; reflexivity].
  exact (proj1 (proj2 (proj2 (updateServerUrl_switches_reconnection_off
                         open_channel url_changed_then_lost "ws://10.0.0.2:8000" 1006 "")
                       Hopen))).
Defined.

(** The first connection of a service, with the URL changed while the token
    was being read. *)
Lemma connect_builds_one_socket_for_the_token_witness :
  let w' := set_baseUrl "ws://10.0.0.2:8000" (set_isConnecting true initial) in
  isConnecting initial = false /\
  ws_is_open initial = false /\
  truthy (Some "token") = true /\
  exists k,
    run_sync connect initial =
      (set_isConnecting true initial, Blocked (GetItem "auth_token") k) /\
    run_sync (k (RItem (Some "token"))) w' = (socket_built "token" w', Finished (Ok tt)) /\
    sockets (socket_built "token" w') =
      [mkSocket "ws://10.0.0.2:8000/ws/notifications/?token=token" CONNECTING true].
Proof.
  intros w'. split; [reflexivity|]. split; [reflexivity|]. split; [reflexivity|].
  destruct (connect_builds_one_socket_for_the_token initial w' "token" (Thrown "")
              eq_refl eq_refl eq_refl) as (k & Hcall & Htoken & _ & Hsockets & _).
  exists k. split; [exact Hcall|]. split; [exact Htoken|]. exact Hsockets.
Defined.

Lemma socket_error_without_listener_throws_witness :
  subscribers "error" initial = [] /\
  run_sync (onerror VNull) initial =
    (set_isConnecting false (set_effects [Console ERROR "WebSocket error:"] initial),
     Finished (Err (Thrown "Unhandled error."))) /\
  effects (sys_world (deliver (SocketError 0%nat VNull) opened)) =
    effects (sys_world opened) ++
    [Console ERROR "WebSocket error:"; Uncaught (Thrown "Unhandled error.")].
Proof.
  split; [reflexivity|]. split; [|vm_compute; reflexivity].
  apply (proj1 (socket_error_without_listener_throws VNull initial)). reflexivity.
Defined.
End ChannelLaws.
